(** * Expense workflow: a shallow embedding of the server core

    The development follows the TypeScript sources of the expense
    application: [server/storage.ts] (the in-memory record store
    [MemStorage]), [server/routes.ts] (the HTTP handlers), the
    notification service and the spreadsheet service.

    - JavaScript numbers are IEEE-754 binary64 values; they are modelled
      by [spec_float] at precision 53 and maximal exponent 1024, with the
      operations of the Standard Library's executable specification.
      Ids, counters and time values are integers far below 2^53, where
      the arithmetic of numbers is exact; they are kept in [Z], and so is
      a row number, which is rounded to a number where it is read from a
      reply.
    - A text is held as the bytes of its UTF-8 encoding.
    - A [Map] is a list of bindings in insertion order.
    - [async] functions run to completion one after the other; a function
      that may throw returns an [Outcome], and the calls made to the
      Google services are answered by an [External] record and written
      to a log.
    - The first part holds the program and the vocabulary of the
      statements, the second part the proofs. *)

From Stdlib Require Import ZArith List String Ascii Bool Lia.
From Stdlib Require Import Floats.SpecFloat.
From Stdlib Require Import Sorting.Sorted Sorting.Permutation.
Import ListNotations.

Local Open Scope string_scope.
Local Open Scope Z_scope.

(* ================================================================== *)
(** * The JavaScript built-ins the server code relies on               *)
(* ================================================================== *)

Module JS.

(** A JavaScript [number]. *)
Definition number := spec_float.

Definition prec : Z := 53.
Definition emax : Z := 1024.

(** [a * b] and [a + b] on numbers. *)
Definition mul (a b : number) : number := SFmul prec emax a b.
Definition add (a b : number) : number := SFadd prec emax a b.

Definition NaN : number := S754_nan.
Definition zero : number := S754_zero false.

(** The number nearest to [d * 10^k] (ties to even), with sign [neg]. *)
Definition of_decimal (neg : bool) (d : Z) (k : Z) : number :=
  match d with
  | Zpos p =>
      if 0 <=? k
      then binary_normalize prec emax
             (if neg then Z.opp (d * 10 ^ k) else d * 10 ^ k) 0 neg
      else SFdiv prec emax (S754_finite neg p 0)
             (S754_finite false (Z.to_pos (10 ^ (- k))) 0)
  | _ => S754_zero neg
  end.

(** ** Characters and digit strings *)

Definition is_digit (c : ascii) : bool :=
  let n := nat_of_ascii c in (48 <=? n)%nat && (n <=? 57)%nat.

Definition digit_val (c : ascii) : Z := Z.of_nat (nat_of_ascii c) - 48.

Definition digit_char (d : Z) : ascii := ascii_of_nat (Z.to_nat (48 + d)).

(** The white space [parseFloat] and [parseInt] skip ([StrWhiteSpaceChar]):
    the characters of one byte are TAB, LF, VT, FF, CR and the space. *)
Definition is_space (c : ascii) : bool :=
  let n := nat_of_ascii c in
  ((9 <=? n)%nat && (n <=? 13)%nat) || (n =? 32)%nat.

(** Of two bytes: the no-break space U+00A0. *)
Definition is_space2 (c d : ascii) : bool :=
  ((nat_of_ascii c =? 194) && (nat_of_ascii d =? 160))%nat.

(** Of three bytes: U+1680, U+2000 to U+200A, the line and paragraph
    separators U+2028 and U+2029, U+202F, U+205F, U+3000 and the byte
    order mark U+FEFF. *)
Definition is_space3 (c d e : ascii) : bool :=
  let c := nat_of_ascii c in
  let d := nat_of_ascii d in
  let e := nat_of_ascii e in
  (((c =? 225) && (d =? 154) && (e =? 128))
   || ((c =? 226) && (d =? 128)
       && (((128 <=? e) && (e <=? 138)) || (e =? 168) || (e =? 169)
           || (e =? 175)))
   || ((c =? 226) && (d =? 129) && (e =? 159))
   || ((c =? 227) && (d =? 128) && (e =? 128))
   || ((c =? 239) && (d =? 187) && (e =? 191)))%nat.

Fixpoint skip_spaces (s : string) : string :=
  match s with
  | String c r =>
      if is_space c then skip_spaces r
      else
        match r with
        | String d r2 =>
            if is_space2 c d then skip_spaces r2
            else
              match r2 with
              | String e r3 => if is_space3 c d e then skip_spaces r3 else s
              | EmptyString => s
              end
        | EmptyString => s
        end
  | EmptyString => s
  end.

(** Longest prefix of decimal digits, and what follows it. *)
Fixpoint span_digits (s : string) : list ascii * string :=
  match s with
  | String c r =>
      if is_digit c
      then let '(ds, rest) := span_digits r in (c :: ds, rest)
      else ([], s)
  | EmptyString => ([], s)
  end.

Definition digits_value (ds : list ascii) : Z :=
  fold_left (fun acc c => 10 * acc + digit_val c) ds 0.

Fixpoint Z_digits_fuel (fuel : nat) (n : Z) (acc : string) : string :=
  match fuel with
  | O => acc
  | S fuel' =>
      let acc' := String (digit_char (n mod 10)) acc in
      if n / 10 =? 0 then acc' else Z_digits_fuel fuel' (n / 10) acc'
  end.

(** Decimal digits of a non-negative integer ("0" for zero). *)
Definition Z_digits (n : Z) : string :=
  Z_digits_fuel (S (Z.to_nat (Z.log2 n))) n "".

Fixpoint zeros (n : nat) : string :=
  match n with
  | O => ""
  | S n' => String "0" (zeros n')
  end.

(** The number nearest to the natural number [n], ties to even: [n]
    itself up to 2^53, beyond that the multiple of [2^k] that keeps 53
    bits. [2^1024] stands for [Infinity]. *)
Definition nearest_number (n : Z) : Z :=
  let k := Z.log2 n - 52 in
  if k <=? 0 then n
  else
    let q := n / 2 ^ k in
    let r := n mod 2 ^ k in
    let half := 2 ^ (k - 1) in
    let q' :=
      if r <? half then q
      else if half <? r then q + 1
      else if Z.even q then q else q + 1 in
    Z.min (q' * 2 ^ k) (2 ^ 1024).

(** ** [parseFloat] *)

(** The exponent part [e[+-]digits], when a complete one is present. *)
Definition parse_exponent (s : string) : Z :=
  match s with
  | String c r =>
      if (Ascii.eqb c "e" || Ascii.eqb c "E")%bool then
        let '(neg, r') :=
          match r with
          | String "-" r1 => (true, r1)
          | String "+" r1 => (false, r1)
          | _ => (false, r)
          end in
        match fst (span_digits r') with
        | [] => 0
        | ds => if neg then - digits_value ds else digits_value ds
        end
      else 0
  | EmptyString => 0
  end.

Definition parse_unsigned (neg : bool) (s : string) : number :=
  if String.prefix "Infinity" s then S754_infinity neg else
  let '(ints, rest) := span_digits s in
  let '(fracs, rest') :=
    match rest with
    | String "." r => span_digits r
    | _ => ([], rest)
    end in
  match ints, fracs with
  | [], [] => NaN
  | _, _ =>
      of_decimal neg (digits_value (ints ++ fracs)%list)
        (parse_exponent rest' - Z.of_nat (List.length fracs))
  end.

(** [parseFloat(s)] for a string [s]: leading white space is skipped, the
  longest prefix that is a decimal literal is converted, and [NaN] is
  returned when there is none. *)
Definition parseFloat (s : string) : number :=
  match skip_spaces s with
  | String "-" r => parse_unsigned true r
  | String "+" r => parse_unsigned false r
  | t => parse_unsigned false t
  end.

(** ** [Number.prototype.toFixed] and [Number.prototype.toString] *)

(** A finite non-zero number [m * 2^e] as the fraction [num / den]. *)
Definition num_of (m : positive) (e : Z) : Z :=
  if 0 <=? e then Zpos m * 2 ^ e else Zpos m.
Definition den_of (e : Z) : Z :=
  if 0 <=? e then 1 else 2 ^ (- e).

(** The integer [n] for which [n / 10^f] is nearest to [m * 2^e], the
  larger one when two are equally near. *)
Definition fixed_units (f : nat) (m : positive) (e : Z) : Z :=
  (2 * num_of m e * 10 ^ Z.of_nat f + den_of e) / (2 * den_of e).

(** Digits of [n] with a decimal point before the last [f] of them. *)
Definition with_point (f : nat) (n : Z) : string :=
  let ds := Z_digits n in
  let k := String.length ds in
  let padded := if (k <=? f)%nat then zeros (f + 1 - k) ++ ds else ds in
  let cut := (String.length padded - f)%nat in
  match f with
  | O => padded
  | _ => substring 0 cut padded ++ "." ++ substring cut f padded
  end.

(** Least [n] with [num / den < 10^n]. *)
Definition lt_pow10 (num den n : Z) : bool :=
  if 0 <=? n then num <? den * 10 ^ n else num * 10 ^ (- n) <? den.

Fixpoint adjust_up (fuel : nat) (num den n : Z) : Z :=
  match fuel with
  | O => n
  | S fuel' => if lt_pow10 num den n then n else adjust_up fuel' num den (n + 1)
  end.

Definition decimal_exponent (m : positive) (e : Z) : Z :=
  let l := Z.log2 (Zpos m) + e in
  adjust_up 4 (num_of m e) (den_of e) ((l * 30103) / 100000 - 1).

(** Does the decimal [s * 10^p] convert back to [x]? *)
Definition reads_back (x : number) (s p : Z) : bool :=
  match SFcompare (of_decimal false s p) x with
  | Some Eq => true
  | _ => false
  end.

(** Shortest digit string: the least [k] for which some [k]-digit decimal
  [s * 10^(n-k)] converts back to the number, the nearest such [s]. *)
Fixpoint shortest (fuel : nat) (k : Z) (m : positive) (e n : Z) : Z * Z * Z :=
  let num := num_of m e in
  let den := den_of e in
  let p := n - k in
  let lo := if 0 <=? p then num / (den * 10 ^ p) else (num * 10 ^ (- p)) / den in
  let hi := lo + 1 in
  let x := S754_finite false m e in
  let ok_lo := (10 ^ (k - 1) <=? lo) && reads_back x lo p in
  let ok_hi := reads_back x hi p in
  (* twice the distance of x*10^-p to the middle of lo and hi, as a sign *)
  let side :=
    if 0 <=? p then (2 * num) ?= (2 * lo + 1) * (den * 10 ^ p)
    else (2 * num * 10 ^ (- p)) ?= (2 * lo + 1) * den in
  let pick :=
    match ok_lo, ok_hi with
    | true, false => Some lo
    | false, true => Some hi
    | true, true =>
        Some match side with
             | Lt => lo
             | Gt => hi
             | Eq => if Z.even lo then lo else hi
             end
    | false, false => None
    end in
  match pick with
  | Some s => if s =? 10 ^ k then (10 ^ (k - 1), k, n + 1) else (s, k, n)
  | None =>
      match fuel with
      | O => (lo, k, n)
      | S fuel' => shortest fuel' (k + 1) m e n
      end
  end.

Fixpoint strip_zeros (fuel : nat) (s k : Z) : Z * Z :=
  match fuel with
  | O => (s, k)
  | S fuel' =>
      if (1 <? k) && (s mod 10 =? 0) then strip_zeros fuel' (s / 10) (k - 1)
      else (s, k)
  end.

(** [Number::toString] of the positive finite number [m * 2^e]. *)
Definition positive_toString (m : positive) (e : Z) : string :=
  let '(s0, k0, n) := shortest 17 1 m e (decimal_exponent m e) in
  let '(s, k) := strip_zeros 20 s0 k0 in
  let ds := Z_digits s in
  let kn := Z.to_nat k in
  if (k <=? n) && (n <=? 21) then ds ++ zeros (Z.to_nat (n - k))
  else if (0 <? n) && (n <=? 21) then
    substring 0 (Z.to_nat n) ds ++ "." ++ substring (Z.to_nat n) (kn - Z.to_nat n) ds
  else if (-6 <? n) && (n <=? 0) then "0." ++ zeros (Z.to_nat (- n)) ++ ds
  else
    let ex := n - 1 in
    let etxt := (if ex <? 0 then "-" else "+") ++ Z_digits (Z.abs ex) in
    if k =? 1 then ds ++ "e" ++ etxt
    else substring 0 1 ds ++ "." ++ substring 1 (kn - 1) ds ++ "e" ++ etxt.

(** [x.toString()] for a number [x]. *)
Definition Number_toString (x : number) : string :=
  match x with
  | S754_nan => "NaN"
  | S754_zero _ => "0"
  | S754_infinity s => if s then "-Infinity" else "Infinity"
  | S754_finite s m e => (if s then "-" else "") ++ positive_toString m e
  end.

(** [x.toFixed(f)] for a number [x] and [0 <= f <= 100]. *)
Definition toFixed (f : nat) (x : number) : string :=
  match x with
  | S754_finite s m e =>
      if 10 ^ 21 * den_of e <=? num_of m e
      then Number_toString x
      else (if s then "-" else "") ++ with_point f (fixed_units f m e)
  | S754_zero _ => with_point f 0
  | _ => Number_toString x
  end.

End JS.

(* ================================================================== *)
(** * Data model ([shared/schema.ts])                                  *)
(* ================================================================== *)

(** A [Date] object: a time value in milliseconds, or an invalid date
    (what [new Date(text)] yields on text that is not a date). *)
Inductive Date :=
| DateOf (ms : Z)
| InvalidDate.

(** [x || null] on an optional string: the empty string is falsy. *)
Definition or_null (x : option string) : option string :=
  match x with
  | Some "" => None
  | _ => x
  end.

(** [x || ''] on an optional string. *)
Definition or_empty (x : option string) : string :=
  match x with
  | Some s => s
  | None => ""
  end.

(** [x || null] on an optional number: zero is falsy. *)
Definition num_or_null (x : option Z) : option Z :=
  match x with
  | Some 0 => None
  | _ => x
  end.

(** Truthiness of an optional string and of an optional number. *)
Definition truthy (x : option string) : bool :=
  match or_null x with Some _ => true | None => false end.
Definition num_truthy (x : option Z) : bool :=
  match num_or_null x with Some _ => true | None => false end.

Module User.
Record t := mk {
  id : Z;
  email : string;
  name : string;
  department : option string;
  role : string;
  isActive : bool;
  createdAt : Z
}.
End User.

Module InsertUser.
Record t := mk {
  email : string;
  name : string;
  department : option string;
  role : option string;
  isActive : option bool
}.
End InsertUser.

(** An expense row. [submissionDate] and [approvalDate] only ever hold
    [new Date()], so they are kept as time values; [expenseDate] comes
    from submitted text and may be an invalid date. *)
Module Expense.
Record t := mk {
  id : Z;
  employeeId : Z;
  employeeName : string;
  employeeEmail : string;
  department : option string;
  amount : string;
  description : string;
  category : string;
  expenseDate : Date;
  submissionDate : Z;
  status : string;
  approvedBy : option Z;
  approvedByName : option string;
  approvalDate : option Z;
  approvalNote : option string;
  receiptUrl : option string;
  receiptFileName : option string;
  emailId : option string;
  formSubmissionId : option string;
  sheetsRowNumber : option Z;
  notificationSent : bool
}.
End Expense.

(** [Partial<Expense>]: every field may be absent; a nullable field that
    is present may hold [null]. *)
Module PartialExpense.
Record t := mk {
  id : option Z;
  employeeId : option Z;
  employeeName : option string;
  employeeEmail : option string;
  department : option (option string);
  amount : option string;
  description : option string;
  category : option string;
  expenseDate : option Date;
  submissionDate : option Z;
  status : option string;
  approvedBy : option (option Z);
  approvedByName : option (option string);
  approvalDate : option (option Z);
  approvalNote : option (option string);
  receiptUrl : option (option string);
  receiptFileName : option (option string);
  emailId : option (option string);
  formSubmissionId : option (option string);
  sheetsRowNumber : option (option Z);
  notificationSent : option bool
}.

Definition empty : t :=
  mk None None None None None None None None None None None
     None None None None None None None None None None.
End PartialExpense.

(** The amount handed to [createExpense]: a number after schema parsing,
    a string on the ingestion and seeding paths. *)
Inductive Amount :=
| AmountNumber (x : JS.number)
| AmountString (s : string).

(** [amount.toString()]. *)
Definition Amount_toString (a : Amount) : string :=
  match a with
  | AmountNumber x => JS.Number_toString x
  | AmountString s => s
  end.

(** [InsertExpense]: the output type of [insertExpenseSchema]. *)
Module InsertExpense.
Record t := mk {
  employeeId : Z;
  employeeName : string;
  employeeEmail : string;
  department : option string;
  amount : Amount;
  description : string;
  category : string;
  expenseDate : Date;
  status : option string;
  approvalNote : option string;
  receiptUrl : option string;
  receiptFileName : option string;
  emailId : option string;
  formSubmissionId : option string;
  sheetsRowNumber : option Z
}.
End InsertExpense.

(** The two verdicts [updateExpenseStatusSchema] admits. *)
Inductive Verdict := approved | rejected.

Definition Verdict_text (v : Verdict) : string :=
  match v with
  | approved => "approved"
  | rejected => "rejected"
  end.

Module UpdateExpenseStatus.
Record t := mk {
  status : Verdict;
  approvalNote : option string;
  approvedBy : Z;
  approvedByName : string
}.
End UpdateExpenseStatus.

Module SystemSetting.
Record t := mk {
  id : Z;
  key : string;
  value : string;
  updatedAt : Z
}.
End SystemSetting.

Module InsertSystemSetting.
Record t := mk {
  key : string;
  value : string
}.
End InsertSystemSetting.

(* ================================================================== *)
(** * A JavaScript [Map]: keys in insertion order                      *)
(* ================================================================== *)

Section JsMap.
Context {K V : Type}.
Variable eqb : K -> K -> bool.

Fixpoint Map_get (k : K) (m : list (K * V)) : option V :=
  match m with
  | [] => None
  | (k', v) :: m' => if eqb k k' then Some v else Map_get k m'
  end.

(** [set] keeps the position of a key that is present and appends a
    new key at the end. *)
Fixpoint Map_set (k : K) (v : V) (m : list (K * V)) : list (K * V) :=
  match m with
  | [] => [(k, v)]
  | (k', v') :: m' =>
      if eqb k k' then (k, v) :: m' else (k', v') :: Map_set k v m'
  end.

Definition Map_values (m : list (K * V)) : list V := map snd m.
Definition Map_keys (m : list (K * V)) : list K := map fst m.
End JsMap.

(** [Array.prototype.sort(cmp)]: the sort is stable, so with a consistent
    comparator its result is the one stable insertion produces. *)
Section ArraySort.
Context {A : Type}.
Variable cmp : A -> A -> Z.

Fixpoint sort_insert (x : A) (l : list A) : list A :=
  match l with
  | [] => [x]
  | y :: l' => if cmp x y <=? 0 then x :: l else y :: sort_insert x l'
  end.

Definition Array_sort (l : list A) : list A :=
  fold_right sort_insert [] l.
End ArraySort.

(** The comparator of the listings, for a numeric key: larger keys first. *)
Definition by_key_desc {A : Type} (key : A -> Z) (a b : A) : Z := key b - key a.

(** [a] may stand before [b] in a listing by decreasing key. *)
Definition stands_before {A : Type} (key : A -> Z) (a b : A) : Prop :=
  key b <= key a.

(* ================================================================== *)
(** * The record store ([MemStorage], server/storage.ts)               *)
(* ================================================================== *)

Module MemStorage.
Record t := mk {
  users : list (Z * User.t);
  expenses : list (Z * Expense.t);
  settings : list (string * SystemSetting.t);
  currentUserId : Z;
  currentExpenseId : Z;
  currentSettingId : Z
}.
End MemStorage.

Record ExpenseStats := mkStats {
  pendingCount : nat;
  approvedCount : nat;
  rejectedCount : nat;
  totalAmount : JS.number
}.

(** The state the constructor builds before the default data are added. *)
Definition MemStorage_new : MemStorage.t :=
  MemStorage.mk [] [] [] 1 1 1.

Definition set_users (st : MemStorage.t) us ctr : MemStorage.t :=
  MemStorage.mk us (MemStorage.expenses st) (MemStorage.settings st)
    ctr (MemStorage.currentExpenseId st) (MemStorage.currentSettingId st).

Definition set_expenses (st : MemStorage.t) es ctr : MemStorage.t :=
  MemStorage.mk (MemStorage.users st) es (MemStorage.settings st)
    (MemStorage.currentUserId st) ctr (MemStorage.currentSettingId st).

Definition set_settings (st : MemStorage.t) ss ctr : MemStorage.t :=
  MemStorage.mk (MemStorage.users st) (MemStorage.expenses st) ss
    (MemStorage.currentUserId st) (MemStorage.currentExpenseId st) ctr.

(** ** Users *)

Definition getUser (id : Z) (st : MemStorage.t) : option User.t :=
  Map_get Z.eqb id (MemStorage.users st).

Definition getUserByEmail (email : string) (st : MemStorage.t) : option User.t :=
  find (fun user => String.eqb (User.email user) email)
       (Map_values (MemStorage.users st)).

Definition createUser (now : Z) (insertUser : InsertUser.t) (st : MemStorage.t)
  : User.t * MemStorage.t :=
  let id := MemStorage.currentUserId st in
  let user :=
    User.mk id
      (InsertUser.email insertUser)
      (InsertUser.name insertUser)
      (or_null (InsertUser.department insertUser))
      (match or_null (InsertUser.role insertUser) with
       | Some r => r
       | None => "employee"
       end)
      (match InsertUser.isActive insertUser with
       | Some b => b
       | None => true
       end)
      now in
  (user, set_users st (Map_set Z.eqb id user (MemStorage.users st)) (id + 1)).

(** ** Expenses *)

Definition getExpense (id : Z) (st : MemStorage.t) : option Expense.t :=
  Map_get Z.eqb id (MemStorage.expenses st).

(** [(a, b) => b.submissionDate.getTime() - a.submissionDate.getTime()] *)
Definition bySubmissionDateDesc (a b : Expense.t) : Z :=
  Expense.submissionDate b - Expense.submissionDate a.

Definition getAllExpenses (st : MemStorage.t) : list Expense.t :=
  Array_sort bySubmissionDateDesc (Map_values (MemStorage.expenses st)).

Definition getExpensesByStatus (status : string) (st : MemStorage.t)
  : list Expense.t :=
  Array_sort bySubmissionDateDesc
    (filter (fun expense => String.eqb (Expense.status expense) status)
            (Map_values (MemStorage.expenses st))).

Definition getExpensesByEmployee (employeeId : Z) (st : MemStorage.t)
  : list Expense.t :=
  Array_sort bySubmissionDateDesc
    (filter (fun expense => Z.eqb (Expense.employeeId expense) employeeId)
            (Map_values (MemStorage.expenses st))).

(** [now] is the value of [new Date()] read by the call. *)
Definition createExpense (now : Z) (insertExpense : InsertExpense.t)
    (st : MemStorage.t) : Expense.t * MemStorage.t :=
  let id := MemStorage.currentExpenseId st in
  let expense :=
    {| Expense.id := id;
       Expense.employeeId := InsertExpense.employeeId insertExpense;
       Expense.employeeName := InsertExpense.employeeName insertExpense;
       Expense.employeeEmail := InsertExpense.employeeEmail insertExpense;
       Expense.department := or_null (InsertExpense.department insertExpense);
       Expense.amount := Amount_toString (InsertExpense.amount insertExpense);
       Expense.description := InsertExpense.description insertExpense;
       Expense.category := InsertExpense.category insertExpense;
       Expense.expenseDate := InsertExpense.expenseDate insertExpense;
       Expense.submissionDate := now;
       Expense.status := "pending";
       Expense.approvedBy := None;
       Expense.approvedByName := None;
       Expense.approvalDate := None;
       Expense.approvalNote := None;
       Expense.receiptUrl := or_null (InsertExpense.receiptUrl insertExpense);
       Expense.receiptFileName :=
         or_null (InsertExpense.receiptFileName insertExpense);
       Expense.emailId := or_null (InsertExpense.emailId insertExpense);
       Expense.formSubmissionId :=
         or_null (InsertExpense.formSubmissionId insertExpense);
       Expense.sheetsRowNumber :=
         num_or_null (InsertExpense.sheetsRowNumber insertExpense);
       Expense.notificationSent := false |} in
  (expense,
   set_expenses st (Map_set Z.eqb id expense (MemStorage.expenses st)) (id + 1)).

Definition updateExpenseStatus (now : Z) (id : Z)
    (updates : UpdateExpenseStatus.t) (st : MemStorage.t)
  : option Expense.t * MemStorage.t :=
  match Map_get Z.eqb id (MemStorage.expenses st) with
  | None => (None, st)
  | Some expense =>
      let updatedExpense :=
        {| Expense.id := Expense.id expense;
           Expense.employeeId := Expense.employeeId expense;
           Expense.employeeName := Expense.employeeName expense;
           Expense.employeeEmail := Expense.employeeEmail expense;
           Expense.department := Expense.department expense;
           Expense.amount := Expense.amount expense;
           Expense.description := Expense.description expense;
           Expense.category := Expense.category expense;
           Expense.expenseDate := Expense.expenseDate expense;
           Expense.submissionDate := Expense.submissionDate expense;
           Expense.status := Verdict_text (UpdateExpenseStatus.status updates);
           Expense.approvedBy := Some (UpdateExpenseStatus.approvedBy updates);
           Expense.approvedByName :=
             Some (UpdateExpenseStatus.approvedByName updates);
           Expense.approvalDate := Some now;
           Expense.approvalNote :=
             or_null (UpdateExpenseStatus.approvalNote updates);
           Expense.receiptUrl := Expense.receiptUrl expense;
           Expense.receiptFileName := Expense.receiptFileName expense;
           Expense.emailId := Expense.emailId expense;
           Expense.formSubmissionId := Expense.formSubmissionId expense;
           Expense.sheetsRowNumber := Expense.sheetsRowNumber expense;
           Expense.notificationSent := false |} in
      (Some updatedExpense,
       set_expenses st
         (Map_set Z.eqb id updatedExpense (MemStorage.expenses st))
         (MemStorage.currentExpenseId st))
  end.

(** [{ ...expense, ...updates }] *)
Definition over {A} (update : option A) (old : A) : A :=
  match update with
  | Some v => v
  | None => old
  end.

Definition merge (expense : Expense.t) (updates : PartialExpense.t)
  : Expense.t :=
  {| Expense.id := over (PartialExpense.id updates) (Expense.id expense);
     Expense.employeeId :=
       over (PartialExpense.employeeId updates) (Expense.employeeId expense);
     Expense.employeeName :=
       over (PartialExpense.employeeName updates) (Expense.employeeName expense);
     Expense.employeeEmail :=
       over (PartialExpense.employeeEmail updates) (Expense.employeeEmail expense);
     Expense.department :=
       over (PartialExpense.department updates) (Expense.department expense);
     Expense.amount := over (PartialExpense.amount updates) (Expense.amount expense);
     Expense.description :=
       over (PartialExpense.description updates) (Expense.description expense);
     Expense.category :=
       over (PartialExpense.category updates) (Expense.category expense);
     Expense.expenseDate :=
       over (PartialExpense.expenseDate updates) (Expense.expenseDate expense);
     Expense.submissionDate :=
       over (PartialExpense.submissionDate updates) (Expense.submissionDate expense);
     Expense.status := over (PartialExpense.status updates) (Expense.status expense);
     Expense.approvedBy :=
       over (PartialExpense.approvedBy updates) (Expense.approvedBy expense);
     Expense.approvedByName :=
       over (PartialExpense.approvedByName updates) (Expense.approvedByName expense);
     Expense.approvalDate :=
       over (PartialExpense.approvalDate updates) (Expense.approvalDate expense);
     Expense.approvalNote :=
       over (PartialExpense.approvalNote updates) (Expense.approvalNote expense);
     Expense.receiptUrl :=
       over (PartialExpense.receiptUrl updates) (Expense.receiptUrl expense);
     Expense.receiptFileName :=
       over (PartialExpense.receiptFileName updates)
            (Expense.receiptFileName expense);
     Expense.emailId :=
       over (PartialExpense.emailId updates) (Expense.emailId expense);
     Expense.formSubmissionId :=
       over (PartialExpense.formSubmissionId updates)
            (Expense.formSubmissionId expense);
     Expense.sheetsRowNumber :=
       over (PartialExpense.sheetsRowNumber updates)
            (Expense.sheetsRowNumber expense);
     Expense.notificationSent :=
       over (PartialExpense.notificationSent updates)
            (Expense.notificationSent expense) |}.

Definition updateExpense (id : Z) (updates : PartialExpense.t)
    (st : MemStorage.t) : option Expense.t * MemStorage.t :=
  match Map_get Z.eqb id (MemStorage.expenses st) with
  | None => (None, st)
  | Some expense =>
      let updatedExpense := merge expense updates in
      (Some updatedExpense,
       set_expenses st
         (Map_set Z.eqb id updatedExpense (MemStorage.expenses st))
         (MemStorage.currentExpenseId st))
  end.

(** The two partial updates the services send. *)
Definition just_sheetsRowNumber (rowNumber : Z) : PartialExpense.t :=
  PartialExpense.mk None None None None None None None None None None None
    None None None None None None None None (Some (Some rowNumber)) None.

Definition just_notificationSent (b : bool) : PartialExpense.t :=
  PartialExpense.mk None None None None None None None None None None None
    None None None None None None None None None (Some b).

(** ** Settings *)

Definition getSetting (key : string) (st : MemStorage.t)
  : option SystemSetting.t :=
  Map_get String.eqb key (MemStorage.settings st).

Definition setSetting (now : Z) (setting : InsertSystemSetting.t)
    (st : MemStorage.t) : SystemSetting.t * MemStorage.t :=
  let key := InsertSystemSetting.key setting in
  match Map_get String.eqb key (MemStorage.settings st) with
  | Some existing =>
      let updated :=
        SystemSetting.mk (SystemSetting.id existing) (SystemSetting.key existing)
          (InsertSystemSetting.value setting) now in
      (updated,
       set_settings st (Map_set String.eqb key updated (MemStorage.settings st))
         (MemStorage.currentSettingId st))
  | None =>
      let id := MemStorage.currentSettingId st in
      let newSetting :=
        SystemSetting.mk id key (InsertSystemSetting.value setting) now in
      (newSetting,
       set_settings st (Map_set String.eqb key newSetting (MemStorage.settings st))
         (id + 1))
  end.

(** ** Statistics *)

Definition has_status (s : string) (e : Expense.t) : bool :=
  String.eqb (Expense.status e) s.

(** [list.reduce((sum, e) => sum + parseFloat(e.amount), 0)] *)
Definition sum_amounts (l : list Expense.t) : JS.number :=
  fold_left (fun sum e => JS.add sum (JS.parseFloat (Expense.amount e)))
            l JS.zero.

Definition getExpenseStats (st : MemStorage.t) : ExpenseStats :=
  let allExpenses := Map_values (MemStorage.expenses st) in
  {| pendingCount := List.length (filter (has_status "pending") allExpenses);
     approvedCount := List.length (filter (has_status "approved") allExpenses);
     rejectedCount := List.length (filter (has_status "rejected") allExpenses);
     totalAmount := sum_amounts (filter (has_status "approved") allExpenses) |}.

(* ================================================================== *)
(** * Effects: exceptions, the outside world and its log               *)
(* ================================================================== *)

Inductive Exn :=
| RangeError                       (* [toISOString] of an invalid date *)
| ApiError (service : string)      (* a rejected call to a Google API *)
| ZodError (issues : list string). (* schema validation, by field     *)

Inductive Outcome (A : Type) :=
| Ok (a : A)
| Throw (e : Exn).
Arguments Ok {A} a.
Arguments Throw {A} e.

(** A cell of a spreadsheet row. [CDay ms] stands for the text
    [date.toISOString().split('T')[0]] of the date with time value [ms]. *)
Inductive Cell :=
| CNum (n : Z)
| CStr (s : string)
| CNull
| CDay (ms : Z).

(** The text of a notification is a function of the template and of the
    expense it is rendered from; the log keeps these two. *)
Inductive MailBody :=
| SubmissionBody (expense : Expense.t)
| ApprovalBody (expense : Expense.t).

(** What the server did to the outside world, oldest first. The reply of
    an API call is [None] when the call was rejected. *)
Inductive Event :=
| SheetsAppend (values : list Cell) (reply : option (option string))
| SheetsUpdate (row : Z) (values : list Cell) (ok : bool)
| GmailSend (to subject : string) (body : MailBody) (ok : bool)
| DriveUpload (fileName mimeType data : string) (reply : option string)
| Console (level message : string).

(** The behaviour of the external collaborators: each answer may depend
    on everything that happened before the call. *)
Record External := mkExternal {
  (* [sheets.spreadsheets.values.append]: rejected, or a reply that may
     carry [updates.updatedRange] *)
  sheets_append : list Event -> list Cell -> option (option string);
  (* [sheets.spreadsheets.values.update] on the cells J..M of a row *)
  sheets_update : list Event -> Z -> list Cell -> bool;
  (* [gmail.users.messages.send] *)
  gmail_send : list Event -> string -> string -> MailBody -> bool;
  (* [driveService.uploadReceipt]: rejected, or the link of the file *)
  drive_upload : list Event -> string -> string -> string -> option string
}.

Record World := mkWorld {
  store : MemStorage.t;
  log : list Event
}.

Definition emit (ev : Event) (w : World) : World :=
  mkWorld (store w) (log w ++ [ev]).

Definition with_store (st : MemStorage.t) (w : World) : World :=
  mkWorld st (log w).

(** [date.toISOString()] throws on an invalid date. *)
Definition toISOString (d : Date) : Outcome Z :=
  match d with
  | DateOf ms => Ok ms
  | InvalidDate => Throw RangeError
  end.

(* ================================================================== *)
(** * The spreadsheet service ([SheetsService])                        *)
(* ================================================================== *)

(** The digits matched by [/(\d+)$/]: the longest run of digits that ends
    the text. *)
Fixpoint trailing_digits (s : string) (run : list ascii) : list ascii :=
  match s with
  | EmptyString => run
  | String c r =>
      if JS.is_digit c then trailing_digits r (run ++ [c])%list
      else trailing_digits r []
  end.

(** [rowMatch ? parseInt(rowMatch[1]) : 0]: the number nearest to the
    integer the digits write. *)
Definition rowNumber_of (updatedRange : option string) : Z :=
  match updatedRange with
  | None => 0
  | Some range =>
      match trailing_digits range [] with
      | [] => 0
      | ds => JS.nearest_number (JS.digits_value ds)
      end
  end.

Definition sheet_row (expense : Expense.t) (expenseDay : Z) : list Cell :=
  [ CNum (Expense.id expense);
    CStr (Expense.employeeName expense);
    CStr (Expense.employeeEmail expense);
    match Expense.department expense with Some d => CStr d | None => CNull end;
    CStr (Expense.amount expense);
    CStr (Expense.description expense);
    CStr (Expense.category expense);
    CDay expenseDay;
    CDay (Expense.submissionDate expense);
    CStr (Expense.status expense);
    CStr (or_empty (Expense.approvedByName expense));
    match Expense.approvalDate expense with Some t => CDay t | None => CStr "" end;
    CStr (or_empty (Expense.approvalNote expense));
    CStr (or_empty (Expense.receiptUrl expense));
    CStr (or_empty (Expense.emailId expense)) ].

Definition addExpense (ext : External) (expense : Expense.t) (w : World)
  : Outcome Z * World :=
  match toISOString (Expense.expenseDate expense) with
  | Throw e =>
      (Throw e, emit (Console "error" "Error adding expense to sheet:") w)
  | Ok expenseDay =>
      let values := sheet_row expense expenseDay in
      let reply := sheets_append ext (log w) values in
      let w1 := emit (SheetsAppend values reply) w in
      match reply with
      | None =>
          (Throw (ApiError "sheets"),
           emit (Console "error" "Error adding expense to sheet:") w1)
      | Some updatedRange =>
          let rowNumber := rowNumber_of updatedRange in
          if 0 <? rowNumber
          then (Ok rowNumber,
                with_store
                  (snd (updateExpense (Expense.id expense)
                          (just_sheetsRowNumber rowNumber) (store w1))) w1)
          else (Ok rowNumber, w1)
      end
  end.

Definition status_cells (expense : Expense.t) : list Cell :=
  [ CStr (Expense.status expense);
    CStr (or_empty (Expense.approvedByName expense));
    match Expense.approvalDate expense with Some t => CDay t | None => CStr "" end;
    CStr (or_empty (Expense.approvalNote expense)) ].

(** [sheetsService.updateExpenseStatus] *)
Definition sheets_updateExpenseStatus (ext : External) (expense : Expense.t)
    (w : World) : Outcome unit * World :=
  match num_or_null (Expense.sheetsRowNumber expense) with
  | None => (Ok tt, emit (Console "warn" "No sheet row number for expense") w)
  | Some row =>
      let values := status_cells expense in
      let ok := sheets_update ext (log w) row values in
      let w1 := emit (SheetsUpdate row values ok) w in
      if ok
      then (Ok tt, emit (Console "log" "Updated expense status in sheet row") w1)
      else (Throw (ApiError "sheets"),
            emit (Console "error" "Error updating expense status in sheet:") w1)
  end.

(** The loop of [syncExpensesToSheet] over the list read at its start. *)
Fixpoint sync_loop (ext : External) (expenses : list Expense.t) (w : World)
  : Outcome unit * World :=
  match expenses with
  | [] => (Ok tt, w)
  | expense :: rest =>
      if num_truthy (Expense.sheetsRowNumber expense)
      then sync_loop ext rest w
      else
        match addExpense ext expense w with
        | (Ok _, w1) => sync_loop ext rest w1
        | (Throw e, w1) => (Throw e, w1)
        end
  end.

Definition syncExpensesToSheet (ext : External) (w : World)
  : Outcome unit * World :=
  match sync_loop ext (getAllExpenses (store w)) w with
  | (Ok u, w1) => (Ok u, w1)
  | (Throw e, w1) =>
      (Throw e, emit (Console "error" "Error syncing expenses to sheet:") w1)
  end.

(* ================================================================== *)
(** * Mail ([GmailService.sendNotificationEmail]) and notifications    *)
(* ================================================================== *)

Definition sendNotificationEmail (ext : External) (to subject : string)
    (body : MailBody) (w : World) : Outcome unit * World :=
  let ok := gmail_send ext (log w) to subject body in
  let w1 := emit (GmailSend to subject body ok) w in
  if ok
  then (Ok tt, emit (Console "log" "Notification email sent") w1)
  else (Throw (ApiError "gmail"),
        emit (Console "error" "Error sending notification email:") w1).

(** [getApprovers]: the two fixed addresses, with their names. *)
Definition getApprovers : list (string * string) :=
  [ ("manager@agency.com", "Finance Manager");
    ("admin@agency.com", "Admin User") ].

(** Both bodies print [expense.expenseDate.toISOString()]. *)
Definition generateSubmissionEmailBody (expense : Expense.t) : Outcome MailBody :=
  match toISOString (Expense.expenseDate expense) with
  | Ok _ => Ok (SubmissionBody expense)
  | Throw e => Throw e
  end.

Definition generateApprovalEmailBody (expense : Expense.t) : Outcome MailBody :=
  match toISOString (Expense.expenseDate expense) with
  | Ok _ => Ok (ApprovalBody expense)
  | Throw e => Throw e
  end.

Fixpoint send_to_each (ext : External) (subject : string) (body : MailBody)
    (approvers : list (string * string)) (w : World) : Outcome unit * World :=
  match approvers with
  | [] => (Ok tt, w)
  | approver :: rest =>
      match sendNotificationEmail ext (fst approver) subject body w with
      | (Ok _, w1) => send_to_each ext subject body rest w1
      | (Throw e, w1) => (Throw e, w1)
      end
  end.

Definition sendExpenseSubmissionNotification (ext : External)
    (expense : Expense.t) (w : World) : World :=
  let approvers := getApprovers in
  match approvers with
  | [] => emit (Console "warn" "No approvers found to notify") w
  | _ =>
      let subject := "New Expense Report Submitted - $" ++ Expense.amount expense in
      match generateSubmissionEmailBody expense with
      | Throw _ => emit (Console "error" "Error sending submission notification:") w
      | Ok body =>
          match send_to_each ext subject body approvers w with
          | (Ok _, w1) => emit (Console "log" "Sent submission notifications") w1
          | (Throw _, w1) =>
              emit (Console "error" "Error sending submission notification:") w1
          end
      end
  end.

Definition approval_subject (expense : Expense.t) : string :=
  "Expense Report "
  ++ (if String.eqb (Expense.status expense) "approved"
      then "Approved" else "Rejected")
  ++ " - $" ++ Expense.amount expense.

Definition sendApprovalNotification (ext : External) (expense : Expense.t)
    (w : World) : World :=
  let subject := approval_subject expense in
  match generateApprovalEmailBody expense with
  | Throw _ => emit (Console "error" "Error sending approval notification:") w
  | Ok body =>
      match sendNotificationEmail ext (Expense.employeeEmail expense)
              subject body w with
      | (Ok _, w1) =>
          (* Mark notification as sent *)
          let st := snd (updateExpense (Expense.id expense)
                           (just_notificationSent true) (store w1)) in
          emit (Console "log" "Sent notification") (with_store st w1)
      | (Throw _, w1) =>
          emit (Console "error" "Error sending approval notification:") w1
      end
  end.

Definition processNotificationQueue (ext : External) (w : World) : World :=
  let expenses := getAllExpenses (store w) in
  let pendingNotifications :=
    filter (fun expense =>
              negb (Expense.notificationSent expense)
              && negb (String.eqb (Expense.status expense) "pending"))
           expenses in
  fold_left (fun w' expense => sendApprovalNotification ext expense w')
            pendingNotifications w.

(* ================================================================== *)
(** * The HTTP handlers (server/routes.ts)                             *)
(* ================================================================== *)

(** The body of [POST /api/expenses], with the fields typed as the form
    sends them; [None] is an absent field. [expenseDate] holds the date
    [new Date(text)] builds from the submitted text. *)
Module ExpenseRequest.
Record t := mk {
  amount : option string;
  mileageDistance : option string;
  mileageRate : option string;
  description : option string;
  category : option string;
  expenseDate : option Date;
  status : option string;
  approvalNote : option string;
  receiptUrl : option string;
  receiptFileData : option string;
  receiptFileType : option string;
  receiptFileName : option string;
  emailId : option string;
  formSubmissionId : option string;
  sheetsRowNumber : option Z
}.
End ExpenseRequest.

(** The body of [PATCH /api/expenses/:id/status]. *)
Module StatusRequest.
Record t := mk {
  status : option string;
  approvalNote : option string
}.
End StatusRequest.

Inductive Payload :=
| PExpense (expense : Expense.t)
| PMessage (message : string)
| PValidation (message : string) (errors : list string)
| PStats (pending approved rejected : nat) (totalAmount : string)
| PRate (rate : JS.number).

Record Response := mkResponse {
  code : Z;
  payload : Payload
}.

(** ** [POST /api/expenses] *)

(** The mileage branch: [calculatedAmount]. *)
Definition calculateAmount (distance rate : JS.number) : string :=
  JS.toFixed 2 (JS.mul distance rate).

Definition calculatedAmount (body : ExpenseRequest.t) : option string :=
  if truthy (ExpenseRequest.mileageDistance body)
     && truthy (ExpenseRequest.mileageRate body)
  then
    let distance := JS.parseFloat (or_empty (ExpenseRequest.mileageDistance body)) in
    let rate := JS.parseFloat (or_empty (ExpenseRequest.mileageRate body)) in
    Some (calculateAmount distance rate)
  else ExpenseRequest.amount body.

Definition missing {A} (field : string) (x : option A) : list string :=
  match x with
  | Some _ => []
  | None => [field]
  end.

(** The range [createInsertSchema] allows in an [integer] column. *)
Definition is_int32 (n : Z) : bool :=
  (-2147483648 <=? n) && (n <=? 2147483647).

Definition out_of_range (field : string) (x : option Z) : list string :=
  match x with
  | Some n => if is_int32 n then [] else [field]
  | None => []
  end.

(** The two [integer] columns of the schema, the second nullable. *)
Definition integers_fit (body : ExpenseRequest.t) (user : User.t) : bool :=
  is_int32 (User.id user)
  && match ExpenseRequest.sheetsRowNumber body with
     | Some n => is_int32 n
     | None => true
     end.

(** [insertExpenseSchema.parse({...req.body, amount, employeeId, ...})]:
    the required fields of the body must be present and the integers
    within the range of their columns; the amount text is turned into a
    number by [parseFloat]. The issues come in the order of the columns. *)
Definition insertExpenseSchema_parse (body : ExpenseRequest.t)
    (amount : option string) (user : User.t) (receiptUrl : string)
  : Outcome InsertExpense.t :=
  let issues a d c day :=
    (out_of_range "employeeId" (Some (User.id user))
     ++ missing "amount" a ++ missing "description" d
     ++ missing "category" c ++ missing "expenseDate" day
     ++ out_of_range "sheetsRowNumber" (ExpenseRequest.sheetsRowNumber body))%list in
  match amount, ExpenseRequest.description body,
        ExpenseRequest.category body, ExpenseRequest.expenseDate body with
  | Some a, Some d, Some c, Some day =>
      if integers_fit body user then
      Ok {| InsertExpense.employeeId := User.id user;
            InsertExpense.employeeName := User.name user;
            InsertExpense.employeeEmail := User.email user;
            InsertExpense.department := User.department user;
            InsertExpense.amount := AmountNumber (JS.parseFloat a);
            InsertExpense.description := d;
            InsertExpense.category := c;
            InsertExpense.expenseDate := day;
            InsertExpense.status := ExpenseRequest.status body;
            InsertExpense.approvalNote := ExpenseRequest.approvalNote body;
            InsertExpense.receiptUrl := Some receiptUrl;
            InsertExpense.receiptFileName := ExpenseRequest.receiptFileName body;
            InsertExpense.emailId := ExpenseRequest.emailId body;
            InsertExpense.formSubmissionId := ExpenseRequest.formSubmissionId body;
            InsertExpense.sheetsRowNumber := ExpenseRequest.sheetsRowNumber body |}
      else Throw (ZodError (issues amount (Some d) (Some c) (Some day)))
  | a, d, c, day => Throw (ZodError (issues a d c day))
  end.

(** The receipt link: the one of the body, or the one of an upload. *)
Definition receipt_link (ext : External) (body : ExpenseRequest.t) (w : World)
  : Outcome string * World :=
  let receiptUrl := or_empty (ExpenseRequest.receiptUrl body) in
  if truthy (ExpenseRequest.receiptFileData body)
     && truthy (ExpenseRequest.receiptFileType body)
     && truthy (ExpenseRequest.receiptFileName body)
  then
    let name := or_empty (ExpenseRequest.receiptFileName body) in
    let type := or_empty (ExpenseRequest.receiptFileType body) in
    let data := or_empty (ExpenseRequest.receiptFileData body) in
    let reply := drive_upload ext (log w) name type data in
    let w1 := emit (DriveUpload name type data reply) w in
    match reply with
    | Some link => (Ok link, w1)
    | None => (Throw (ApiError "drive"), w1)
    end
  else (Ok receiptUrl, w).

(** The fan-out after a creation: the sheet, then the approvers. *)
Definition created_fanout (ext : External) (expense : Expense.t) (w : World)
  : World :=
  let w1 :=
    match addExpense ext expense w with
    | (Ok _, w') => w'
    | (Throw _, w') => emit (Console "error" "Failed to add to sheets:") w'
    end in
  sendExpenseSubmissionNotification ext expense w1.

Definition postExpense (ext : External) (now : Z) (userId : Z)
    (body : ExpenseRequest.t) (w : World) : Response * World :=
  match getUser userId (store w) with
  | None => (mkResponse 404 (PMessage "User not found"), w)
  | Some user =>
      let amount := calculatedAmount body in
      match receipt_link ext body w with
      | (Throw _, w1) =>
          (mkResponse 500 (PMessage "Failed to create expense"),
           emit (Console "error" "Create expense error:") w1)
      | (Ok receiptUrl, w1) =>
          match insertExpenseSchema_parse body amount user receiptUrl with
          | Throw (ZodError issues) =>
              (mkResponse 400 (PValidation "Validation error" issues), w1)
          | Throw _ =>
              (mkResponse 500 (PMessage "Failed to create expense"),
               emit (Console "error" "Create expense error:") w1)
          | Ok expenseData =>
              let '(expense, st) := createExpense now expenseData (store w1) in
              (mkResponse 201 (PExpense expense),
               created_fanout ext expense (with_store st w1))
          end
      end
  end.

(** ** [PATCH /api/expenses/:id/status] *)

Definition may_decide (user : option User.t) : bool :=
  match user with
  | None => false
  | Some u => String.eqb (User.role u) "approver"
              || String.eqb (User.role u) "admin"
  end.

(** [updateExpenseStatusSchema.parse({...req.body, approvedBy, approvedByName})] *)
Definition updateExpenseStatusSchema_parse (body : StatusRequest.t)
    (user : User.t) : Outcome UpdateExpenseStatus.t :=
  let build v :=
    Ok (UpdateExpenseStatus.mk v (StatusRequest.approvalNote body)
          (User.id user) (User.name user)) in
  match StatusRequest.status body with
  | Some s =>
      if String.eqb s "approved" then build approved
      else if String.eqb s "rejected" then build rejected
      else Throw (ZodError ["status"])
  | None => Throw (ZodError ["status"])
  end.

(** The fan-out after a decision: the sheet row, then the submitter. *)
Definition decided_fanout (ext : External) (expense : Expense.t) (w : World)
  : World :=
  let w1 :=
    match sheets_updateExpenseStatus ext expense w with
    | (Ok _, w') => w'
    | (Throw _, w') => emit (Console "error" "Failed to update sheets:") w'
    end in
  sendApprovalNotification ext expense w1.

Definition patchExpenseStatus (ext : External) (now : Z) (userId : Z) (id : Z)
    (body : StatusRequest.t) (w : World) : Response * World :=
  let user := getUser userId (store w) in
  match user with
  | Some u =>
      if may_decide user then
        match updateExpenseStatusSchema_parse body u with
        | Throw (ZodError issues) =>
            (mkResponse 400 (PValidation "Validation error" issues), w)
        | Throw _ =>
            (mkResponse 500 (PMessage "Failed to update expense status"),
             emit (Console "error" "Update expense status error:") w)
        | Ok updateData =>
            match updateExpenseStatus now id updateData (store w) with
            | (None, _) => (mkResponse 404 (PMessage "Expense not found"), w)
            | (Some expense, st) =>
                (mkResponse 200 (PExpense expense),
                 decided_fanout ext expense (with_store st w))
            end
        end
      else (mkResponse 403 (PMessage "Insufficient permissions"), w)
  | None => (mkResponse 403 (PMessage "Insufficient permissions"), w)
  end.

(** ** [GET /api/stats] and [GET /api/mileage-rate] *)

Definition getStats (w : World) : Response :=
  let stats := getExpenseStats (store w) in
  mkResponse 200
    (PStats (pendingCount stats) (approvedCount stats) (rejectedCount stats)
            ("$" ++ JS.toFixed 2 (totalAmount stats))).

(** The literal [0.68]. *)
Definition default_mileage_rate : JS.number :=
  Eval vm_compute in JS.of_decimal false 68 (-2).

Definition mileage_rate (st : MemStorage.t) : JS.number :=
  match getSetting "mileage_rate" st with
  | Some rateSetting => JS.parseFloat (SystemSetting.value rateSetting)
  | None => default_mileage_rate
  end.

Definition getMileageRate (w : World) : Response :=
  mkResponse 200 (PRate (mileage_rate (store w))).

(** ** [POST /api/admin/sync-sheets] *)

Definition is_admin (user : option User.t) : bool :=
  match user with
  | None => false
  | Some u => String.eqb (User.role u) "admin"
  end.

Definition postSyncSheets (ext : External) (userId : Z) (w : World)
  : Response * World :=
  if is_admin (getUser userId (store w)) then
    match syncExpensesToSheet ext w with
    | (Ok _, w1) => (mkResponse 200 (PMessage "Sheets sync completed"), w1)
    | (Throw _, w1) =>
        (mkResponse 500 (PMessage "Sheets sync failed"),
         emit (Console "error" "Sheets sync error:") w1)
    end
  else (mkResponse 403 (PMessage "Admin access required"), w).

(* ================================================================== *)
(** * Runs of the server                                               *)
(* ================================================================== *)

(** One operation of the running server. The store is written by the
    seeding code of the constructor and by registration ([createUser],
    [setSetting], [createExpense]), by inbox ingestion ([createExpense]),
    and by the handlers and jobs below. *)
Inductive step (ext : External) : World -> World -> Prop :=
| step_createUser now u w :
    step ext w (with_store (snd (createUser now u (store w))) w)
| step_setSetting now s w :
    step ext w (with_store (snd (setSetting now s (store w))) w)
| step_createExpense now e w :
    step ext w (with_store (snd (createExpense now e (store w))) w)
| step_postExpense now userId body w :
    step ext w (snd (postExpense ext now userId body w))
| step_patchExpenseStatus now userId id body w :
    step ext w (snd (patchExpenseStatus ext now userId id body w))
| step_postSyncSheets userId w :
    step ext w (snd (postSyncSheets ext userId w))
| step_processNotificationQueue w :
    step ext w (processNotificationQueue ext w).

Definition initial : World := mkWorld MemStorage_new [].

Inductive reachable (ext : External) : World -> Prop :=
| reach_initial : reachable ext initial
| reach_step w w' : reachable ext w -> step ext w w' -> reachable ext w'.

(* ================================================================== *)
(** * The vocabulary of the statements                               *)
(* ================================================================== *)

(** Most recent first. *)
Definition newest_first : list Expense.t -> Prop :=
  StronglySorted (stands_before Expense.submissionDate).

(** An expense without its two synchronisation fields. *)
Definition core (e : Expense.t) : Expense.t :=
  merge e
    (PartialExpense.mk None None None None None None None None None None None
       None None None None None None None None (Some None) (Some false)).

Definition store_core (st : MemStorage.t) : list (Z * Expense.t) :=
  map (fun kv => (fst kv, core (snd kv))) (MemStorage.expenses st).

(** Two stores that differ at most in the synchronisation fields
    ([sheetsRowNumber], [notificationSent]) of their expenses. *)
Definition same_but_sync (st st' : MemStorage.t) : Prop :=
  MemStorage.users st' = MemStorage.users st
  /\ MemStorage.settings st' = MemStorage.settings st
  /\ MemStorage.currentUserId st' = MemStorage.currentUserId st
  /\ MemStorage.currentExpenseId st' = MemStorage.currentExpenseId st
  /\ MemStorage.currentSettingId st' = MemStorage.currentSettingId st
  /\ store_core st' = store_core st.

(** The log only grows. *)
Definition extends (w w' : World) : Prop :=
  exists more, log w' = (log w ++ more)%list.

Definition valid_status (s : string) : Prop :=
  s = "pending" \/ s = "approved" \/ s = "rejected".

(** A row of the expense table of a store whose next id is [bound]. *)
Definition row_ok (bound : Z) (kv : Z * Expense.t) : Prop :=
  fst kv < bound
  /\ Expense.id (snd kv) = fst kv
  /\ valid_status (Expense.status (snd kv)).

Definition store_ok (st : MemStorage.t) : Prop :=
  NoDup (Map_keys (MemStorage.expenses st))
  /\ Forall (row_ok (MemStorage.currentExpenseId st)) (MemStorage.expenses st).

(** An operation that changes at most the synchronisation fields and only
    adds to the log. *)
Definition gentle (w w' : World) : Prop :=
  same_but_sync (store w) (store w') /\ extends w w'.

(** The total of the claim, in the spec's words: the sum of [amount] over
    the expenses, counting the approved ones only. *)
Definition sum_of_approved_amounts (l : list Expense.t) : JS.number :=
  fold_left
    (fun sum e =>
       if String.eqb (Expense.status e) "approved"
       then JS.add sum (JS.parseFloat (Expense.amount e))
       else sum)
    l JS.zero.

(** [e] is the expense a creation at time [now] in world [w] yields:
    through [createExpense] itself (seeding, inbox ingestion) or as the
    payload of a successful [POST /api/expenses]. *)
Definition created (ext : External) (now : Z) (w : World) (e : Expense.t)
  : Prop :=
  (exists ins, e = fst (createExpense now ins (store w)))
  \/ (exists userId body,
        fst (postExpense ext now userId body w) = mkResponse 201 (PExpense e)).

(** The record a decision writes over [e]. *)
Definition decided (e : Expense.t) (v : Verdict) (u : User.t)
    (note : option string) (now : Z) : Expense.t :=
  merge e
    (PartialExpense.mk None None None None None None None None None None
       (Some (Verdict_text v)) (Some (Some (User.id u)))
       (Some (Some (User.name u))) (Some (Some now)) (Some (or_null note))
       None None None None None (Some false)).

(** Every expense flagged as notified has, in the log, an accepted mail
    to its submitter rendered from that very expense (up to the
    synchronisation fields). *)
Definition flag_confirmed (w : World) : Prop :=
  forall k e,
    In (k, e) (MemStorage.expenses (store w)) ->
    Expense.notificationSent e = true ->
    exists e0,
      core e0 = core e
      /\ In (GmailSend (Expense.employeeEmail e0) (approval_subject e0)
               (ApprovalBody e0) true) (log w).

(** [st'] has no flag that [st] does not have. *)
Definition keeps_flags (st st' : MemStorage.t) : Prop :=
  forall k e',
    In (k, e') (MemStorage.expenses st') ->
    exists e,
      In (k, e) (MemStorage.expenses st)
      /\ core e = core e'
      /\ Expense.notificationSent e = Expense.notificationSent e'.

(** The expense handed to the notifier is the stored one, up to the
    synchronisation fields. *)
Definition current (st : MemStorage.t) (e0 : Expense.t) : Prop :=
  forall cur, getExpense (Expense.id e0) st = Some cur -> core cur = core e0.

(** The row of a sheet starts with the id of the expense. *)
Definition row_is_for (id : Z) (values : list Cell) : bool :=
  match values with
  | CNum n :: _ => Z.eqb n id
  | _ => false
  end.

(** An append of the expense [id] that the ledger accepted. *)
Definition is_append (id : Z) (ev : Event) : bool :=
  match ev with
  | SheetsAppend values (Some _) => row_is_for id values
  | _ => false
  end.

(** An accepted append whose reply carried a row number. *)
Definition is_referenced_append (id : Z) (ev : Event) : bool :=
  match ev with
  | SheetsAppend values (Some range) =>
      row_is_for id values && (0 <? rowNumber_of range)
  | _ => false
  end.

Definition count (p : Event -> bool) (evs : list Event) : nat :=
  List.length (filter p evs).

Definition appends_for (id : Z) (evs : list Event) : nat :=
  count (is_append id) evs.

Definition referenced_appends_for (id : Z) (evs : list Event) : nat :=
  count (is_referenced_append id) evs.

(** The expense stored under [id] carries a row reference. *)
Definition has_row (id : Z) (st : MemStorage.t) : Prop :=
  exists e, getExpense id st = Some e
            /\ num_truthy (Expense.sheetsRowNumber e) = true.


(** The number [2]. *)
Definition two : JS.number := Eval vm_compute in JS.of_decimal false 2 0.

(* ================================================================== *)
(** * The seeded store and sample collaborators                      *)
(* ================================================================== *)

(** [initializeDefaultData]: four users, three settings, three sample
    expenses. [clock k] is the time read by the [k]-th call. *)
Definition initializeDefaultData (clock : Z -> Z) (st : MemStorage.t)
  : MemStorage.t :=
  let st := snd (createUser (clock 0)
    (InsertUser.mk "admin@agency.com" "Admin User" (Some "Administration")
       (Some "admin") (Some true)) st) in
  let st := snd (createUser (clock 1)
    (InsertUser.mk "manager@agency.com" "Finance Manager" (Some "Finance")
       (Some "approver") (Some true)) st) in
  let st := snd (createUser (clock 2)
    (InsertUser.mk "sarah@agency.com" "Sarah Miller" (Some "Marketing")
       (Some "employee") (Some true)) st) in
  let st := snd (createUser (clock 3)
    (InsertUser.mk "michael@agency.com" "Michael Johnson" (Some "Engineering")
       (Some "employee") (Some true)) st) in
  let st := snd (setSetting (clock 4)
    (InsertSystemSetting.mk "gmail_enabled" "true") st) in
  let st := snd (setSetting (clock 5)
    (InsertSystemSetting.mk "sheets_enabled" "true") st) in
  let st := snd (setSetting (clock 6)
    (InsertSystemSetting.mk "notifications_enabled" "true") st) in
  let sample employeeId name email dept amount description category day :=
    InsertExpense.mk employeeId name email (Some dept) (AmountString amount)
      description category (DateOf day) None None None None None None None in
  let st := snd (createExpense (clock 7)
    (sample 3 "Sarah Miller" "sarah@agency.com" "Marketing" "156.50"
       "Team lunch at The Bistro" "Meals & Entertainment" 1750636800000) st) in
  let st := snd (createExpense (clock 8)
    (sample 4 "Michael Johnson" "michael@agency.com" "Engineering" "89.99"
       "Uber to client meeting" "Transportation" 1750550400000) st) in
  let st := snd (createExpense (clock 9)
    (sample 3 "Sarah Miller" "sarah@agency.com" "Marketing" "299.00"
       "Software license for design tools" "Software" 1750464000000) st) in
  st.

(** The server once the constructor has run, at a clock that advances by
    one millisecond per reading from [t0]. *)
Definition seeded (t0 : Z) : World :=
  mkWorld (initializeDefaultData (fun k => t0 + k) MemStorage_new) [].

Definition appended_rows (evs : list Event) : nat :=
  List.length
    (filter (fun ev => match ev with SheetsAppend _ (Some _) => true | _ => false end)
            evs).

(** Collaborators that accept every call; an append reports the range of
    the row it filled, below the header row. *)
Definition all_up : External :=
  mkExternal
    (fun evs _ =>
       let row := JS.Z_digits (Z.of_nat (appended_rows evs) + 2) in
       Some (Some ("Expenses!A" ++ row ++ ":O" ++ row)))
    (fun _ _ _ => true)
    (fun _ _ _ _ => true)
    (fun _ name _ _ => Some ("https://drive.google.com/file/" ++ name)).


(** The spreadsheet is unreachable, mail goes through. *)
Definition ledger_down : External :=
  mkExternal (fun _ _ => None) (fun _ _ _ => false)
             (fun _ _ _ _ => true) (fun _ _ _ _ => None).

(** The seeded server after the manager approved the first sample
    expense, with every collaborator answering. *)
Definition sample_decided : World :=
  snd (patchExpenseStatus all_up 1750700001000 2 1
         (StatusRequest.mk (Some "approved") (Some "Approved, within policy"))
         (seeded 1750700000000)).

(** The seeded server after a synchronisation run requested by the admin
    while every collaborator answered: each sample has its sheet row. *)
Definition synced : World :=
  snd (postSyncSheets all_up 1 (seeded 1750700000000)).

Definition approve_request : StatusRequest.t :=
  StatusRequest.mk (Some "approved") (Some "Approved, within policy").

Definition taxi_request : ExpenseRequest.t :=
  ExpenseRequest.mk (Some "42.10") None None (Some "Taxi to the airport")
    (Some "Transportation") (Some (DateOf 1750723200000)) None None
    None None None None None None None.

Definition mileage_request : ExpenseRequest.t :=
  ExpenseRequest.mk None (Some "100") (Some "1") (Some "Client visit")
    (Some "Mileage") (Some (DateOf 1750723200000)) None None
    None None None None None None None.

Definition zero_mileage_request : ExpenseRequest.t :=
  ExpenseRequest.mk None (Some "0") (Some "0.68") (Some "Cancelled trip")
    (Some "Mileage") (Some (DateOf 1750723200000)) None None
    None None None None None None None.

Definition parking_insert : InsertExpense.t :=
  InsertExpense.mk 4 "Michael Johnson" "michael@agency.com"
    (Some "Engineering") (AmountString "12.00") "Parking" "Transportation"
    (DateOf 1750636800000) None None None None None None None.

Definition redecide_request : StatusRequest.t :=
  StatusRequest.mk (Some "rejected") (Some "Duplicate claim").

(** The admin decides again on the expense the manager approved. *)
Definition redecided : Response * World :=
  patchExpenseStatus all_up 1750700004000 1 1 redecide_request sample_decided.

(* ================================================================== *)
(** * More of the record store: [updateUser]                           *)
(* ================================================================== *)

(** [Partial<User>] *)
Module PartialUser.
Record t := mk {
  id : option Z;
  email : option string;
  name : option string;
  department : option (option string);
  role : option string;
  isActive : option bool;
  createdAt : option Z
}.
End PartialUser.

(** [{ ...user, ...updates }] *)
Definition merge_user (user : User.t) (updates : PartialUser.t) : User.t :=
  {| User.id := over (PartialUser.id updates) (User.id user);
     User.email := over (PartialUser.email updates) (User.email user);
     User.name := over (PartialUser.name updates) (User.name user);
     User.department :=
       over (PartialUser.department updates) (User.department user);
     User.role := over (PartialUser.role updates) (User.role user);
     User.isActive := over (PartialUser.isActive updates) (User.isActive user);
     User.createdAt :=
       over (PartialUser.createdAt updates) (User.createdAt user) |}.

Definition updateUser (id : Z) (updates : PartialUser.t) (st : MemStorage.t)
  : option User.t * MemStorage.t :=
  match Map_get Z.eqb id (MemStorage.users st) with
  | None => (None, st)
  | Some user =>
      let updatedUser := merge_user user updates in
      (Some updatedUser,
       set_users st (Map_set Z.eqb id updatedUser (MemStorage.users st))
         (MemStorage.currentUserId st))
  end.

(* ================================================================== *)
(** * Sessions and the authentication routes (server/routes.ts)        *)
(* ================================================================== *)

Module Session.
Record t := mk {
  userId : Z;
  email : string;
  createdAt : Z
}.
End Session.

(** The store together with the session map of the routes module. *)
Record Server := mkServer {
  memory : MemStorage.t;
  sessions : list (string * Session.t)
}.

(** The user fields the authentication routes answer with. *)
Module UserView.
Record t := mk {
  id : Z;
  email : string;
  name : string;
  role : string;
  department : option string
}.
End UserView.

Definition view (user : User.t) : UserView.t :=
  UserView.mk (User.id user) (User.email user) (User.name user)
    (User.role user) (User.department user).

Inductive AuthPayload :=
| ASession (token : string) (user : UserView.t)
| AUser (user : UserView.t)
| AMessage (message : string).

Record AuthResponse := mkAuthResponse {
  auth_code : Z;
  auth_payload : AuthPayload
}.

(** [s.replace(pattern, '')] for a string [pattern]: the first occurrence
    is removed. *)
Definition remove_first (pattern s : string) : string :=
  match String.index 0 pattern s with
  | Some i =>
      substring 0 i s
      ++ substring (i + String.length pattern)
           (String.length s - (i + String.length pattern)) s
  | None => s
  end.

(** [requireAuth]: the session of the request, or [None] where the
    middleware answers 401 "Authentication required". *)
Definition requireAuth (authorization : option string)
    (sessions : list (string * Session.t)) : option Session.t :=
  let sessionId := option_map (remove_first "Bearer ") authorization in
  if truthy sessionId
  then Map_get String.eqb (or_empty sessionId) sessions
  else None.

(** [handleLogin]. [sessionId] is the token drawn from [Math.random()],
    [now] the clock reading; [email] is the field of the body, which the
    JSON middleware has parsed into an object. *)
Definition handleLogin (sessionId : string) (now : Z) (email : option string)
    (sv : Server) : AuthResponse * Server :=
  let user :=
    match email with
    | Some e => getUserByEmail e (memory sv)
    | None => None
    end in
  match user with
  | None => (mkAuthResponse 401 (AMessage "User not found"), sv)
  | Some u =>
      (mkAuthResponse 200 (ASession sessionId (view u)),
       mkServer (memory sv)
         (Map_set String.eqb sessionId
            (Session.mk (User.id u) (User.email u) now) (sessions sv)))
  end.

(** [handleRegister]. [now] is read by [createUser], [later] by the
    session. *)
Definition handleRegister (sessionId : string) (now later : Z)
    (email name department : option string) (sv : Server)
  : AuthResponse * Server :=
  if negb (truthy email) || negb (truthy name)
  then (mkAuthResponse 400 (AMessage "Email and name are required"), sv)
  else
    match getUserByEmail (or_empty email) (memory sv) with
    | Some _ =>
        (mkAuthResponse 409 (AMessage "User already exists with this email"),
         sv)
    | None =>
        let '(newUser, st) :=
          createUser now
            (InsertUser.mk (or_empty email) (or_empty name)
               (or_null department) (Some "employee") None)
            (memory sv) in
        (mkAuthResponse 200 (ASession sessionId (view newUser)),
         mkServer st
           (Map_set String.eqb sessionId
              (Session.mk (User.id newUser) (User.email newUser) later)
              (sessions sv)))
    end.

(** [GET /api/auth/me] *)
Definition getMe (authorization : option string) (sv : Server)
  : AuthResponse :=
  match requireAuth authorization (sessions sv) with
  | None => mkAuthResponse 401 (AMessage "Authentication required")
  | Some session =>
      match getUser (Session.userId session) (memory sv) with
      | None => mkAuthResponse 404 (AMessage "User not found")
      | Some user => mkAuthResponse 200 (AUser (view user))
      end
  end.

(* ================================================================== *)
(** * The listing routes (server/routes.ts)                            *)
(* ================================================================== *)

(** [n.toString()] for an integer [n] (below 10^21 in size). *)
Definition Z_toString (n : Z) : string :=
  if n <? 0 then "-" ++ JS.Z_digits (- n) else JS.Z_digits n.

Definition is_hex_digit (c : ascii) : bool :=
  let n := nat_of_ascii c in
  JS.is_digit c
  || ((65 <=? n)%nat && (n <=? 70)%nat)
  || ((97 <=? n)%nat && (n <=? 102)%nat).

Definition hex_val (c : ascii) : Z :=
  let n := Z.of_nat (nat_of_ascii c) in
  if JS.is_digit c then n - 48
  else if n <=? 70 then n - 55 else n - 87.

Fixpoint span_hex (s : string) : list ascii :=
  match s with
  | String c r => if is_hex_digit c then c :: span_hex r else []
  | EmptyString => []
  end.

(** [parseInt(s)] with no radix: white space and a sign are skipped, a
    prefix [0x] selects base 16, and the longest prefix of digits is
    read; [None] is [NaN]. The value is exact (as it is below 2^53). *)
Definition parseInt (s : string) : option Z :=
  let '(neg, t) :=
    match JS.skip_spaces s with
    | String "-" r => (true, r)
    | String "+" r => (false, r)
    | t => (false, t)
    end in
  let magnitude :=
    match t with
    | String "0" (String x r) =>
        if (Ascii.eqb x "x" || Ascii.eqb x "X")%bool then
          match span_hex r with
          | [] => None
          | ds => Some (fold_left (fun acc c => 16 * acc + hex_val c) ds 0)
          end
        else Some (JS.digits_value (fst (JS.span_digits t)))
    | _ =>
        match fst (JS.span_digits t) with
        | [] => None
        | ds => Some (JS.digits_value ds)
        end
    end in
  match magnitude with
  | Some m => Some (if neg then - m else m)
  | None => None
  end.

(** The list [GET /api/expenses] formats, from the query and the user of
    the session. *)
Definition selectExpenses (status employee : option string) (userId : Z)
    (st : MemStorage.t) : list Expense.t :=
  if truthy status then getExpensesByStatus (or_empty status) st
  else if truthy employee
          && String.eqb (Z_toString userId) (or_empty employee)
  then
    match parseInt (or_empty employee) with
    | Some employeeId => getExpensesByEmployee employeeId st
    | None => []
    end
  else getAllExpenses st.

(** An expense as the listings send it. [formattedDate] stands for the
    text [expenseDate.toISOString().split('T')[0]]; [initials] is a
    function of [employeeName], which the expense carries. *)
Record FormattedExpense := mkFormatted {
  formatted_expense : Expense.t;
  formattedAmount : string;
  formattedDate : Z
}.

Definition formatExpense (expense : Expense.t) : Outcome FormattedExpense :=
  match toISOString (Expense.expenseDate expense) with
  | Ok day =>
      Ok (mkFormatted expense
            ("$" ++ JS.toFixed 2 (JS.parseFloat (Expense.amount expense))) day)
  | Throw e => Throw e
  end.

(** [expenses.map(expense => ...)]: the first element that throws ends
    the whole map. *)
Fixpoint formatExpenses (expenses : list Expense.t)
  : Outcome (list FormattedExpense) :=
  match expenses with
  | [] => Ok []
  | expense :: rest =>
      match formatExpense expense with
      | Throw e => Throw e
      | Ok f =>
          match formatExpenses rest with
          | Ok fs => Ok (f :: fs)
          | Throw e => Throw e
          end
      end
  end.

Inductive ListPayload :=
| LExpenses (expenses : list FormattedExpense)
| LExpense (expense : FormattedExpense)
| LMessage (message : string).

Record ListResponse := mkListResponse {
  list_code : Z;
  list_payload : ListPayload
}.

(** [GET /api/expenses] *)
Definition getExpenses (status employee : option string) (userId : Z)
    (w : World) : ListResponse * World :=
  match formatExpenses (selectExpenses status employee userId (store w)) with
  | Ok formattedExpenses => (mkListResponse 200 (LExpenses formattedExpenses), w)
  | Throw _ =>
      (mkListResponse 500 (LMessage "Failed to get expenses"),
       emit (Console "error" "Get expenses error:") w)
  end.

(** [GET /api/expenses/:id] *)
Definition getExpenseById (id : Z) (w : World) : ListResponse * World :=
  match getExpense id (store w) with
  | None => (mkListResponse 404 (LMessage "Expense not found"), w)
  | Some expense =>
      match formatExpense expense with
      | Ok f => (mkListResponse 200 (LExpense f), w)
      | Throw _ =>
          (mkListResponse 500 (LMessage "Failed to get expense"),
           emit (Console "error" "Get expense error:") w)
      end
  end.

(* ================================================================== *)
(** * Vocabulary of the further statements                             *)
(* ================================================================== *)

(** Every user is stored under an id below the next one, which is its
    own. *)
Definition users_ok (st : MemStorage.t) : Prop :=
  Forall (fun kv => fst kv < MemStorage.currentUserId st
                    /\ User.id (snd kv) = fst kv)
         (MemStorage.users st).

(** No two users share an e-mail address. *)
Definition emails_unique (st : MemStorage.t) : Prop :=
  NoDup (map User.email (Map_values (MemStorage.users st))).

(** Every setting is stored under its own key. *)
Definition settings_ok (st : MemStorage.t) : Prop :=
  Forall (fun kv => SystemSetting.key (snd kv) = fst kv)
         (MemStorage.settings st).

(** The ledger accepts every append and reports the row it filled. *)
Definition ledger_gives_rows (ext : External) : Prop :=
  forall evs values,
    exists range,
      sheets_append ext evs values = Some range /\ 0 < rowNumber_of range.

(** Every mail is accepted. *)
Definition mail_accepted (ext : External) : Prop :=
  forall evs to subject body, gmail_send ext evs to subject body = true.

(** Every stored expense has a valid expense date. *)
Definition dates_valid (st : MemStorage.t) : Prop :=
  forall e, In e (Map_values (MemStorage.expenses st)) ->
            exists ms, Expense.expenseDate e = DateOf ms.

(** A decision on [e] has not been mailed yet. *)
Definition awaits_mail (e : Expense.t) : bool :=
  negb (Expense.notificationSent e)
  && negb (String.eqb (Expense.status e) "pending").

(** The text consists of decimal digits. *)
Definition all_digits (s : string) : Prop :=
  Forall (fun c => JS.is_digit c = true) (list_ascii_of_string s).

(** A receipt sent along with a request that lacks its description. *)
Definition orphan_receipt_request : ExpenseRequest.t :=
  ExpenseRequest.mk (Some "18.00") None None None
    (Some "Meals & Entertainment") (Some (DateOf 1750723200000)) None None
    None (Some "JVBERi0xLjQ=") (Some "application/pdf") (Some "lunch.pdf")
    None None None.

(* ================================================================== *)
(** * Further samples and vocabulary                                *)
(* ================================================================== *)

(** A submission whose expense date is no date. *)
Definition undated_request : ExpenseRequest.t :=
  ExpenseRequest.mk (Some "30.00") None None (Some "Conference fee")
    (Some "Training") (Some InvalidDate) None None
    None None None None None None None.

(** The seeded server after that submission was accepted. *)
Definition undated_posted : World :=
  snd (postExpense all_up 1750700010000 3 undated_request
         (seeded 1750700000000)).

(** The ledger answers, mail is refused. *)
Definition mail_down : External :=
  mkExternal (fun _ _ => Some None) (fun _ _ _ => true)
             (fun _ _ _ _ => false) (fun _ _ _ _ => None).

(** The manager approved the first sample expense while mail was
    refused: the decision is stored, its notification is still due. *)
Definition decided_unmailed : World :=
  snd (patchExpenseStatus mail_down 1750700001000 2 1 approve_request
         (seeded 1750700000000)).

(** The seeded store, with no session open. *)
Definition seeded_server : Server :=
  mkServer (store (seeded 1750700000000)) [].

(** A submission whose amount is no number. *)
Definition unpriced_request : ExpenseRequest.t :=
  ExpenseRequest.mk (Some "n/a") None None (Some "Workshop materials")
    (Some "Training") (Some (DateOf 1750723200000)) (Some "approved") None
    None None None None None None None.

(** The seeded server after that submission was accepted and the manager
    approved it. *)
Definition unpriced_approved : World :=
  snd (patchExpenseStatus all_up 1750700012000 2 4 approve_request
         (snd (postExpense all_up 1750700011000 3 unpriced_request
                 (seeded 1750700000000)))).

(** A status update sent to the sheet. *)
Definition is_sheet_update (ev : Event) : bool :=
  match ev with
  | SheetsUpdate _ _ _ => true
  | _ => false
  end.

(** A mail handed to the mail service. *)
Definition is_mail (ev : Event) : bool :=
  match ev with
  | GmailSend _ _ _ _ => true
  | _ => false
  end.

(** The users and the settings of [st'] are those of [st]. *)
Definition same_registry (st st' : MemStorage.t) : Prop :=
  MemStorage.users st' = MemStorage.users st
  /\ MemStorage.settings st' = MemStorage.settings st
  /\ MemStorage.currentUserId st' = MemStorage.currentUserId st
  /\ MemStorage.currentSettingId st' = MemStorage.currentSettingId st.

(** Users are filed under their own ids, below the next id, settings
    under their own keys, and no id or key is filed twice. *)
Definition registry_ok (st : MemStorage.t) : Prop :=
  users_ok st
  /\ NoDup (Map_keys (MemStorage.users st))
  /\ settings_ok st
  /\ NoDup (Map_keys (MemStorage.settings st)).

(* ================================================================== *)
(** * Vocabulary and samples of the revised statements              *)
(* ================================================================== *)

(** [w'] is the world the creation of [e] at time [now] in [w] leaves:
    the store after [createExpense], or the world after the successful
    [POST /api/expenses]. *)
Definition creation (ext : External) (now : Z) (w : World) (e : Expense.t)
    (w' : World) : Prop :=
  (exists ins,
      e = fst (createExpense now ins (store w))
      /\ w' = with_store (snd (createExpense now ins (store w))) w)
  \/ (exists userId body,
        postExpense ext now userId body w = (mkResponse 201 (PExpense e), w')).

(** [w'] is reached from [w] by operations of the server. *)
Inductive runs (ext : External) : World -> World -> Prop :=
| runs_refl w : runs ext w w
| runs_step w w1 w2 : runs ext w w1 -> step ext w1 w2 -> runs ext w w2.

(** The mail service accepts the first mail it is handed and refuses
    every later one; the ledger answers. *)
Definition mail_once : External :=
  mkExternal (fun _ _ => Some None) (fun _ _ _ => true)
             (fun evs _ _ _ => negb (existsb is_mail evs))
             (fun _ _ _ _ => None).

(** The manager approves the first sample expense, and the mail goes
    out; later the manager approves it once more, and the mail is
    refused. *)
Definition reapproved : World :=
  snd (patchExpenseStatus mail_once 1750700003000 2 1 approve_request
         (snd (patchExpenseStatus mail_once 1750700001000 2 1 approve_request
                 (seeded 1750700000000)))).

(** The accepted mails among the events. *)
Definition accepted_mail (ev : Event) : bool :=
  match ev with
  | GmailSend _ _ _ ok => ok
  | _ => false
  end.

(* ****************************************************************** *)
(** * Proofs                                                           *)
(* ****************************************************************** *)

(* ================================================================== *)
(** * Sorting and filtering                                            *)
(* ================================================================== *)

Section SortFacts.
Context {A : Type}.
Variable key : A -> Z.

Lemma sort_insert_Forall (P : A -> Prop) x l :
  P x -> Forall P l -> Forall P (sort_insert (by_key_desc key) x l).
Proof.
  intros Hx Hl. induction Hl as [|y l Hy Hl IH]; simpl.
  - constructor; [assumption | constructor].
  - destruct (by_key_desc key x y <=? 0); repeat constructor; assumption.
Qed.

Lemma sort_insert_sorted x l :
  StronglySorted (stands_before key) l ->
  StronglySorted (stands_before key) (sort_insert (by_key_desc key) x l).
Proof.
  induction 1 as [|y l Hs IH Hy]; simpl.
  - repeat constructor.
  - destruct (Z.leb_spec (by_key_desc key x y) 0) as [Hle|Hgt]; unfold by_key_desc in *.
    + constructor; [constructor; assumption|].
      constructor; [unfold stands_before; lia|].
      eapply Forall_impl; [|exact Hy].
      unfold stands_before; intros; lia.
    + constructor; [assumption|].
      apply sort_insert_Forall; [unfold stands_before; lia | assumption].
Qed.

Lemma Array_sort_sorted l :
  StronglySorted (stands_before key) (Array_sort (by_key_desc key) l).
Proof.
  induction l as [|x l IH]; simpl.
  - constructor.
  - apply sort_insert_sorted, IH.
Qed.

(** Inserting into a list sorted for the comparator and then filtering is
    filtering and then inserting, when the element is kept. *)
Lemma filter_sort_insert (p : A -> bool) x l :
  StronglySorted (stands_before key) l ->
  filter p (sort_insert (by_key_desc key) x l)
  = if p x then sort_insert (by_key_desc key) x (filter p l) else filter p l.
Proof.
  induction 1 as [|y l Hs IH Hy]; simpl.
  - destruct (p x); reflexivity.
  - destruct (Z.leb_spec (by_key_desc key x y) 0) as [Hle|Hgt]; simpl.
    + destruct (p x) eqn:Hpx, (p y) eqn:Hpy; simpl.
      * destruct (Z.leb_spec (by_key_desc key x y) 0); [reflexivity | lia].
      * (* every kept element of [l] is after [y], hence after [x] *)
        clear IH. induction l as [|z l IHl]; simpl; [reflexivity|].
        inversion Hy as [|? ? Hyz Hy']; subst.
        inversion Hs as [|? ? Hs' Hz]; subst.
        destruct (p z); simpl.
        -- unfold stands_before, by_key_desc in *.
           destruct (Z.leb_spec (key z - key x) 0); [reflexivity | lia].
        -- apply IHl; assumption.
      * reflexivity.
      * reflexivity.
    + rewrite IH. destruct (p x) eqn:Hpx, (p y) eqn:Hpy; simpl;
        try reflexivity.
      destruct (Z.leb_spec (by_key_desc key x y) 0); [lia | reflexivity].
Qed.

Lemma filter_Array_sort (p : A -> bool) l :
  filter p (Array_sort (by_key_desc key) l)
  = Array_sort (by_key_desc key) (filter p l).
Proof.
  induction l as [|x l IH]; simpl; [reflexivity|].
  rewrite filter_sort_insert by apply Array_sort_sorted.
  rewrite IH. destruct (p x); reflexivity.
Qed.
End SortFacts.

(** C6. For every store, the listing by status is exactly the listing of
    all expenses restricted to that status, in the same order; both are
    ordered by submission date, most recent first; on a store with no
    expense both listings are the empty list. *)
Theorem getExpensesByStatus_filters_getAllExpenses :
  forall (st : MemStorage.t) (status : string),
    getExpensesByStatus status st
    = filter (fun e => String.eqb (Expense.status e) status) (getAllExpenses st)
    /\ newest_first (getAllExpenses st)
    /\ newest_first (getExpensesByStatus status st)
    /\ getAllExpenses (set_expenses st [] (MemStorage.currentExpenseId st)) = []
    /\ getExpensesByStatus status
         (set_expenses st [] (MemStorage.currentExpenseId st)) = [].
Proof.
  intros st status. unfold getExpensesByStatus, getAllExpenses, newest_first.
  repeat split.
  - symmetry.
    apply (filter_Array_sort Expense.submissionDate).
  - apply (Array_sort_sorted Expense.submissionDate).
  - apply (Array_sort_sorted Expense.submissionDate).
Qed.

(* ================================================================== *)
(** * Facts about maps                                                 *)
(* ================================================================== *)

Section MapFacts.
Context {K V : Type}.
Variable eqb : K -> K -> bool.
Hypothesis eqb_eq : forall a b, eqb a b = true <-> a = b.

Lemma eqb_refl_true a : eqb a a = true.
Proof. apply eqb_eq; reflexivity. Qed.

Lemma Map_get_In k v (m : list (K * V)) :
  Map_get eqb k m = Some v -> In (k, v) m.
Proof.
  induction m as [|[k' v'] m IH]; simpl; [discriminate|].
  destruct (eqb k k') eqn:E.
  - apply eqb_eq in E. intros [= ->]. subst. left; reflexivity.
  - intros H. right. apply IH, H.
Qed.

Lemma Map_get_None k (m : list (K * V)) :
  Map_get eqb k m = None -> ~ In k (Map_keys m).
Proof.
  induction m as [|[k' v'] m IH]; simpl; [tauto|].
  destruct (eqb k k') eqn:E; [discriminate|].
  intros H [Hk|Hin].
  - subst. rewrite eqb_refl_true in E. discriminate.
  - apply IH; assumption.
Qed.

Lemma In_Map_get k v (m : list (K * V)) :
  NoDup (Map_keys m) -> In (k, v) m -> Map_get eqb k m = Some v.
Proof.
  induction m as [|[k' v'] m IH]; simpl; [tauto|].
  intros Hnd [Heq|Hin].
  - inversion Heq; subst. rewrite eqb_refl_true. reflexivity.
  - inversion Hnd as [|? ? Hnotin Hnd']; subst.
    destruct (eqb k k') eqn:E.
    + apply eqb_eq in E. subst. exfalso. apply Hnotin.
      unfold Map_keys. change k' with (fst (k', v)). apply in_map, Hin.
    + apply IH; assumption.
Qed.

Lemma In_Map_set k v kv (m : list (K * V)) :
  In kv (Map_set eqb k v m) -> kv = (k, v) \/ In kv m.
Proof.
  induction m as [|[k' v'] m IH]; simpl.
  - intros [H|[]]. left; symmetry; exact H.
  - destruct (eqb k k'); simpl.
    + intros [H|H]; [left; symmetry; exact H | right; right; exact H].
    + intros [H|H]; [right; left; exact H|].
      destruct (IH H) as [H1|H1]; [left; exact H1 | right; right; exact H1].
Qed.

Lemma Forall_Map_set (P : K * V -> Prop) k v (m : list (K * V)) :
  P (k, v) -> Forall P m -> Forall P (Map_set eqb k v m).
Proof.
  intros Hkv Hm. apply Forall_forall. intros kv Hin.
  destruct (In_Map_set _ _ _ _ Hin) as [->|Hin']; [assumption|].
  rewrite Forall_forall in Hm. apply Hm, Hin'.
Qed.

Lemma Map_keys_set_present k v v0 (m : list (K * V)) :
  Map_get eqb k m = Some v0 -> Map_keys (Map_set eqb k v m) = Map_keys m.
Proof.
  induction m as [|[k' v'] m IH]; simpl; [discriminate|].
  destruct (eqb k k') eqn:E; simpl.
  - apply eqb_eq in E. subst. reflexivity.
  - intros H. f_equal. apply IH, H.
Qed.

Lemma Map_set_absent k v (m : list (K * V)) :
  Map_get eqb k m = None -> Map_set eqb k v m = (m ++ [(k, v)])%list.
Proof.
  induction m as [|[k' v'] m IH]; simpl; [reflexivity|].
  destruct (eqb k k') eqn:E; [discriminate|].
  intros H. f_equal. apply IH, H.
Qed.

Lemma NoDup_Map_set k v (m : list (K * V)) :
  NoDup (Map_keys m) -> NoDup (Map_keys (Map_set eqb k v m)).
Proof.
  intros Hnd. destruct (Map_get eqb k m) as [v0|] eqn:G.
  - rewrite (Map_keys_set_present _ _ _ _ G). exact Hnd.
  - rewrite (Map_set_absent _ _ _ G). unfold Map_keys in *.
    rewrite map_app. simpl.
    apply NoDup_app_remove_l with (l := []). simpl.
    apply Map_get_None in G. unfold Map_keys in G.
    rewrite <- (app_nil_r (map fst m ++ [k])).
    apply NoDup_incl_NoDup with (l := k :: map fst m).
    + constructor; assumption.
    + rewrite app_nil_r, length_app. simpl. lia.
    + intros x [Hx|Hx]; rewrite app_nil_r; apply in_or_app;
        [right; left; exact Hx | left; exact Hx].
Qed.

Lemma Map_get_set_same k v (m : list (K * V)) :
  Map_get eqb k (Map_set eqb k v m) = Some v.
Proof.
  induction m as [|[k' v'] m IH]; simpl.
  - rewrite eqb_refl_true. reflexivity.
  - destruct (eqb k k') eqn:E; simpl.
    + rewrite eqb_refl_true. reflexivity.
    + rewrite E. exact IH.
Qed.

Lemma Map_get_set_other k k' v (m : list (K * V)) :
  k' <> k -> Map_get eqb k' (Map_set eqb k v m) = Map_get eqb k' m.
Proof.
  intros Hne. induction m as [|[k0 v0] m IH]; simpl.
  - destruct (eqb k' k) eqn:E; [apply eqb_eq in E; contradiction | reflexivity].
  - destruct (eqb k k0) eqn:E; simpl.
    + apply eqb_eq in E. subst k0.
      destruct (eqb k' k) eqn:E'; [apply eqb_eq in E'; contradiction | reflexivity].
    + destruct (eqb k' k0); [reflexivity | exact IH].
Qed.

Lemma Map_keys_set_incl k v (m : list (K * V)) :
  incl (Map_keys m) (Map_keys (Map_set eqb k v m)).
Proof.
  destruct (Map_get eqb k m) as [v0|] eqn:G.
  - rewrite (Map_keys_set_present _ _ _ _ G). apply incl_refl.
  - rewrite (Map_set_absent _ _ _ G). unfold Map_keys. rewrite map_app.
    apply incl_appl, incl_refl.
Qed.

Lemma length_Map_set_present k v v0 (m : list (K * V)) :
  Map_get eqb k m = Some v0 -> List.length (Map_set eqb k v m) = List.length m.
Proof.
  intros G. rewrite <- (length_map fst), <- (length_map fst m).
  f_equal. apply (Map_keys_set_present _ _ _ _ G).
Qed.
End MapFacts.

(* ================================================================== *)
(** * What the services may change                                     *)
(* ================================================================== *)

Lemma Zeqb_eq : forall a b : Z, Z.eqb a b = true <-> a = b.
Proof. exact Z.eqb_eq. Qed.

Lemma same_but_sync_refl st : same_but_sync st st.
Proof. unfold same_but_sync; tauto. Qed.

Lemma same_but_sync_trans st1 st2 st3 :
  same_but_sync st1 st2 -> same_but_sync st2 st3 -> same_but_sync st1 st3.
Proof.
  unfold same_but_sync. intros (A1 & A2 & A3 & A4 & A5 & A6) (B1 & B2 & B3 & B4 & B5 & B6).
  repeat split; congruence.
Qed.

Lemma extends_refl w : extends w w.
Proof. exists []. rewrite app_nil_r. reflexivity. Qed.

Lemma extends_trans w1 w2 w3 : extends w1 w2 -> extends w2 w3 -> extends w1 w3.
Proof.
  intros [m1 H1] [m2 H2]. exists (m1 ++ m2)%list.
  rewrite H2, H1, app_assoc. reflexivity.
Qed.

Lemma extends_emit ev w : extends w (emit ev w).
Proof. exists [ev]. reflexivity. Qed.

Lemma extends_with_store st w : extends w (with_store st w).
Proof. exists []. simpl. rewrite app_nil_r. reflexivity. Qed.

Lemma extends_In ev w w' : extends w w' -> In ev (log w) -> In ev (log w').
Proof. intros [more ->] H. apply in_or_app. left. exact H. Qed.

(** Replacing a row by one with the same core keeps the cores. *)
Lemma map_core_Map_set id e e' (m : list (Z * Expense.t)) :
  Map_get Z.eqb id m = Some e -> core e' = core e ->
  map (fun kv => (fst kv, core (snd kv))) (Map_set Z.eqb id e' m)
  = map (fun kv => (fst kv, core (snd kv))) m.
Proof.
  intros G Hc. induction m as [|[k v] m IH]; simpl in *; [discriminate|].
  destruct (Z.eqb id k) eqn:E; simpl.
  - apply Z.eqb_eq in E. subst k. inversion G; subst. rewrite Hc. reflexivity.
  - f_equal. apply IH, G.
Qed.

Lemma updateExpense_sync_only id updates st :
  (forall e, core (merge e updates) = core e) ->
  same_but_sync st (snd (updateExpense id updates st)).
Proof.
  intros Hc. unfold updateExpense.
  destruct (Map_get Z.eqb id (MemStorage.expenses st)) as [e|] eqn:G; simpl.
  - unfold same_but_sync, store_core; simpl. repeat split.
    apply (map_core_Map_set id e); [exact G | apply Hc].
  - apply same_but_sync_refl.
Qed.

Lemma core_rowNumber e n : core (merge e (just_sheetsRowNumber n)) = core e.
Proof. destruct e; reflexivity. Qed.

Lemma core_notificationSent e b : core (merge e (just_notificationSent b)) = core e.
Proof. destruct e; reflexivity. Qed.

Lemma core_id e : Expense.id (core e) = Expense.id e.
Proof. destruct e; reflexivity. Qed.

Lemma core_status e : Expense.status (core e) = Expense.status e.
Proof. destruct e; reflexivity. Qed.

(** ** The services, one by one *)

Lemma gentle_refl w : gentle w w.
Proof. split; [apply same_but_sync_refl | apply extends_refl]. Qed.

Lemma gentle_trans w1 w2 w3 : gentle w1 w2 -> gentle w2 w3 -> gentle w1 w3.
Proof.
  intros [A B] [C D]. split;
    [eapply same_but_sync_trans | eapply extends_trans]; eassumption.
Qed.

Lemma gentle_emit ev w : gentle w (emit ev w).
Proof. split; [apply same_but_sync_refl | apply extends_emit]. Qed.

Lemma gentle_emit_after ev w w' : gentle w w' -> gentle w (emit ev w').
Proof. intros H. eapply gentle_trans; [exact H | apply gentle_emit]. Qed.

Lemma addExpense_gentle ext e w : gentle w (snd (addExpense ext e w)).
Proof.
  unfold addExpense. destruct (toISOString (Expense.expenseDate e)); simpl.
  - destruct (sheets_append ext (log w) (sheet_row e a)) as [range|]; simpl.
    + destruct (0 <? rowNumber_of range); simpl.
      * split; simpl.
        -- apply updateExpense_sync_only. intros; apply core_rowNumber.
        -- apply extends_emit.
      * apply gentle_emit.
    + apply gentle_emit_after, gentle_emit.
  - apply gentle_emit.
Qed.

Lemma sheets_updateExpenseStatus_store ext e w :
  store (snd (sheets_updateExpenseStatus ext e w)) = store w
  /\ extends w (snd (sheets_updateExpenseStatus ext e w)).
Proof.
  unfold sheets_updateExpenseStatus.
  destruct (num_or_null (Expense.sheetsRowNumber e)); simpl.
  - destruct (sheets_update ext (log w) z (status_cells e)); simpl;
      (split; [reflexivity|]);
      (eapply extends_trans; [apply extends_emit | apply extends_emit]).
  - split; [reflexivity | apply extends_emit].
Qed.

Lemma sendNotificationEmail_store ext to subject body w :
  store (snd (sendNotificationEmail ext to subject body w)) = store w
  /\ extends w (snd (sendNotificationEmail ext to subject body w)).
Proof.
  unfold sendNotificationEmail.
  destruct (gmail_send ext (log w) to subject body); simpl;
    (split; [reflexivity|]);
    (eapply extends_trans; [apply extends_emit | apply extends_emit]).
Qed.

Lemma send_to_each_store ext subject body approvers w :
  store (snd (send_to_each ext subject body approvers w)) = store w
  /\ extends w (snd (send_to_each ext subject body approvers w)).
Proof.
  revert w. induction approvers as [|a rest IH]; intros w; simpl.
  - split; [reflexivity | apply extends_refl].
  - destruct (sendNotificationEmail ext (fst a) subject body w) as [[u|x] w1] eqn:E.
    + destruct (sendNotificationEmail_store ext (fst a) subject body w) as [Hs He].
      rewrite E in Hs, He. simpl in Hs, He.
      destruct (IH w1) as [Hs' He']. split.
      * rewrite Hs'. exact Hs.
      * eapply extends_trans; eassumption.
    + destruct (sendNotificationEmail_store ext (fst a) subject body w) as [Hs He].
      rewrite E in Hs, He. exact (conj Hs He).
Qed.

Lemma sendExpenseSubmissionNotification_store ext e w :
  store (sendExpenseSubmissionNotification ext e w) = store w
  /\ extends w (sendExpenseSubmissionNotification ext e w).
Proof.
  unfold sendExpenseSubmissionNotification.
  generalize getApprovers. intros approvers.
  destruct approvers as [|a rest]; [split; [reflexivity | apply extends_emit]|].
  remember (a :: rest) as approvers eqn:Ha. clear Ha.
  destruct (generateSubmissionEmailBody e) as [body|x].
  - destruct (send_to_each_store ext
                ("New Expense Report Submitted - $" ++ Expense.amount e)
                body approvers w) as [Hs He].
    destruct (send_to_each ext _ body approvers w) as [[u|x] w1];
      cbn [snd] in Hs, He;
      (split; [exact Hs | eapply extends_trans; [exact He | apply extends_emit]]).
  - split; [reflexivity | apply extends_emit].
Qed.

Lemma sendApprovalNotification_gentle ext e w :
  gentle w (sendApprovalNotification ext e w).
Proof.
  unfold sendApprovalNotification.
  destruct (generateApprovalEmailBody e) as [body|x]; [|apply gentle_emit].
  destruct (sendNotificationEmail_store ext (Expense.employeeEmail e)
              (approval_subject e) body w) as [Hs He].
  destruct (sendNotificationEmail ext (Expense.employeeEmail e)
              (approval_subject e) body w) as [[u|x] w1]; simpl in *.
  - split; simpl.
    + rewrite <- Hs. apply updateExpense_sync_only.
      intros; apply core_notificationSent.
    + eapply extends_trans; [exact He|].
      exists [Console "log" "Sent notification"]. reflexivity.
  - split; simpl; [rewrite Hs; apply same_but_sync_refl|].
    eapply extends_trans; [exact He | apply extends_emit].
Qed.

Lemma processNotificationQueue_gentle ext w :
  gentle w (processNotificationQueue ext w).
Proof.
  unfold processNotificationQueue.
  generalize (filter
    (fun expense => negb (Expense.notificationSent expense)
                    && negb (String.eqb (Expense.status expense) "pending"))
    (getAllExpenses (store w))).
  intros l. revert w. induction l as [|e l IH]; intros w; simpl.
  - apply gentle_refl.
  - eapply gentle_trans; [apply sendApprovalNotification_gentle | apply IH].
Qed.

Lemma sync_loop_gentle ext l w : gentle w (snd (sync_loop ext l w)).
Proof.
  revert w. induction l as [|e l IH]; intros w; simpl.
  - apply gentle_refl.
  - destruct (num_truthy (Expense.sheetsRowNumber e)); [apply IH|].
    pose proof (addExpense_gentle ext e w) as H.
    destruct (addExpense ext e w) as [[n|x] w1]; simpl in *.
    + eapply gentle_trans; [exact H | apply IH].
    + exact H.
Qed.

Lemma syncExpensesToSheet_gentle ext w :
  gentle w (snd (syncExpensesToSheet ext w)).
Proof.
  unfold syncExpensesToSheet.
  pose proof (sync_loop_gentle ext (getAllExpenses (store w)) w) as H.
  destruct (sync_loop ext (getAllExpenses (store w)) w) as [[u|x] w1]; simpl in *.
  - exact H.
  - apply gentle_emit_after, H.
Qed.

Lemma created_fanout_gentle ext e w : gentle w (created_fanout ext e w).
Proof.
  unfold created_fanout.
  pose proof (addExpense_gentle ext e w) as H.
  destruct (addExpense ext e w) as [[n|x] w1]; simpl in *.
  - destruct (sendExpenseSubmissionNotification_store ext e w1) as [Hs He].
    eapply gentle_trans; [exact H|].
    split; [rewrite Hs; apply same_but_sync_refl | exact He].
  - set (w2 := emit _ w1).
    destruct (sendExpenseSubmissionNotification_store ext e w2) as [Hs He].
    eapply gentle_trans; [apply gentle_emit_after, H|].
    split; [rewrite Hs; apply same_but_sync_refl | exact He].
Qed.

Lemma decided_fanout_gentle ext e w : gentle w (decided_fanout ext e w).
Proof.
  unfold decided_fanout.
  destruct (sheets_updateExpenseStatus_store ext e w) as [Hs He].
  destruct (sheets_updateExpenseStatus ext e w) as [[u|x] w1]; simpl in *.
  - eapply gentle_trans; [|apply sendApprovalNotification_gentle].
    split; [rewrite Hs; apply same_but_sync_refl | exact He].
  - eapply gentle_trans; [|apply sendApprovalNotification_gentle].
    apply gentle_emit_after.
    split; [rewrite Hs; apply same_but_sync_refl | exact He].
Qed.

(* ================================================================== *)
(** * The store invariant                                              *)
(* ================================================================== *)

Lemma keys_store_core st :
  map fst (store_core st) = Map_keys (MemStorage.expenses st).
Proof.
  unfold store_core, Map_keys. rewrite map_map. reflexivity.
Qed.

Lemma row_ok_core bound kv :
  row_ok bound (fst kv, core (snd kv)) <-> row_ok bound kv.
Proof.
  unfold row_ok; cbn [fst snd]. rewrite core_id, core_status. tauto.
Qed.

Lemma Forall_row_ok_core bound st :
  Forall (row_ok bound) (store_core st)
  <-> Forall (row_ok bound) (MemStorage.expenses st).
Proof.
  unfold store_core. rewrite Forall_map.
  split; apply Forall_impl; intros kv; apply row_ok_core.
Qed.

Lemma store_ok_same_but_sync st st' :
  same_but_sync st st' -> store_ok st -> store_ok st'.
Proof.
  intros (_ & _ & _ & Hc & _ & Hcore) [Hnd Hrows]. split.
  - rewrite <- keys_store_core, Hcore, keys_store_core. exact Hnd.
  - rewrite Hc. apply Forall_row_ok_core. rewrite Hcore.
    apply Forall_row_ok_core. exact Hrows.
Qed.

Lemma row_ok_weaken b b' kv : b <= b' -> row_ok b kv -> row_ok b' kv.
Proof. unfold row_ok. intros; intuition lia. Qed.

Lemma fresh_key st :
  Forall (row_ok (MemStorage.currentExpenseId st)) (MemStorage.expenses st) ->
  Map_get Z.eqb (MemStorage.currentExpenseId st) (MemStorage.expenses st) = None.
Proof.
  intros Hrows.
  destruct (Map_get Z.eqb _ _) as [e|] eqn:G; [|reflexivity].
  apply (Map_get_In Z.eqb Zeqb_eq) in G.
  rewrite Forall_forall in Hrows. apply Hrows in G.
  destruct G as [G _]. simpl in G. lia.
Qed.

Lemma createExpense_id now ins st :
  Expense.id (fst (createExpense now ins st)) = MemStorage.currentExpenseId st.
Proof. reflexivity. Qed.

Lemma createExpense_counter now ins st :
  MemStorage.currentExpenseId (snd (createExpense now ins st))
  = MemStorage.currentExpenseId st + 1.
Proof. reflexivity. Qed.

Lemma createExpense_expenses now ins st :
  store_ok st ->
  MemStorage.expenses (snd (createExpense now ins st))
  = (MemStorage.expenses st
     ++ [(MemStorage.currentExpenseId st, fst (createExpense now ins st))])%list.
Proof.
  intros [_ Hrows]. simpl. apply (Map_set_absent Z.eqb).
  apply fresh_key, Hrows.
Qed.

Lemma createExpense_ok now ins st :
  store_ok st -> store_ok (snd (createExpense now ins st)).
Proof.
  intros Hok. pose proof Hok as [Hnd Hrows]. split.
  - simpl. apply (NoDup_Map_set Z.eqb Zeqb_eq), Hnd.
  - rewrite createExpense_expenses, createExpense_counter by exact Hok.
    apply Forall_app. split.
    + eapply Forall_impl; [|exact Hrows].
      intros kv. apply row_ok_weaken. lia.
    + constructor; [|constructor].
      unfold row_ok, valid_status; simpl. repeat split; [lia | tauto].
Qed.

Lemma valid_status_Verdict v : valid_status (Verdict_text v).
Proof. destruct v; unfold valid_status; simpl; tauto. Qed.

Lemma updateExpenseStatus_ok now id updates st :
  store_ok st -> store_ok (snd (updateExpenseStatus now id updates st)).
Proof.
  intros [Hnd Hrows]. unfold updateExpenseStatus.
  destruct (Map_get Z.eqb id (MemStorage.expenses st)) as [e|] eqn:G; simpl;
    [|split; assumption].
  split; simpl.
  - apply (NoDup_Map_set Z.eqb Zeqb_eq), Hnd.
  - apply (Forall_Map_set Z.eqb); [|exact Hrows].
    apply (Map_get_In Z.eqb Zeqb_eq) in G.
    rewrite Forall_forall in Hrows. destruct (Hrows _ G) as (Hb & Hid & _).
    unfold row_ok; simpl in *. repeat split;
      [exact Hb | exact Hid | apply valid_status_Verdict].
Qed.

Lemma createUser_ok now u st : store_ok st -> store_ok (snd (createUser now u st)).
Proof. intros H; exact H. Qed.

Lemma setSetting_ok now s st : store_ok st -> store_ok (snd (setSetting now s st)).
Proof.
  intros H. unfold setSetting.
  destruct (Map_get String.eqb _ _); exact H.
Qed.

Arguments createExpense : simpl never.

Lemma gentle_ok w w' : gentle w w' -> store_ok (store w) -> store_ok (store w').
Proof. intros [H _]. apply store_ok_same_but_sync, H. Qed.

Lemma receipt_link_store ext body w :
  store (snd (receipt_link ext body w)) = store w
  /\ extends w (snd (receipt_link ext body w)).
Proof.
  unfold receipt_link.
  destruct (truthy _ && truthy _ && truthy _); simpl.
  - destruct (drive_upload ext _ _ _ _); simpl;
      (split; [reflexivity | apply extends_emit]).
  - split; [reflexivity | apply extends_refl].
Qed.

Lemma postExpense_ok ext now userId body w :
  store_ok (store w) -> store_ok (store (snd (postExpense ext now userId body w))).
Proof.
  intros Hok. unfold postExpense.
  destruct (getUser userId (store w)) as [user|]; [|exact Hok].
  destruct (receipt_link_store ext body w) as [Hs _].
  destruct (receipt_link ext body w) as [[link|x] w1]; simpl in Hs.
  - destruct (insertExpenseSchema_parse body (calculatedAmount body) user link)
      as [data|[]]; cbn [snd store emit]; try (rewrite Hs; exact Hok).
    pose proof (createExpense_ok now data (store w1)) as Hc.
    destruct (createExpense now data (store w1)) as [e st]. cbn [fst snd] in *.
    eapply gentle_ok; [apply created_fanout_gentle|]. cbn [store with_store].
    apply Hc. rewrite Hs. exact Hok.
  - simpl. rewrite Hs. exact Hok.
Qed.

Lemma patchExpenseStatus_ok ext now userId id body w :
  store_ok (store w) ->
  store_ok (store (snd (patchExpenseStatus ext now userId id body w))).
Proof.
  intros Hok. unfold patchExpenseStatus.
  destruct (getUser userId (store w)) as [u|]; [|exact Hok].
  destruct (may_decide (Some u)); [|exact Hok].
  destruct (updateExpenseStatusSchema_parse body u) as [data|[]];
    try exact Hok.
  pose proof (updateExpenseStatus_ok now id data (store w) Hok) as H.
  destruct (updateExpenseStatus now id data (store w)) as [[e|] st];
    simpl in *; [|exact Hok].
  eapply gentle_ok; [apply decided_fanout_gentle | exact H].
Qed.

Lemma postSyncSheets_gentle ext userId w :
  gentle w (snd (postSyncSheets ext userId w)).
Proof.
  unfold postSyncSheets.
  destruct (is_admin _); [|apply gentle_refl].
  pose proof (syncExpensesToSheet_gentle ext w) as H.
  destruct (syncExpensesToSheet ext w) as [[u|x] w1]; simpl in *.
  - exact H.
  - apply gentle_emit_after, H.
Qed.

Lemma step_ok ext w w' : step ext w w' -> store_ok (store w) -> store_ok (store w').
Proof.
  intros Hstep Hok. destruct Hstep; simpl.
  - apply createUser_ok, Hok.
  - apply setSetting_ok, Hok.
  - apply createExpense_ok, Hok.
  - apply postExpense_ok, Hok.
  - apply patchExpenseStatus_ok, Hok.
  - eapply gentle_ok; [apply postSyncSheets_gentle | exact Hok].
  - eapply gentle_ok; [apply processNotificationQueue_gentle | exact Hok].
Qed.

Lemma reachable_ok ext w : reachable ext w -> store_ok (store w).
Proof.
  induction 1 as [|w w' _ IH Hstep].
  - split; simpl; constructor.
  - eapply step_ok; eassumption.
Qed.

(* ================================================================== *)
(** * Statistics                                                       *)
(* ================================================================== *)

Lemma fold_filter_approved l acc :
  fold_left (fun sum e => JS.add sum (JS.parseFloat (Expense.amount e)))
    (filter (has_status "approved") l) acc
  = fold_left
      (fun sum e =>
         if String.eqb (Expense.status e) "approved"
         then JS.add sum (JS.parseFloat (Expense.amount e))
         else sum)
      l acc.
Proof.
  revert acc. induction l as [|e l IH]; intros acc; simpl; [reflexivity|].
  unfold has_status at 1.
  destruct (String.eqb (Expense.status e) "approved"); simpl; apply IH.
Qed.

Lemma counts_partition (l : list Expense.t) :
  Forall (fun e => valid_status (Expense.status e)) l ->
  (List.length (filter (has_status "pending") l)
   + List.length (filter (has_status "approved") l)
   + List.length (filter (has_status "rejected") l)
   = List.length l)%nat.
Proof.
  induction 1 as [|e l He Hl IH]; [reflexivity|].
  unfold has_status in *. cbn [filter].
  destruct He as [H | [H | H]]; rewrite H; simpl; lia.
Qed.

Lemma store_ok_statuses st :
  store_ok st ->
  Forall (fun e => valid_status (Expense.status e))
         (Map_values (MemStorage.expenses st)).
Proof.
  intros [_ Hrows]. unfold Map_values. rewrite Forall_map.
  eapply Forall_impl; [|exact Hrows]. intros kv (_ & _ & H). exact H.
Qed.

(** C7. In every state the server can reach, the three counts of the
    statistics add up to the number of stored expenses, and the total is
    the sum of the amounts of the approved expenses only. *)
Theorem getExpenseStats_counts_and_total :
  forall (ext : External) (w : World),
    reachable ext w ->
    let stats := getExpenseStats (store w) in
    (pendingCount stats + approvedCount stats + rejectedCount stats
     = List.length (MemStorage.expenses (store w)))%nat
    /\ totalAmount stats
       = sum_of_approved_amounts (Map_values (MemStorage.expenses (store w))).
Proof.
  intros ext w Hreach. cbn zeta. split.
  - unfold getExpenseStats; cbn [pendingCount approvedCount rejectedCount].
    rewrite counts_partition.
    + unfold Map_values. apply length_map.
    + apply store_ok_statuses, (reachable_ok ext), Hreach.
  - unfold getExpenseStats; cbn [totalAmount].
    unfold sum_amounts, sum_of_approved_amounts. apply fold_filter_approved.
Qed.

(* ================================================================== *)
(** * The seeded store and sample collaborators                        *)
(* ================================================================== *)

Lemma reach_createUser ext now u st l :
  reachable ext (mkWorld st l) ->
  reachable ext (mkWorld (snd (createUser now u st)) l).
Proof.
  intros H. exact (reach_step ext _ _ H (step_createUser ext now u (mkWorld st l))).
Qed.

Lemma reach_setSetting ext now s st l :
  reachable ext (mkWorld st l) ->
  reachable ext (mkWorld (snd (setSetting now s st)) l).
Proof.
  intros H. exact (reach_step ext _ _ H (step_setSetting ext now s (mkWorld st l))).
Qed.

Lemma reach_createExpense ext now e st l :
  reachable ext (mkWorld st l) ->
  reachable ext (mkWorld (snd (createExpense now e st)) l).
Proof.
  intros H. exact (reach_step ext _ _ H (step_createExpense ext now e (mkWorld st l))).
Qed.

Lemma seeded_reachable ext t0 : reachable ext (seeded t0).
Proof.
  unfold seeded, initializeDefaultData.
  repeat apply reach_createExpense.
  repeat apply reach_setSetting.
  repeat apply reach_createUser.
  apply reach_initial.
Qed.

Lemma sample_decided_reachable : reachable all_up sample_decided.
Proof.
  eapply reach_step; [apply seeded_reachable | apply step_patchExpenseStatus].
Qed.

Lemma getExpenseStats_counts_and_total_witness :
  reachable all_up sample_decided
  /\ let stats := getExpenseStats (store sample_decided) in
     (pendingCount stats + approvedCount stats + rejectedCount stats
      = List.length (MemStorage.expenses (store sample_decided)))%nat
     /\ totalAmount stats
        = sum_of_approved_amounts
            (Map_values (MemStorage.expenses (store sample_decided))).
Proof.
  split.
  - apply sample_decided_reachable.
  - apply (getExpenseStats_counts_and_total all_up sample_decided).
    apply sample_decided_reachable.
Defined.

(* ================================================================== *)
(** * Creation                                                         *)
(* ================================================================== *)

Lemma postExpense_created ext now userId body w e :
  fst (postExpense ext now userId body w) = mkResponse 201 (PExpense e) ->
  exists ins, e = fst (createExpense now ins (store w)).
Proof.
  unfold postExpense.
  destruct (getUser userId (store w)) as [user|]; [|discriminate].
  destruct (receipt_link_store ext body w) as [Hs _].
  destruct (receipt_link ext body w) as [[link|x] w1]; cbn [snd] in Hs;
    [|discriminate].
  destruct (insertExpenseSchema_parse body (calculatedAmount body) user link)
    as [data|[]]; try discriminate.
  rewrite Hs.
  destruct (createExpense now data (store w)) as [e' st] eqn:Ec. cbn [fst].
  intros [= <-]. exists data. rewrite Ec. reflexivity.
Qed.

Lemma gentle_keys w w' :
  gentle w w' ->
  Map_keys (MemStorage.expenses (store w'))
  = Map_keys (MemStorage.expenses (store w)).
Proof.
  intros [(_ & _ & _ & _ & _ & Hcore) _].
  rewrite <- !keys_store_core, Hcore. reflexivity.
Qed.

(** No operation of the server removes an expense. *)
Lemma step_keeps_expenses ext w w' :
  step ext w w' ->
  incl (Map_keys (MemStorage.expenses (store w)))
       (Map_keys (MemStorage.expenses (store w'))).
Proof.
  intros Hstep. destruct Hstep; cbn [store with_store].
  - apply incl_refl.
  - unfold setSetting. destruct (Map_get String.eqb _ _); apply incl_refl.
  - unfold createExpense. cbn [snd set_expenses MemStorage.expenses].
    apply (Map_keys_set_incl Z.eqb Zeqb_eq).
  - unfold postExpense.
    destruct (getUser userId (store w)) as [user|]; [|apply incl_refl].
    destruct (receipt_link_store ext body w) as [Hs _].
    destruct (receipt_link ext body w) as [[link|x] w1]; cbn [snd] in Hs.
    + destruct (insertExpenseSchema_parse body (calculatedAmount body) user link)
        as [data|[]]; cbn [snd store emit]; try (rewrite Hs; apply incl_refl).
      destruct (createExpense now data (store w1)) as [e st] eqn:Ec. cbn [snd].
      rewrite (gentle_keys _ _ (created_fanout_gentle ext e _)).
      cbn [store with_store].
      replace st with (snd (createExpense now data (store w1)))
        by (rewrite Ec; reflexivity).
      rewrite Hs. unfold createExpense. cbn [snd set_expenses MemStorage.expenses].
      apply (Map_keys_set_incl Z.eqb Zeqb_eq).
    + cbn [snd store emit]. rewrite Hs. apply incl_refl.
  - unfold patchExpenseStatus.
    destruct (getUser userId (store w)) as [u|]; [|apply incl_refl].
    destruct (may_decide (Some u)); [|apply incl_refl].
    destruct (updateExpenseStatusSchema_parse body u) as [data|[]];
      try apply incl_refl.
    unfold updateExpenseStatus.
    destruct (Map_get Z.eqb id (MemStorage.expenses (store w))) as [e|] eqn:G;
      [|apply incl_refl].
    cbn [snd]. rewrite (gentle_keys _ _ (decided_fanout_gentle ext _ _)).
    cbn [store with_store set_expenses MemStorage.expenses].
    apply (Map_keys_set_incl Z.eqb Zeqb_eq).
  - rewrite (gentle_keys _ _ (postSyncSheets_gentle ext userId w)). apply incl_refl.
  - rewrite (gentle_keys _ _ (processNotificationQueue_gentle ext w)).
    apply incl_refl.
Qed.

Lemma Map_get_map_core k (m : list (Z * Expense.t)) :
  Map_get Z.eqb k (map (fun kv => (fst kv, core (snd kv))) m)
  = option_map core (Map_get Z.eqb k m).
Proof.
  induction m as [|[k' v] m IH]; simpl; [reflexivity|].
  destruct (Z.eqb k k'); [reflexivity | exact IH].
Qed.

(** A store that differs in synchronisation fields only holds, under each
    id, an expense with the same core. *)
Lemma same_but_sync_getExpense st st' k e :
  same_but_sync st st' ->
  getExpense k st = Some e ->
  exists e', getExpense k st' = Some e' /\ core e' = core e.
Proof.
  intros (_ & _ & _ & _ & _ & Hcore) G. unfold getExpense in *.
  assert (H : option_map core (Map_get Z.eqb k (MemStorage.expenses st'))
              = option_map core (Map_get Z.eqb k (MemStorage.expenses st))).
  { rewrite <- !Map_get_map_core. unfold store_core in Hcore.
    rewrite Hcore. reflexivity. }
  rewrite G in H. simpl in H.
  destruct (Map_get Z.eqb k (MemStorage.expenses st')) as [e'|];
    [|discriminate].
  exists e'. split; [reflexivity|]. simpl in H. congruence.
Qed.

Lemma In_keys_get (m : list (Z * Expense.t)) k :
  In k (Map_keys m) -> exists v, Map_get Z.eqb k m = Some v.
Proof.
  induction m as [|[k' v] m IH]; cbn; [tauto|].
  intros H. destruct (Z.eqb_spec k k') as [_|Hne]; [eexists; reflexivity|].
  apply IH. destruct H as [H|H]; [congruence | exact H].
Qed.

Lemma gentle_counter w w' :
  gentle w w' ->
  MemStorage.currentExpenseId (store w') = MemStorage.currentExpenseId (store w).
Proof. intros [(_ & _ & _ & H & _) _]. exact H. Qed.

(** What a successful submission is made of. *)
Lemma postExpense_creation ext now userId body w e w' :
  postExpense ext now userId body w = (mkResponse 201 (PExpense e), w') ->
  exists ins w0,
    store w0 = store w
    /\ e = fst (createExpense now ins (store w))
    /\ w' = created_fanout ext e
              (with_store (snd (createExpense now ins (store w))) w0).
Proof.
  unfold postExpense.
  destruct (getUser userId (store w)) as [user|]; [|discriminate].
  destruct (receipt_link_store ext body w) as [Hs _].
  destruct (receipt_link ext body w) as [[link|x] w1]; cbn [snd] in Hs;
    [|discriminate].
  destruct (insertExpenseSchema_parse body (calculatedAmount body) user link)
    as [data|[]]; try discriminate.
  rewrite <- Hs.
  destruct (createExpense now data (store w1)) as [e' st] eqn:Ec.
  intros [= <- <-]. exists data, w1. rewrite Ec.
  split; [reflexivity|]. split; reflexivity.
Qed.

(** The counter of the expenses never decreases. *)
Lemma step_counter ext w w' :
  step ext w w' ->
  MemStorage.currentExpenseId (store w)
  <= MemStorage.currentExpenseId (store w').
Proof.
  intros Hstep. destruct Hstep; cbn [store with_store].
  - simpl. lia.
  - unfold setSetting. destruct (Map_get String.eqb _ _); simpl; lia.
  - rewrite createExpense_counter. lia.
  - unfold postExpense.
    destruct (getUser userId (store w)) as [user|]; [|cbn [snd]; lia].
    destruct (receipt_link_store ext body w) as [Hs _].
    destruct (receipt_link ext body w) as [[link|x] w1]; cbn [snd] in Hs.
    + destruct (insertExpenseSchema_parse body (calculatedAmount body) user link)
        as [data|[]]; cbn [snd store emit]; try (rewrite Hs; lia).
      pose proof (createExpense_counter now data (store w1)) as Hc.
      destruct (createExpense now data (store w1)) as [e st]. cbn [snd] in *.
      rewrite (gentle_counter _ _ (created_fanout_gentle ext e _)).
      cbn [store with_store]. rewrite Hc, Hs. lia.
    + cbn [snd store emit]. rewrite Hs. lia.
  - unfold patchExpenseStatus.
    destruct (getUser userId (store w)) as [u|]; [|cbn [snd]; lia].
    destruct (may_decide (Some u)); [|cbn [snd]; lia].
    destruct (updateExpenseStatusSchema_parse body u) as [data|[]];
      cbn [snd store emit]; try lia.
    unfold updateExpenseStatus.
    destruct (Map_get Z.eqb id (MemStorage.expenses (store w))) as [e|];
      cbn [snd]; [|cbn [snd]; lia].
    rewrite (gentle_counter _ _ (decided_fanout_gentle ext _ _)).
    cbn [store with_store set_expenses MemStorage.currentExpenseId]. lia.
  - rewrite (gentle_counter _ _ (postSyncSheets_gentle ext userId w)). lia.
  - rewrite (gentle_counter _ _ (processNotificationQueue_gentle ext w)). lia.
Qed.

Lemma runs_counter ext w w' :
  runs ext w w' ->
  MemStorage.currentExpenseId (store w)
  <= MemStorage.currentExpenseId (store w').
Proof.
  induction 1 as [|w w1 w2 _ IH Hstep]; [lia|].
  pose proof (step_counter ext w1 w2 Hstep). lia.
Qed.

Lemma runs_keeps_expenses ext w w' :
  runs ext w w' ->
  incl (Map_keys (MemStorage.expenses (store w)))
       (Map_keys (MemStorage.expenses (store w'))).
Proof.
  induction 1 as [|w w1 w2 _ IH Hstep]; [apply incl_refl|].
  eapply incl_tran; [exact IH | apply step_keeps_expenses with ext, Hstep].
Qed.

Lemma created_id ext now w e :
  created ext now w e -> Expense.id e = MemStorage.currentExpenseId (store w).
Proof.
  intros [[ins ->] | (userId & body & H)]; [reflexivity|].
  destruct (postExpense_created _ _ _ _ _ _ H) as [ins ->]. reflexivity.
Qed.

Lemma created_creation ext now w e :
  created ext now w e -> exists w1, creation ext now w e w1.
Proof.
  intros [[ins ->] | (userId & body & H)].
  - eexists. left. exists ins. split; reflexivity.
  - exists (snd (postExpense ext now userId body w)). right.
    exists userId, body.
    destruct (postExpense ext now userId body w) as [r w1]. cbn [fst snd] in *.
    rewrite H. reflexivity.
Qed.

(** What a creation leaves: the new expense stored under its id, the
    counter one beyond it; and the creation is an operation of the
    server. *)
Lemma creation_leaves ext now w e w1 :
  creation ext now w e w1 ->
  step ext w w1
  /\ (exists e1, getExpense (Expense.id e) (store w1) = Some e1
                 /\ core e1 = core e)
  /\ MemStorage.currentExpenseId (store w1) = Expense.id e + 1.
Proof.
  assert (Hstored : forall ins st,
            getExpense (Expense.id (fst (createExpense now ins st)))
              (snd (createExpense now ins st))
            = Some (fst (createExpense now ins st))).
  { intros ins st. unfold createExpense, getExpense.
    cbn [fst snd Expense.id set_expenses MemStorage.expenses].
    apply (Map_get_set_same Z.eqb Zeqb_eq). }
  intros [(ins & -> & ->) | (userId & body & H)].
  - split; [apply step_createExpense|]. cbn [store with_store]. split.
    + eexists. split; [apply Hstored | reflexivity].
    + rewrite createExpense_counter, createExpense_id. reflexivity.
  - split.
    { replace w1 with (snd (postExpense ext now userId body w))
        by (rewrite H; reflexivity).
      apply step_postExpense. }
    destruct (postExpense_creation _ _ _ _ _ _ _ H)
      as (ins & w0 & Hs & -> & ->).
    pose proof (created_fanout_gentle ext
                  (fst (createExpense now ins (store w)))
                  (with_store (snd (createExpense now ins (store w))) w0))
      as Hg.
    split.
    + apply (same_but_sync_getExpense _ _ _ _ (proj1 Hg)).
      cbn [store with_store]. apply Hstored.
    + rewrite (gentle_counter _ _ Hg). cbn [store with_store].
      rewrite createExpense_counter, createExpense_id. reflexivity.
Qed.

(** C3. Every expense created in a reachable state has status "pending",
    [notificationSent = false], no decision field set, the server's clock
    reading as submission date, and an id larger than the id of every
    expense already stored. The creation leaves it stored under that id
    and the counter one beyond it; no operation of the server removes an
    expense or lowers the counter, so every expense created later, after
    any run of the server, has a larger id, while the earlier one is
    still stored. *)
Theorem created_expense_is_pending_and_fresh :
  forall (ext : External) (now : Z) (w : World) (e : Expense.t),
    reachable ext w ->
    created ext now w e ->
    Expense.status e = "pending"
    /\ Expense.notificationSent e = false
    /\ Expense.approvedBy e = None
    /\ Expense.approvedByName e = None
    /\ Expense.approvalDate e = None
    /\ Expense.approvalNote e = None
    /\ Expense.submissionDate e = now
    /\ (forall e0, In e0 (Map_values (MemStorage.expenses (store w))) ->
                   Expense.id e0 < Expense.id e)
    /\ (forall w', step ext w w' ->
                   incl (Map_keys (MemStorage.expenses (store w)))
                        (Map_keys (MemStorage.expenses (store w'))))
    /\ (exists w1, creation ext now w e w1)
    /\ (forall w1,
          creation ext now w e w1 ->
          reachable ext w1
          /\ (exists e1, getExpense (Expense.id e) (store w1) = Some e1
                         /\ core e1 = core e)
          /\ MemStorage.currentExpenseId (store w1) = Expense.id e + 1
          /\ forall w2 now2 e2,
               runs ext w1 w2 ->
               created ext now2 w2 e2 ->
               Expense.id e < Expense.id e2
               /\ exists e1, getExpense (Expense.id e) (store w2) = Some e1).
Proof.
  intros ext now w e Hreach Hcreated.
  pose proof (created_creation ext now w e Hcreated) as Hex.
  assert (exists ins, e = fst (createExpense now ins (store w))) as [ins ->].
  { destruct Hcreated as [H | (userId & body & H)]; [exact H|].
    eapply postExpense_created, H. }
  repeat split; try reflexivity.
  - intros e0 Hin. rewrite createExpense_id.
    destruct (reachable_ok ext w Hreach) as [_ Hrows].
    unfold Map_values in Hin. apply in_map_iff in Hin.
    destruct Hin as ((k & e1) & Heq & Hin). simpl in Heq. subst e1.
    rewrite Forall_forall in Hrows. destruct (Hrows _ Hin) as (Hb & Hid & _).
    simpl in Hb, Hid. lia.
  - intros w'. apply step_keeps_expenses.
  - exact Hex.
  - eapply reach_step; [exact Hreach | eapply creation_leaves; eassumption].
  - eapply creation_leaves; eassumption.
  - eapply creation_leaves; eassumption.
  - destruct (creation_leaves _ _ _ _ _ H) as (_ & _ & Hc).
    pose proof (runs_counter _ _ _ H0) as Hmono.
    rewrite (created_id _ _ _ _ H1). lia.
  - destruct (creation_leaves _ _ _ _ _ H) as (_ & (e1 & Hget & _) & _).
    apply In_keys_get. apply (runs_keeps_expenses _ _ _ H0).
    unfold getExpense in Hget. apply (Map_get_In Z.eqb Zeqb_eq) in Hget.
    unfold Map_keys. apply in_map_iff. eexists. split; [|exact Hget].
    reflexivity.
Qed.

Lemma created_expense_is_pending_and_fresh_witness :
  reachable all_up sample_decided
  /\ created all_up 1750700002000 sample_decided
       (fst (createExpense 1750700002000 parking_insert (store sample_decided)))
  /\ Expense.status
       (fst (createExpense 1750700002000 parking_insert (store sample_decided)))
     = "pending"
  /\ Expense.id
       (fst (createExpense 1750700002000 parking_insert (store sample_decided)))
     = 4
  /\ (forall now2 e2,
        created all_up now2
          (with_store
             (snd (createExpense 1750700002000 parking_insert
                     (store sample_decided))) sample_decided) e2 ->
        4 < Expense.id e2).
Proof.
  assert (Hr : reachable all_up sample_decided) by apply sample_decided_reachable.
  assert (Hc : created all_up 1750700002000 sample_decided
                 (fst (createExpense 1750700002000 parking_insert
                         (store sample_decided))))
    by (left; exists parking_insert; reflexivity).
  pose proof (created_expense_is_pending_and_fresh
                all_up 1750700002000 sample_decided _ Hr Hc)
    as (Hs & _ & _ & _ & _ & _ & _ & _ & _ & _ & Hlater).
  split; [exact Hr|]. split; [exact Hc|]. split; [exact Hs|].
  split; [vm_compute; reflexivity|].
  intros now2 e2 H2.
  assert (Hcr : creation all_up 1750700002000 sample_decided
                  (fst (createExpense 1750700002000 parking_insert
                          (store sample_decided)))
                  (with_store
                     (snd (createExpense 1750700002000 parking_insert
                             (store sample_decided))) sample_decided))
    by (left; exists parking_insert; split; reflexivity).
  destruct (Hlater _ Hcr) as (_ & _ & _ & Hid).
  exact (proj1 (Hid _ now2 e2 (runs_refl _ _) H2)).
Defined.

(* ================================================================== *)
(** * Decisions                                                        *)
(* ================================================================== *)

(** C4. A status update requested by a user whose role is neither
    "approver" nor "admin" (an employee) is answered 403 "Insufficient
    permissions"; the store is left as it was and no collaborator is
    called. *)
Theorem patchExpenseStatus_employee_forbidden :
  forall (ext : External) (now userId id : Z) (body : StatusRequest.t)
         (w : World) (u : User.t),
    getUser userId (store w) = Some u ->
    User.role u <> "approver" ->
    User.role u <> "admin" ->
    patchExpenseStatus ext now userId id body w
    = (mkResponse 403 (PMessage "Insufficient permissions"), w).
Proof.
  intros ext now userId id body w u Hu Hna Hnd.
  unfold patchExpenseStatus. rewrite Hu. unfold may_decide.
  destruct (String.eqb_spec (User.role u) "approver") as [E|_]; [contradiction|].
  destruct (String.eqb_spec (User.role u) "admin") as [E|_]; [contradiction|].
  reflexivity.
Qed.

(** Sarah Miller (user 3, an employee) tries to approve expense 2. *)
Lemma patchExpenseStatus_employee_forbidden_witness :
  exists u,
    getUser 3 (store sample_decided) = Some u
    /\ User.role u = "employee"
    /\ patchExpenseStatus all_up 1750700003000 3 2
         (StatusRequest.mk (Some "approved") None) sample_decided
       = (mkResponse 403 (PMessage "Insufficient permissions"), sample_decided).
Proof.
  eexists. split; [vm_compute; reflexivity|]. split; [reflexivity|].
  apply (patchExpenseStatus_employee_forbidden all_up 1750700003000 3 2
           (StatusRequest.mk (Some "approved") None) sample_decided
           (User.mk 3 "sarah@agency.com" "Sarah Miller" (Some "Marketing")
              "employee" true 1750700000002)).
  - vm_compute. reflexivity.
  - simpl. discriminate.
  - simpl. discriminate.
Defined.

(** C1, as the code has it. The handler does not look at the current
    status: whatever it is (pending, approved or rejected), a status
    update by an approver or admin with a verdict "approved" or
    "rejected" is answered 200 with the record overwritten by the new
    decision, notificationSent reset; the stored record is that one, up
    to its synchronisation fields. *)
Theorem patchExpenseStatus_overwrites_any_status :
  forall (ext : External) (now userId id : Z) (body : StatusRequest.t)
         (w : World) (u : User.t) (v : Verdict) (e : Expense.t),
    getUser userId (store w) = Some u ->
    may_decide (Some u) = true ->
    StatusRequest.status body = Some (Verdict_text v) ->
    getExpense id (store w) = Some e ->
    let e' := decided e v u (StatusRequest.approvalNote body) now in
    fst (patchExpenseStatus ext now userId id body w)
    = mkResponse 200 (PExpense e')
    /\ Expense.status e' = Verdict_text v
    /\ Expense.notificationSent e' = false
    /\ exists e'',
         getExpense id (store (snd (patchExpenseStatus ext now userId id body w)))
         = Some e''
         /\ core e'' = core e'.
Proof.
  intros ext now userId id body w u v e Hu Hmay Hv He e'.
  assert (Hparse : updateExpenseStatusSchema_parse body u
                   = Ok (UpdateExpenseStatus.mk v (StatusRequest.approvalNote body)
                           (User.id u) (User.name u))).
  { unfold updateExpenseStatusSchema_parse. rewrite Hv.
    destruct v; reflexivity. }
  unfold patchExpenseStatus. rewrite Hu, Hmay, Hparse.
  unfold updateExpenseStatus. unfold getExpense in He. rewrite He.
  cbn [fst snd UpdateExpenseStatus.status UpdateExpenseStatus.approvalNote
       UpdateExpenseStatus.approvedBy UpdateExpenseStatus.approvedByName].
  split; [|split; [|split]].
  - subst e'. destruct e; reflexivity.
  - reflexivity.
  - reflexivity.
  - match goal with
    | |- context [decided_fanout ext ?x ?w0] =>
        destruct (decided_fanout_gentle ext x w0) as [Hsync _];
        apply (same_but_sync_getExpense _ _ id x) in Hsync
    end.
    + destruct Hsync as (e'' & G & Hc). exists e''. split; [exact G|].
      rewrite Hc. subst e'. destruct e; reflexivity.
    + cbn [store with_store]. unfold getExpense, set_expenses.
      cbn [MemStorage.expenses]. apply (Map_get_set_same Z.eqb Zeqb_eq).
Qed.

Lemma patchExpenseStatus_overwrites_any_status_witness :
  (exists e, getExpense 1 (store sample_decided) = Some e
             /\ Expense.status e = "approved")
  /\ code (fst redecided) = 200
  /\ exists e'', getExpense 1 (store (snd redecided)) = Some e''
                 /\ Expense.status e'' = "rejected".
Proof.
  destruct (getExpense 1 (store sample_decided)) as [e|] eqn:He;
    [|vm_compute in He; discriminate].
  destruct (patchExpenseStatus_overwrites_any_status all_up 1750700004000 1 1
              redecide_request sample_decided
              (User.mk 1 "admin@agency.com" "Admin User" (Some "Administration")
                 "admin" true 1750700000000)
              rejected e)
    as (Hresp & Hst & _ & e'' & G & Hc).
  - vm_compute. reflexivity.
  - reflexivity.
  - reflexivity.
  - exact He.
  - split.
    + exists e. split; [reflexivity|].
      vm_compute in He. injection He as <-. reflexivity.
    + split.
      * unfold redecided. rewrite Hresp. reflexivity.
      * exists e''. split; [exact G|].
        rewrite <- (core_status e''), Hc, core_status. exact Hst.
Defined.

(** The claim C1 as the specification words it fails: expense 1 of
    [sample_decided] is approved, and a second decision on it is answered
    200 and replaces the stored status by "rejected". *)
Lemma decide_on_approved_expense_succeeds :
  option_map Expense.status (getExpense 1 (store sample_decided))
  = Some "approved"
  /\ code (fst redecided) = 200
  /\ option_map Expense.status (getExpense 1 (store (snd redecided)))
     = Some "rejected"
  /\ store (snd redecided) <> store sample_decided.
Proof.
  vm_compute. repeat split; try reflexivity. intros H. discriminate H.
Qed.

(* ================================================================== *)
(** * The fan-out tolerates a failing ledger                           *)
(* ================================================================== *)

Lemma sendNotificationEmail_logs ext to subject body w :
  In (GmailSend to subject body (gmail_send ext (log w) to subject body))
     (log (snd (sendNotificationEmail ext to subject body w))).
Proof.
  unfold sendNotificationEmail.
  destruct (gmail_send ext (log w) to subject body); cbn [snd log emit];
    apply in_or_app; left; apply in_or_app; right; left; reflexivity.
Qed.

Lemma sendApprovalNotification_logs ext e w ms :
  Expense.expenseDate e = DateOf ms ->
  exists ok,
    In (GmailSend (Expense.employeeEmail e) (approval_subject e)
          (ApprovalBody e) ok)
       (log (sendApprovalNotification ext e w)).
Proof.
  intros Hd. unfold sendApprovalNotification, generateApprovalEmailBody.
  rewrite Hd. cbn [toISOString].
  pose proof (sendNotificationEmail_logs ext (Expense.employeeEmail e)
                (approval_subject e) (ApprovalBody e) w) as H.
  exists (gmail_send ext (log w) (Expense.employeeEmail e) (approval_subject e)
            (ApprovalBody e)).
  destruct (sendNotificationEmail ext (Expense.employeeEmail e)
              (approval_subject e) (ApprovalBody e) w) as [[u|x] w1];
    cbn [snd] in H; cbn [log emit with_store];
    apply in_or_app; left; exact H.
Qed.

Lemma sendExpenseSubmissionNotification_logs ext e w ms :
  Expense.expenseDate e = DateOf ms ->
  exists ok,
    In (GmailSend "manager@agency.com"
          ("New Expense Report Submitted - $" ++ Expense.amount e)
          (SubmissionBody e) ok)
       (log (sendExpenseSubmissionNotification ext e w)).
Proof.
  intros Hd.
  unfold sendExpenseSubmissionNotification, generateSubmissionEmailBody,
    getApprovers.
  rewrite Hd. cbn [toISOString send_to_each fst].
  set (subject := "New Expense Report Submitted - $" ++ Expense.amount e).
  pose proof (sendNotificationEmail_logs ext "manager@agency.com" subject
                (SubmissionBody e) w) as H.
  exists (gmail_send ext (log w) "manager@agency.com" subject (SubmissionBody e)).
  destruct (sendNotificationEmail ext "manager@agency.com" subject
              (SubmissionBody e) w) as [[u|x] w1]; cbn [snd] in H.
  - destruct (sendNotificationEmail_store ext "admin@agency.com" subject
                (SubmissionBody e) w1) as [_ Hext].
    destruct (sendNotificationEmail ext "admin@agency.com" subject
                (SubmissionBody e) w1) as [[u'|x'] w2]; cbn [snd] in Hext;
      cbn [log emit]; apply in_or_app; left;
      apply (extends_In _ w1 w2 Hext), H.
  - cbn [log emit]. apply in_or_app; left; exact H.
Qed.

Lemma addExpense_throw_store ext e w x :
  fst (addExpense ext e w) = Throw x ->
  store (snd (addExpense ext e w)) = store w.
Proof.
  unfold addExpense.
  destruct (toISOString (Expense.expenseDate e)); [|reflexivity].
  destruct (sheets_append ext (log w) (sheet_row e a)) as [range|];
    [|reflexivity].
  destruct (0 <? rowNumber_of range); discriminate.
Qed.

(** C2. When the ledger call of a fan-out throws, the handler logs the
    failure and goes on: the notifier runs on the world the failed call
    left, the answer is the success answer carrying the record, and the
    record is in the store. This holds for a decision (first part) and
    for a submission (second part); with a valid expense date the mail to
    the submitter, resp. to the first approver, is attempted. *)
Theorem fanout_survives_ledger_failure :
  forall (ext : External),
    (forall now userId id body w u data e st x,
        getUser userId (store w) = Some u ->
        may_decide (Some u) = true ->
        updateExpenseStatusSchema_parse body u = Ok data ->
        updateExpenseStatus now id data (store w) = (Some e, st) ->
        fst (sheets_updateExpenseStatus ext e (with_store st w)) = Throw x ->
        let w1 := emit (Console "error" "Failed to update sheets:")
                    (snd (sheets_updateExpenseStatus ext e (with_store st w))) in
        let w2 := sendApprovalNotification ext e w1 in
        patchExpenseStatus ext now userId id body w
        = (mkResponse 200 (PExpense e), w2)
        /\ (exists e', getExpense id (store w2) = Some e' /\ core e' = core e)
        /\ (forall ms, Expense.expenseDate e = DateOf ms ->
              exists ok,
                In (GmailSend (Expense.employeeEmail e) (approval_subject e)
                      (ApprovalBody e) ok) (log w2)))
    /\
    (forall now userId body w user link w1 data x,
        getUser userId (store w) = Some user ->
        receipt_link ext body w = (Ok link, w1) ->
        insertExpenseSchema_parse body (calculatedAmount body) user link
        = Ok data ->
        let e := fst (createExpense now data (store w1)) in
        let w2 := with_store (snd (createExpense now data (store w1))) w1 in
        fst (addExpense ext e w2) = Throw x ->
        let w3 := emit (Console "error" "Failed to add to sheets:")
                    (snd (addExpense ext e w2)) in
        let w4 := sendExpenseSubmissionNotification ext e w3 in
        postExpense ext now userId body w = (mkResponse 201 (PExpense e), w4)
        /\ getExpense (Expense.id e) (store w4) = Some e
        /\ (forall ms, Expense.expenseDate e = DateOf ms ->
              exists ok,
                In (GmailSend "manager@agency.com"
                      ("New Expense Report Submitted - $" ++ Expense.amount e)
                      (SubmissionBody e) ok) (log w4))).
Proof.
  intros ext. split.
  - intros now userId id body w u data e st x Hu Hmay Hparse Hupd Hthrow w1 w2.
    split; [|split].
    + unfold patchExpenseStatus. rewrite Hu, Hmay, Hparse, Hupd.
      unfold decided_fanout. subst w2 w1.
      destruct (sheets_updateExpenseStatus ext e (with_store st w)) as [[u0|x0] w'];
        cbn [fst snd] in *; [discriminate | reflexivity].
    + assert (Hst : getExpense id st = Some e).
      { unfold updateExpenseStatus in Hupd.
        destruct (Map_get Z.eqb id (MemStorage.expenses (store w))) as [e0|];
          [|discriminate].
        injection Hupd as <- <-. unfold getExpense, set_expenses.
        cbn [MemStorage.expenses]. apply (Map_get_set_same Z.eqb Zeqb_eq). }
      destruct (sendApprovalNotification_gentle ext e w1) as [Hsync _].
      apply (same_but_sync_getExpense _ _ id e) in Hsync; [exact Hsync|].
      subst w1. cbn [store emit].
      destruct (sheets_updateExpenseStatus_store ext e (with_store st w)) as [-> _].
      exact Hst.
    + intros ms Hd. apply (sendApprovalNotification_logs ext e w1 ms Hd).
  - intros now userId body w user link w1 data x Hu Hlink Hparse e w2 Hthrow w3 w4.
    split; [|split].
    + unfold postExpense. rewrite Hu, Hlink, Hparse.
      fold e. unfold created_fanout. subst w4 w3.
      destruct (createExpense now data (store w1)) as [e' st] eqn:Ec.
      cbn [fst snd] in *. subst e. fold w2.
      destruct (addExpense ext e' w2) as [[n|x0] w']; cbn [fst snd] in *;
        [discriminate | reflexivity].
    + subst w4 w3.
      destruct (sendExpenseSubmissionNotification_store ext e
                  (emit (Console "error" "Failed to add to sheets:")
                     (snd (addExpense ext e w2)))) as [-> _].
      cbn [store emit]. rewrite (addExpense_throw_store ext e w2 x Hthrow).
      subst w2 e. cbn [store with_store]. unfold createExpense.
      cbn [fst snd Expense.id]. unfold getExpense, set_expenses.
      cbn [MemStorage.expenses]. apply (Map_get_set_same Z.eqb Zeqb_eq).
    + intros ms Hd. apply (sendExpenseSubmissionNotification_logs ext e w3 ms Hd).
Qed.

Lemma fanout_survives_ledger_failure_witness :
  (exists e st x w2,
      updateExpenseStatus 1750700005000 1
        (UpdateExpenseStatus.mk approved (Some "Approved, within policy") 2
           "Finance Manager") (store synced) = (Some e, st)
      /\ fst (sheets_updateExpenseStatus ledger_down e (with_store st synced))
         = Throw x
      /\ patchExpenseStatus ledger_down 1750700005000 2 1 approve_request synced
         = (mkResponse 200 (PExpense e), w2)
      /\ option_map Expense.notificationSent (getExpense 1 (store w2))
         = Some true)
  /\ (exists e w4,
        postExpense ledger_down 1750700006000 3 taxi_request synced
        = (mkResponse 201 (PExpense e), w4)
        /\ getExpense 4 (store w4) = Some e).
Proof.
  destruct (fanout_survives_ledger_failure ledger_down) as [Hdec Hsub].
  split.
  - edestruct (Hdec 1750700005000 2 1 approve_request synced) as (H1 & H2 & H3).
    + vm_compute. reflexivity.
    + reflexivity.
    + vm_compute. reflexivity.
    + vm_compute. reflexivity.
    + vm_compute. reflexivity.
    + do 4 eexists. split; [vm_compute; reflexivity|].
      split; [vm_compute; reflexivity|].
      split; [exact H1|]. vm_compute. reflexivity.
  - edestruct (Hsub 1750700006000 3 taxi_request synced) as (H1 & H2 & H3).
    + vm_compute. reflexivity.
    + vm_compute. reflexivity.
    + vm_compute. reflexivity.
    + vm_compute. reflexivity.
    + do 2 eexists. split; [exact H1 | exact H2].
Defined.

(* ================================================================== *)
(** * The notification flag                                            *)
(* ================================================================== *)

Lemma keeps_flags_refl st : keeps_flags st st.
Proof. intros k e H. exists e. auto. Qed.

Lemma keeps_flags_trans st1 st2 st3 :
  keeps_flags st1 st2 -> keeps_flags st2 st3 -> keeps_flags st1 st3.
Proof.
  intros H12 H23 k e3 H3.
  destruct (H23 k e3 H3) as (e2 & H2 & Hc2 & Hf2).
  destruct (H12 k e2 H2) as (e1 & H1 & Hc1 & Hf1).
  exists e1. repeat split; congruence.
Qed.

Lemma flag_confirmed_keeps w w' :
  extends w w' -> keeps_flags (store w) (store w') ->
  flag_confirmed w -> flag_confirmed w'.
Proof.
  intros Hext Hkeep Hinv k e' Hin Hflag.
  destruct (Hkeep k e' Hin) as (e & Hin0 & Hc & Hf).
  destruct (Hinv k e Hin0) as (e0 & Hc0 & Hev); [congruence|].
  exists e0. split; [congruence|]. eapply extends_In; eassumption.
Qed.

Lemma updateExpense_rowNumber_keeps_flags id n st :
  keeps_flags st (snd (updateExpense id (just_sheetsRowNumber n) st)).
Proof.
  unfold updateExpense.
  destruct (Map_get Z.eqb id (MemStorage.expenses st)) as [e|] eqn:G;
    [|apply keeps_flags_refl].
  intros k e' Hin. cbn [snd set_expenses MemStorage.expenses] in Hin.
  apply In_Map_set in Hin. destruct Hin as [Heq|Hin].
  - injection Heq as -> ->. exists e. split.
    + apply (Map_get_In Z.eqb Zeqb_eq), G.
    + split; [symmetry; apply core_rowNumber | destruct e; reflexivity].
  - exists e'. auto.
Qed.

Lemma addExpense_keeps_flags ext e w :
  keeps_flags (store w) (store (snd (addExpense ext e w))).
Proof.
  unfold addExpense. destruct (toISOString (Expense.expenseDate e));
    [|apply keeps_flags_refl].
  destruct (sheets_append ext (log w) (sheet_row e a)) as [range|];
    [|apply keeps_flags_refl].
  destruct (0 <? rowNumber_of range); [|apply keeps_flags_refl].
  cbn [snd store with_store emit]. apply updateExpense_rowNumber_keeps_flags.
Qed.

Lemma sync_loop_keeps_flags ext l w :
  keeps_flags (store w) (store (snd (sync_loop ext l w))).
Proof.
  revert w. induction l as [|e l IH]; intros w; cbn [sync_loop].
  - apply keeps_flags_refl.
  - destruct (num_truthy (Expense.sheetsRowNumber e)); [apply IH|].
    pose proof (addExpense_keeps_flags ext e w) as H.
    destruct (addExpense ext e w) as [[n|x] w1]; cbn [snd] in *.
    + eapply keeps_flags_trans; [exact H | apply IH].
    + exact H.
Qed.

Lemma postSyncSheets_keeps_flags ext userId w :
  keeps_flags (store w) (store (snd (postSyncSheets ext userId w))).
Proof.
  unfold postSyncSheets. destruct (is_admin _); [|apply keeps_flags_refl].
  unfold syncExpensesToSheet.
  pose proof (sync_loop_keeps_flags ext (getAllExpenses (store w)) w) as H.
  destruct (sync_loop ext (getAllExpenses (store w)) w) as [[u|x] w1];
    cbn [snd store emit] in *; exact H.
Qed.

Lemma core_employeeEmail e : Expense.employeeEmail (core e) = Expense.employeeEmail e.
Proof. destruct e; reflexivity. Qed.

Lemma sendApprovalNotification_confirmed ext e0 w :
  current (store w) e0 ->
  flag_confirmed w -> flag_confirmed (sendApprovalNotification ext e0 w).
Proof.
  intros Hcur Hinv. unfold sendApprovalNotification, generateApprovalEmailBody.
  destruct (toISOString (Expense.expenseDate e0)) as [ms|x].
  2:{ eapply flag_confirmed_keeps; [apply extends_emit | apply keeps_flags_refl
                                    | exact Hinv]. }
  pose proof (sendNotificationEmail_logs ext (Expense.employeeEmail e0)
                (approval_subject e0) (ApprovalBody e0) w) as Hlog.
  destruct (sendNotificationEmail_store ext (Expense.employeeEmail e0)
              (approval_subject e0) (ApprovalBody e0) w) as [Hs He].
  unfold sendNotificationEmail in *.
  destruct (gmail_send ext (log w) (Expense.employeeEmail e0)
              (approval_subject e0) (ApprovalBody e0)) eqn:Hok;
    cbn [fst snd] in *.
  - intros k e' Hin Hflag. cbn [store emit with_store] in Hin.
    unfold updateExpense in Hin. cbn [store emit] in Hin.
    destruct (Map_get Z.eqb (Expense.id e0) (MemStorage.expenses (store w)))
      as [cur|] eqn:G; cbn [snd set_expenses MemStorage.expenses] in Hin.
    + apply In_Map_set in Hin. destruct Hin as [Heq|Hin].
      * injection Heq as -> ->. exists e0. split.
        -- rewrite core_notificationSent. symmetry. apply Hcur. exact G.
        -- cbn [log emit with_store]. apply in_or_app. left. exact Hlog.
      * destruct (Hinv k e' Hin Hflag) as (e1 & Hc1 & Hev).
        exists e1. split; [exact Hc1|].
        cbn [log emit with_store]. rewrite <- !app_assoc.
        apply in_or_app. left. exact Hev.
    + destruct (Hinv k e' Hin Hflag) as (e1 & Hc1 & Hev).
      exists e1. split; [exact Hc1|].
      cbn [log emit with_store]. rewrite <- !app_assoc.
      apply in_or_app. left. exact Hev.
  - eapply flag_confirmed_keeps; [| |exact Hinv].
    + eapply extends_trans; [exact He | apply extends_emit].
    + cbn [store emit]. apply keeps_flags_refl.
Qed.

Lemma current_gentle w w' e0 :
  gentle w w' -> store_ok (store w) ->
  (exists cur, getExpense (Expense.id e0) (store w) = Some cur
               /\ core cur = core e0) ->
  current (store w') e0.
Proof.
  intros [Hsync _] _ (cur & G & Hc) cur' G'.
  destruct (same_but_sync_getExpense _ _ _ _ Hsync G) as (c2 & G2 & Hc2).
  congruence.
Qed.

Section SortMembers.
Context {A : Type}.
Variable cmp : A -> A -> Z.

Lemma In_sort_insert x y l : In x (sort_insert cmp y l) <-> x = y \/ In x l.
Proof.
  induction l as [|z l IH]; simpl.
  - intuition congruence.
  - destruct (cmp y z <=? 0); simpl; [intuition congruence|].
    rewrite IH. intuition congruence.
Qed.

Lemma In_Array_sort x l : In x (Array_sort cmp l) <-> In x l.
Proof.
  induction l as [|y l IH]; simpl; [tauto|].
  rewrite In_sort_insert, IH. intuition congruence.
Qed.
End SortMembers.

Lemma stored_is_current st e :
  store_ok st -> In e (Map_values (MemStorage.expenses st)) ->
  getExpense (Expense.id e) st = Some e.
Proof.
  intros [Hnd Hrows] Hin. unfold Map_values in Hin. apply in_map_iff in Hin.
  destruct Hin as ([k e1] & Heq & Hin). simpl in Heq. subst e1.
  rewrite Forall_forall in Hrows. destruct (Hrows _ Hin) as (_ & Hid & _).
  simpl in Hid. rewrite Hid. apply (In_Map_get Z.eqb Zeqb_eq); assumption.
Qed.

Lemma queue_confirmed ext l w :
  store_ok (store w) ->
  (forall e0, In e0 l ->
     exists cur, getExpense (Expense.id e0) (store w) = Some cur
                 /\ core cur = core e0) ->
  flag_confirmed w ->
  flag_confirmed
    (fold_left (fun w' expense => sendApprovalNotification ext expense w') l w).
Proof.
  revert w. induction l as [|e l IH]; intros w Hok Hl Hinv; cbn [fold_left].
  - exact Hinv.
  - pose proof (sendApprovalNotification_gentle ext e w) as Hg.
    apply IH.
    + eapply gentle_ok; eassumption.
    + intros e0 Hin. destruct (Hl e0 (or_intror Hin)) as (cur & G & Hc).
      destruct Hg as [Hsync _].
      destruct (same_but_sync_getExpense _ _ _ _ Hsync G) as (c2 & G2 & Hc2).
      exists c2. split; [exact G2 | congruence].
    + apply sendApprovalNotification_confirmed; [|exact Hinv].
      intros cur G. destruct (Hl e (or_introl eq_refl)) as (c & G' & Hc).
      congruence.
Qed.

Lemma step_confirmed ext w w' :
  step ext w w' -> store_ok (store w) -> flag_confirmed w -> flag_confirmed w'.
Proof.
  intros Hstep Hok Hinv. destruct Hstep.
  - exact Hinv.
  - intros k e Hin Hflag. cbn [store with_store] in Hin.
    assert (E : MemStorage.expenses (snd (setSetting now s (store w)))
                = MemStorage.expenses (store w))
      by (unfold setSetting; destruct (Map_get String.eqb _ _); reflexivity).
    rewrite E in Hin. exact (Hinv k e Hin Hflag).
  - intros k e' Hin Hflag. cbn [store with_store] in Hin.
    rewrite createExpense_expenses in Hin by exact Hok.
    apply in_app_or in Hin. destruct Hin as [Hin|[Heq|[]]].
    + exact (Hinv k e' Hin Hflag).
    + injection Heq as <- <-. discriminate Hflag.
  - unfold postExpense.
    destruct (getUser userId (store w)) as [user|]; [|exact Hinv].
    destruct (receipt_link_store ext body w) as [Hs He].
    destruct (receipt_link ext body w) as [[link|x] w1]; cbn [snd] in Hs, He.
    2:{ cbn [snd]. eapply flag_confirmed_keeps; [| |exact Hinv].
        - eapply extends_trans; [exact He | apply extends_emit].
        - cbn [store emit]. rewrite Hs. apply keeps_flags_refl. }
    assert (Hinv1 : flag_confirmed w1).
    { eapply flag_confirmed_keeps; [exact He | rewrite Hs; apply keeps_flags_refl
                                    | exact Hinv]. }
    destruct (insertExpenseSchema_parse body (calculatedAmount body) user link)
      as [data|[]]; cbn [snd]; try exact Hinv1;
      try (eapply flag_confirmed_keeps;
           [apply extends_emit | apply keeps_flags_refl | exact Hinv1]).
    pose proof (createExpense_expenses now data (store w1)) as Hexp.
    destruct (createExpense now data (store w1)) as [e st] eqn:Ec.
    cbn [fst snd] in *. unfold created_fanout.
    assert (Hinv2 : flag_confirmed (with_store st w1)).
    { intros k e' Hin Hflag. cbn [store with_store] in Hin.
      rewrite Hexp in Hin by (rewrite Hs; exact Hok).
      apply in_app_or in Hin. destruct Hin as [Hin|[Heq|[]]].
      - exact (Hinv1 k e' Hin Hflag).
      - injection Heq as <- <-.
        replace e with (fst (createExpense now data (store w1))) in Hflag
          by (rewrite Ec; reflexivity).
        discriminate Hflag. }
    pose proof (addExpense_keeps_flags ext e (with_store st w1)) as Hk.
    pose proof (addExpense_gentle ext e (with_store st w1)) as [_ Hx].
    destruct (addExpense ext e (with_store st w1)) as [[n|x] w2];
      cbn [snd] in Hk, Hx.
    + destruct (sendExpenseSubmissionNotification_store ext e w2) as [Hs2 He2].
      eapply flag_confirmed_keeps; [exact He2 | rewrite Hs2; apply keeps_flags_refl|].
      eapply flag_confirmed_keeps; [exact Hx | exact Hk | exact Hinv2].
    + set (w3 := emit _ w2).
      destruct (sendExpenseSubmissionNotification_store ext e w3) as [Hs2 He2].
      eapply flag_confirmed_keeps; [exact He2 | rewrite Hs2; apply keeps_flags_refl|].
      eapply flag_confirmed_keeps; [apply extends_emit | apply keeps_flags_refl|].
      eapply flag_confirmed_keeps; [exact Hx | exact Hk | exact Hinv2].
  - unfold patchExpenseStatus.
    destruct (getUser userId (store w)) as [u|]; [|exact Hinv].
    destruct (may_decide (Some u)); [|exact Hinv].
    destruct (updateExpenseStatusSchema_parse body u) as [data|[]];
      cbn [snd]; try exact Hinv;
      try (eapply flag_confirmed_keeps;
           [apply extends_emit | apply keeps_flags_refl | exact Hinv]).
    unfold updateExpenseStatus.
    destruct (Map_get Z.eqb id (MemStorage.expenses (store w))) as [e|] eqn:G;
      cbn [snd]; [|exact Hinv].
    set (e' := Expense.mk _ _ _ _ _ _ _ _ _ _ _ _ _ _ _ _ _ _ _ _ _).
    set (st := set_expenses _ _ _).
    assert (Hinv1 : flag_confirmed (with_store st w)).
    { intros k e1 Hin Hflag. cbn [store with_store] in Hin. subst st.
      cbn [set_expenses MemStorage.expenses] in Hin.
      apply In_Map_set in Hin. destruct Hin as [Heq|Hin].
      - injection Heq as -> ->. discriminate Hflag.
      - exact (Hinv k e1 Hin Hflag). }
    assert (Hget : getExpense id st = Some e').
    { subst st. unfold getExpense, set_expenses. cbn [MemStorage.expenses].
      apply (Map_get_set_same Z.eqb Zeqb_eq). }
    assert (Hid : Expense.id e' = id).
    { destruct Hok as [_ Hrows]. rewrite Forall_forall in Hrows.
      apply (Map_get_In Z.eqb Zeqb_eq) in G.
      destruct (Hrows _ G) as (_ & H & _). exact H. }
    unfold decided_fanout.
    destruct (sheets_updateExpenseStatus_store ext e' (with_store st w)) as [Hs He].
    destruct (sheets_updateExpenseStatus ext e' (with_store st w)) as [[u0|x] w1];
      cbn [snd] in Hs, He.
    + apply sendApprovalNotification_confirmed.
      * intros cur Gc. rewrite Hs, Hid in Gc. cbn [store with_store] in Gc.
        congruence.
      * eapply flag_confirmed_keeps;
          [exact He | rewrite Hs; apply keeps_flags_refl | exact Hinv1].
    + apply sendApprovalNotification_confirmed.
      * intros cur Gc. cbn [store emit] in Gc. rewrite Hs, Hid in Gc.
        cbn [store with_store] in Gc. congruence.
      * eapply flag_confirmed_keeps;
          [apply extends_emit | apply keeps_flags_refl|].
        eapply flag_confirmed_keeps;
          [exact He | rewrite Hs; apply keeps_flags_refl | exact Hinv1].
  - destruct (postSyncSheets_gentle ext userId w) as [_ Hx].
    eapply flag_confirmed_keeps;
      [exact Hx | apply postSyncSheets_keeps_flags | exact Hinv].
  - unfold processNotificationQueue. apply queue_confirmed; [exact Hok| |exact Hinv].
    intros e0 Hin. apply filter_In in Hin. destruct Hin as [Hin _].
    unfold getAllExpenses in Hin. apply In_Array_sort in Hin.
    exists e0. split; [apply stored_is_current; assumption | reflexivity].
Qed.

Lemma reachable_confirmed ext w : reachable ext w -> flag_confirmed w.
Proof.
  induction 1 as [|w w' Hreach IH Hstep].
  - intros k e [].
  - eapply step_confirmed; [exact Hstep | eapply reachable_ok, Hreach | exact IH].
Qed.

(** The sheet stage of a decision sends no mail and leaves the store. *)
Lemma sheets_updateExpenseStatus_no_mail ext e w :
  exists more,
    log (snd (sheets_updateExpenseStatus ext e w)) = (log w ++ more)%list
    /\ filter accepted_mail more = [].
Proof.
  unfold sheets_updateExpenseStatus.
  destruct (num_or_null (Expense.sheetsRowNumber e)) as [row|].
  - destruct (sheets_update ext (log w) row (status_cells e));
      cbn [snd log emit]; rewrite <- !app_assoc; cbn [app];
      eexists; split; reflexivity.
  - cbn [snd log emit]. eexists; split; reflexivity.
Qed.

(** One approval notification for a stored, unflagged expense: the flag
    is set exactly when the mail rendered from the expense is accepted. *)
Lemma sendApprovalNotification_flag ext e w cur :
  getExpense (Expense.id e) (store w) = Some cur ->
  Expense.notificationSent cur = false ->
  exists more e',
    log (sendApprovalNotification ext e w) = (log w ++ more)%list
    /\ getExpense (Expense.id e) (store (sendApprovalNotification ext e w))
       = Some e'
    /\ core e' = core cur
    /\ (Expense.notificationSent e' = true
        \/ Expense.notificationSent e' = false)
    /\ (Expense.notificationSent e' = true ->
        filter accepted_mail more
        = [GmailSend (Expense.employeeEmail e) (approval_subject e)
             (ApprovalBody e) true])
    /\ (Expense.notificationSent e' = false ->
        filter accepted_mail more = []).
Proof.
  intros Hcur Hflag.
  unfold sendApprovalNotification, generateApprovalEmailBody.
  destruct (Expense.expenseDate e) as [ms|]; cbn [toISOString].
  - unfold sendNotificationEmail.
    destruct (gmail_send ext (log w) (Expense.employeeEmail e)
                (approval_subject e) (ApprovalBody e)) eqn:Hsend;
      cbn [log emit with_store store snd]; rewrite <- !app_assoc; cbn [app].
    + unfold updateExpense. unfold getExpense in Hcur. rewrite Hcur.
      cbn [snd]. eexists. exists (merge cur (just_notificationSent true)).
      split; [reflexivity|]. split.
      { unfold getExpense, set_expenses. cbn [MemStorage.expenses].
        apply (Map_get_set_same Z.eqb Zeqb_eq). }
      split; [apply core_notificationSent|].
      split; [left; reflexivity|]. split; [reflexivity | discriminate].
    + eexists. exists cur. split; [reflexivity|]. split; [exact Hcur|].
      split; [reflexivity|]. split; [right; exact Hflag|].
      split; [congruence | reflexivity].
  - cbn [log emit store]. eexists. exists cur.
    split; [reflexivity|]. split; [exact Hcur|]. split; [reflexivity|].
    split; [right; exact Hflag|]. split; [congruence | reflexivity].
Qed.

Lemma updateExpenseStatus_stored now id updates st0 e1 st :
  store_ok st0 ->
  updateExpenseStatus now id updates st0 = (Some e1, st) ->
  getExpense id st = Some e1
  /\ Expense.notificationSent e1 = false
  /\ Expense.id e1 = id.
Proof.
  intros [_ Hrows]. unfold updateExpenseStatus.
  destruct (Map_get Z.eqb id (MemStorage.expenses st0)) as [old|] eqn:G;
    [|discriminate].
  intros [= <- <-]. split.
  - unfold getExpense, set_expenses. cbn [MemStorage.expenses].
    apply (Map_get_set_same Z.eqb Zeqb_eq).
  - split; [reflexivity|]. cbn [Expense.id].
    apply (Map_get_In Z.eqb Zeqb_eq) in G.
    rewrite Forall_forall in Hrows. apply (Hrows _ G).
Qed.

(** After a decision the flag of the decided expense tells whether the
    mail of this decision was accepted. *)
Lemma patchExpenseStatus_flag ext now userId id body w e :
  store_ok (store w) ->
  fst (patchExpenseStatus ext now userId id body w)
  = mkResponse 200 (PExpense e) ->
  exists more e',
    log (snd (patchExpenseStatus ext now userId id body w))
    = (log w ++ more)%list
    /\ getExpense id (store (snd (patchExpenseStatus ext now userId id body w)))
       = Some e'
    /\ core e' = core e
    /\ (Expense.notificationSent e' = true
        \/ Expense.notificationSent e' = false)
    /\ (Expense.notificationSent e' = true ->
        filter accepted_mail more
        = [GmailSend (Expense.employeeEmail e) (approval_subject e)
             (ApprovalBody e) true])
    /\ (Expense.notificationSent e' = false ->
        filter accepted_mail more = []).
Proof.
  intros Hok. unfold patchExpenseStatus.
  destruct (getUser userId (store w)) as [u|]; [|discriminate].
  destruct (may_decide (Some u)); [|discriminate].
  destruct (updateExpenseStatusSchema_parse body u) as [upd|[| |]];
    try discriminate.
  pose proof (updateExpenseStatus_stored now id upd (store w)) as Hst.
  destruct (updateExpenseStatus now id upd (store w)) as [[e1|] st];
    [|discriminate].
  destruct (Hst e1 st Hok eq_refl) as (Hget & Hflag & Hid).
  cbn [fst snd]. intros [= <-]. unfold decided_fanout.
  destruct (sheets_updateExpenseStatus_no_mail ext e1 (with_store st w))
    as (m1 & Hlog1 & Hm1).
  destruct (sheets_updateExpenseStatus_store ext e1 (with_store st w))
    as [Hs1 _].
  set (w1 := match sheets_updateExpenseStatus ext e1 (with_store st w) with
             | (Ok _, w') => w'
             | (Throw _, w') =>
                 emit (Console "error" "Failed to update sheets:") w'
             end).
  assert (Hw1 : store w1 = st
                /\ exists m, log w1 = (log w ++ m)%list
                             /\ filter accepted_mail m = []).
  { subst w1.
    destruct (sheets_updateExpenseStatus ext e1 (with_store st w))
      as [[[]|x] w']; cbn [snd] in *.
    - split; [exact Hs1|]. exists m1. split; assumption.
    - split; [exact Hs1|]. exists (m1 ++ [Console "error" "Failed to update sheets:"])%list.
      cbn [log emit]. rewrite Hlog1, <- app_assoc. split; [reflexivity|].
      rewrite filter_app, Hm1. reflexivity. }
  destruct Hw1 as (Hstore1 & m & Hlogw1 & Hm).
  assert (Hcur : getExpense (Expense.id e1) (store w1) = Some e1)
    by (rewrite Hstore1, Hid; exact Hget).
  destruct (sendApprovalNotification_flag ext e1 w1 e1 Hcur Hflag)
    as (m2 & e' & Hlog2 & Hget2 & Hcore & Hcases & Htrue & Hfalse).
  exists (m ++ m2)%list, e'. rewrite Hlog2, Hlogw1, <- app_assoc.
  split; [reflexivity|]. split; [rewrite <- Hid; exact Hget2|].
  split; [exact Hcore|]. split; [exact Hcases|].
  rewrite filter_app, Hm. cbn [app]. split; assumption.
Qed.

(** C10, as the code has it. [notificationSent] is true only where an
    approval mail to the submitter was accepted: in every reachable state
    each flagged expense has such a mail in the log, rendered from that
    expense. When the notifier throws (the body cannot be rendered, or
    the mail is rejected) the store is untouched, so the flag stays as
    the decision left it, false; when the mail is accepted the stored
    expense gets the flag; and the submission notification never writes
    to the store. After a decision the flag tells whether the mail of
    that decision was accepted: it is true exactly when the one accepted
    mail of the request is the mail rendered from the decided expense,
    and false exactly when the request had no accepted mail. A false
    flag says nothing about earlier mails: a decision resets it. *)
Theorem notificationSent_only_after_accepted_mail :
  forall (ext : External),
    (forall w, reachable ext w -> flag_confirmed w)
    /\ (forall e w,
          Expense.expenseDate e = InvalidDate
          \/ gmail_send ext (log w) (Expense.employeeEmail e)
               (approval_subject e) (ApprovalBody e) = false ->
          store (sendApprovalNotification ext e w) = store w)
    /\ (forall e w ms cur,
          Expense.expenseDate e = DateOf ms ->
          gmail_send ext (log w) (Expense.employeeEmail e)
            (approval_subject e) (ApprovalBody e) = true ->
          getExpense (Expense.id e) (store w) = Some cur ->
          getExpense (Expense.id e) (store (sendApprovalNotification ext e w))
          = Some (merge cur (just_notificationSent true)))
    /\ (forall e w, store (sendExpenseSubmissionNotification ext e w) = store w)
    /\ (forall now userId id body w e,
          reachable ext w ->
          fst (patchExpenseStatus ext now userId id body w)
          = mkResponse 200 (PExpense e) ->
          exists more e',
            log (snd (patchExpenseStatus ext now userId id body w))
            = (log w ++ more)%list
            /\ getExpense id
                 (store (snd (patchExpenseStatus ext now userId id body w)))
               = Some e'
            /\ core e' = core e
            /\ (Expense.notificationSent e' = true <->
                filter accepted_mail more
                = [GmailSend (Expense.employeeEmail e) (approval_subject e)
                     (ApprovalBody e) true])
            /\ (Expense.notificationSent e' = false <->
                filter accepted_mail more = [])).
Proof.
  intros ext. split; [|split; [|split; [|split]]].
  - apply reachable_confirmed.
  - intros e w H. unfold sendApprovalNotification, generateApprovalEmailBody.
    destruct (Expense.expenseDate e) as [ms|] eqn:Hd; cbn [toISOString].
    + destruct H as [H|H]; [discriminate|].
      unfold sendNotificationEmail. rewrite H. reflexivity.
    + reflexivity.
  - intros e w ms cur Hd Hok Hcur.
    unfold sendApprovalNotification, generateApprovalEmailBody.
    rewrite Hd. cbn [toISOString]. unfold sendNotificationEmail. rewrite Hok.
    cbn [store emit with_store snd]. unfold updateExpense.
    unfold getExpense in Hcur. rewrite Hcur.
    cbn [snd]. unfold getExpense, set_expenses. cbn [MemStorage.expenses].
    apply (Map_get_set_same Z.eqb Zeqb_eq).
  - intros e w. apply sendExpenseSubmissionNotification_store.
  - intros now userId id body w e Hreach H200.
    destruct (patchExpenseStatus_flag ext now userId id body w e
                (reachable_ok ext w Hreach) H200)
      as (more & e' & Hlog & Hget & Hcore & Hcases & Htrue & Hfalse).
    exists more, e'. split; [exact Hlog|]. split; [exact Hget|].
    split; [exact Hcore|]. split; split.
    + exact Htrue.
    + intros Hm. destruct Hcases as [Ht|Hf]; [exact Ht|].
      rewrite (Hfalse Hf) in Hm. discriminate.
    + exact Hfalse.
    + intros Hm. destruct Hcases as [Ht|Hf]; [|exact Hf].
      rewrite (Htrue Ht) in Hm. discriminate.
Qed.

Lemma notificationSent_only_after_accepted_mail_witness :
  reachable all_up sample_decided
  /\ exists e e0,
       getExpense 1 (store sample_decided) = Some e
       /\ Expense.notificationSent e = true
       /\ core e0 = core e
       /\ In (GmailSend (Expense.employeeEmail e0) (approval_subject e0)
                (ApprovalBody e0) true) (log sample_decided).
Proof.
  split; [apply sample_decided_reachable|].
  destruct (getExpense 1 (store sample_decided)) as [e|] eqn:He;
    [|vm_compute in He; discriminate].
  assert (Hin : In (1, e) (MemStorage.expenses (store sample_decided)))
    by (apply (Map_get_In Z.eqb Zeqb_eq); exact He).
  assert (Hflag : Expense.notificationSent e = true)
    by (vm_compute in He; injection He as <-; reflexivity).
  destruct (proj1 (notificationSent_only_after_accepted_mail all_up)
              sample_decided sample_decided_reachable 1 e Hin Hflag)
    as (e0 & Hc & Hev).
  exists e, e0. repeat split; assumption.
Defined.

(** The claim C10 as the specification words it fails in its
    parenthesis: a false flag does not mean that the notification for
    the current status is unconfirmed. After an approval whose mail was
    accepted and a second approval whose mail was refused, the expense is
    approved and unflagged, while the log holds an accepted mail to its
    submitter announcing that very status. *)
Lemma false_flag_after_confirmed_status :
  reachable mail_once reapproved
  /\ exists e e0,
       getExpense 1 (store reapproved) = Some e
       /\ Expense.notificationSent e = false
       /\ Expense.status e = "approved"
       /\ Expense.id e0 = Expense.id e
       /\ Expense.status e0 = Expense.status e
       /\ In (GmailSend (Expense.employeeEmail e) (approval_subject e)
                (ApprovalBody e0) true) (log reapproved).
Proof.
  split.
  - eapply reach_step;
      [eapply reach_step; [apply seeded_reachable|] |];
      apply step_patchExpenseStatus.
  - assert (Hmail : exists e0,
              nth_error (log reapproved) 1
              = Some (GmailSend "sarah@agency.com"
                        "Expense Report Approved - $156.50"
                        (ApprovalBody e0) true)
              /\ Expense.id e0 = 1 /\ Expense.status e0 = "approved").
    { eexists. split; [vm_compute; reflexivity|]. split; reflexivity. }
    destruct Hmail as (e0 & Hnth & Hid & Hstatus).
    apply nth_error_In in Hnth.
    destruct (getExpense 1 (store reapproved)) as [e|] eqn:He;
      [|vm_compute in He; discriminate].
    exists e, e0. vm_compute in He. injection He as <-.
    split; [reflexivity|]. split; [reflexivity|]. split; [reflexivity|].
    split; [exact Hid|]. split; [exact Hstatus|]. exact Hnth.
Qed.

(* ================================================================== *)
(** * Synchronising the sheet twice                                    *)
(* ================================================================== *)

Lemma count_app p l1 l2 : count p (l1 ++ l2) = (count p l1 + count p l2)%nat.
Proof. unfold count. rewrite filter_app, length_app. reflexivity. Qed.

Section SortPermutation.
Context {A : Type}.
Variable cmp : A -> A -> Z.

Lemma sort_insert_perm x l : Permutation (sort_insert cmp x l) (x :: l).
Proof.
  induction l as [|y l IH]; simpl; [apply Permutation_refl|].
  destruct (cmp x y <=? 0); [apply Permutation_refl|].
  eapply Permutation_trans; [apply perm_skip, IH | apply perm_swap].
Qed.

Lemma Array_sort_perm l : Permutation (Array_sort cmp l) l.
Proof.
  induction l as [|x l IH]; simpl; [apply Permutation_refl|].
  eapply Permutation_trans; [apply sort_insert_perm | apply perm_skip, IH].
Qed.
End SortPermutation.

Lemma getAllExpenses_ids st :
  store_ok st -> NoDup (map Expense.id (getAllExpenses st)).
Proof.
  intros [Hnd Hrows]. unfold getAllExpenses.
  eapply Permutation_NoDup.
  - apply Permutation_map, Permutation_sym, Array_sort_perm.
  - unfold Map_values. rewrite map_map.
    replace (map (fun kv => Expense.id (snd kv)) (MemStorage.expenses st))
      with (Map_keys (MemStorage.expenses st)); [exact Hnd|].
    unfold Map_keys. apply map_ext_in. intros kv Hin.
    rewrite Forall_forall in Hrows. destruct (Hrows _ Hin) as (_ & H & _).
    symmetry. exact H.
Qed.

Lemma getAllExpenses_stored st e :
  store_ok st -> In e (getAllExpenses st) ->
  getExpense (Expense.id e) st = Some e.
Proof.
  intros Hok Hin. unfold getAllExpenses in Hin. apply In_Array_sort in Hin.
  apply stored_is_current; assumption.
Qed.

(** What one call of [addExpense] does to the log and to the store. *)
Lemma addExpense_effect ext e w :
  exists more,
    log (snd (addExpense ext e w)) = (log w ++ more)%list
    /\ (forall id, id <> Expense.id e ->
          appends_for id more = 0%nat
          /\ referenced_appends_for id more = 0%nat
          /\ getExpense id (store (snd (addExpense ext e w)))
             = getExpense id (store w))
    /\ (appends_for (Expense.id e) more <= 1)%nat
    /\ (referenced_appends_for (Expense.id e) more <= 1)%nat
    /\ (referenced_appends_for (Expense.id e) more = 1%nat ->
        forall cur, getExpense (Expense.id e) (store w) = Some cur ->
                    has_row (Expense.id e) (store (snd (addExpense ext e w))))
    /\ (has_row (Expense.id e) (store w) ->
        has_row (Expense.id e) (store (snd (addExpense ext e w)))).
Proof.
  unfold addExpense.
  destruct (toISOString (Expense.expenseDate e)) as [day|x].
  2:{ eexists. split; [reflexivity|]. cbn. repeat split; intros; auto; discriminate. }
  destruct (sheets_append ext (log w) (sheet_row e day)) as [range|].
  2:{ eexists. split; [cbn [snd log emit]; rewrite <- app_assoc; reflexivity|].
      cbn. repeat split; intros; auto; discriminate. }
  assert (Hfirst : forall id, row_is_for id (sheet_row e day) = Z.eqb (Expense.id e) id)
    by reflexivity.
  assert (Hself : Z.eqb (Expense.id e) (Expense.id e) = true)
    by apply Z.eqb_refl.
  assert (Hset : forall cur,
             getExpense (Expense.id e) (store w) = Some cur ->
             0 < rowNumber_of range ->
             has_row (Expense.id e)
               (snd (updateExpense (Expense.id e)
                       (just_sheetsRowNumber (rowNumber_of range)) (store w)))).
  { intros cur Hcur Hpos. unfold updateExpense. unfold getExpense in Hcur.
    rewrite Hcur. cbn [snd].
    exists (merge cur (just_sheetsRowNumber (rowNumber_of range))). split.
    - unfold getExpense, set_expenses. cbn [MemStorage.expenses].
      apply (Map_get_set_same Z.eqb Zeqb_eq).
    - destruct cur; cbn.
      destruct (rowNumber_of range); [lia | reflexivity | lia]. }
  destruct (0 <? rowNumber_of range) eqn:Hrow.
  - eexists. split; [reflexivity|].
    unfold appends_for, referenced_appends_for, count.
    cbn [filter is_append is_referenced_append snd store with_store emit].
    split; [|split; [|split; [|split]]].
    + intros id Hne. rewrite !Hfirst, Hrow.
      destruct (Z.eqb_spec (Expense.id e) id) as [E|_]; [congruence|].
      cbn [andb length]. repeat split.
      unfold updateExpense, getExpense.
      destruct (Map_get Z.eqb (Expense.id e) (MemStorage.expenses (store w)));
        [|reflexivity].
      cbn [snd set_expenses MemStorage.expenses].
      apply (Map_get_set_other Z.eqb Zeqb_eq). exact Hne.
    + rewrite Hfirst, Hself. cbn. lia.
    + rewrite Hfirst, Hself, Hrow. cbn. lia.
    + intros _ cur Hcur. apply (Hset cur Hcur). apply Z.ltb_lt, Hrow.
    + intros (cur & Hcur & _). apply (Hset cur Hcur). apply Z.ltb_lt, Hrow.
  - eexists. split; [reflexivity|].
    unfold appends_for, referenced_appends_for, count.
    cbn [filter is_append is_referenced_append snd store emit].
    split; [|split; [|split; [|split]]].
    + intros id Hne. rewrite !Hfirst, Hrow.
      destruct (Z.eqb_spec (Expense.id e) id) as [E|_]; [congruence|].
      repeat split.
    + rewrite Hfirst, Hself. cbn. lia.
    + rewrite Hfirst, Hrow, andb_false_r. cbn. lia.
    + rewrite Hfirst, Hrow, andb_false_r. cbn. discriminate.
    + exact (fun H => H).
Qed.

(** A run of the loop leaves alone every id whose listed expenses all
    carry a row reference (in particular every id that is not listed). *)
Lemma sync_loop_skips ext l w id :
  (forall e, In e l -> Expense.id e = id ->
             num_truthy (Expense.sheetsRowNumber e) = true) ->
  appends_for id (log (snd (sync_loop ext l w))) = appends_for id (log w)
  /\ referenced_appends_for id (log (snd (sync_loop ext l w)))
     = referenced_appends_for id (log w)
  /\ getExpense id (store (snd (sync_loop ext l w))) = getExpense id (store w).
Proof.
  revert w. induction l as [|e l IH]; intros w Hl; cbn [sync_loop].
  - repeat split.
  - assert (Hl' : forall e0, In e0 l -> Expense.id e0 = id ->
                             num_truthy (Expense.sheetsRowNumber e0) = true)
      by (intros e0 Hin; apply Hl; right; exact Hin).
    destruct (num_truthy (Expense.sheetsRowNumber e)) eqn:Ht; [apply IH, Hl'|].
    assert (Hne : id <> Expense.id e).
    { intros ->. rewrite (Hl e (or_introl eq_refl) eq_refl) in Ht. discriminate. }
    destruct (addExpense_effect ext e w) as (more & Hlog & Hother & _).
    destruct (Hother id Hne) as (Ha & Hr & Hg).
    assert (Hw1 : appends_for id (log (snd (addExpense ext e w)))
                  = appends_for id (log w)
                  /\ referenced_appends_for id (log (snd (addExpense ext e w)))
                     = referenced_appends_for id (log w)).
    { rewrite Hlog. unfold appends_for, referenced_appends_for in *.
      rewrite !count_app, Ha, Hr. lia. }
    destruct (addExpense ext e w) as [[n|x] w1]; cbn [snd] in *.
    + destruct (IH w1 Hl') as (A & B & C). destruct Hw1 as [P Q].
      repeat split; congruence.
    + destruct Hw1. repeat split; assumption.
Qed.

Lemma sync_loop_keeps_row ext l w id :
  has_row id (store w) -> has_row id (store (snd (sync_loop ext l w))).
Proof.
  revert w. induction l as [|e l IH]; intros w Hrow; cbn [sync_loop].
  - exact Hrow.
  - destruct (num_truthy (Expense.sheetsRowNumber e)); [apply IH, Hrow|].
    assert (Hrow1 : has_row id (store (snd (addExpense ext e w)))).
    { destruct (addExpense_effect ext e w) as (more & _ & Hother & _ & _ & _ & Hk).
      destruct (Z.eq_dec id (Expense.id e)) as [->|Hne]; [apply Hk, Hrow|].
      destruct (Hother id Hne) as (_ & _ & Hg).
      unfold has_row. rewrite Hg. exact Hrow. }
    destruct (addExpense ext e w) as [[n|x] w1]; cbn [snd] in *.
    + apply IH, Hrow1.
    + exact Hrow1.
Qed.


Lemma log_syncExpensesToSheet ext w p :
  (forall level message, p (Console level message) = false) ->
  count p (log (snd (syncExpensesToSheet ext w)))
  = count p (log (snd (sync_loop ext (getAllExpenses (store w)) w))).
Proof.
  intros Hp. unfold syncExpensesToSheet.
  destruct (sync_loop ext (getAllExpenses (store w)) w) as [[u|x] w1];
    cbn [snd log emit]; [reflexivity|].
  rewrite count_app. unfold count at 2. cbn [filter]. rewrite Hp. cbn. lia.
Qed.

Lemma store_syncExpensesToSheet ext w :
  store (snd (syncExpensesToSheet ext w))
  = store (snd (sync_loop ext (getAllExpenses (store w)) w)).
Proof.
  unfold syncExpensesToSheet.
  destruct (sync_loop ext (getAllExpenses (store w)) w) as [[u|x] w1];
    reflexivity.
Qed.





(* ================================================================== *)
(** * The mileage amount                                               *)
(* ================================================================== *)

Lemma den_of_pos e : 0 < JS.den_of e.
Proof.
  unfold JS.den_of. destruct (Z.leb_spec 0 e); [lia|].
  apply Z.pow_pos_nonneg; lia.
Qed.

Lemma num_of_pos m e : 0 < JS.num_of m e.
Proof.
  unfold JS.num_of. destruct (Z.leb_spec 0 e); [|lia].
  apply Z.mul_pos_pos; [lia | apply Z.pow_pos_nonneg; lia].
Qed.

(** [fixed_units] rounds to the nearest hundredth, halves upwards:
    [n <= 100 * x + 1/2 < n + 1] for [x = num / den]. *)
Lemma fixed_units_half_up m e :
  let n := JS.fixed_units 2 m e in
  2 * n * JS.den_of e <= 200 * JS.num_of m e + JS.den_of e
  /\ 200 * JS.num_of m e + JS.den_of e < 2 * (n + 1) * JS.den_of e.
Proof.
  intros n. subst n. unfold JS.fixed_units.
  pose proof (den_of_pos e) as Hd.
  change (10 ^ Z.of_nat 2) with 100.
  replace (2 * JS.num_of m e * 100 + JS.den_of e)
    with (200 * JS.num_of m e + JS.den_of e) by lia.
  set (a := 200 * JS.num_of m e + JS.den_of e).
  set (b := 2 * JS.den_of e).
  assert (Hb : 0 < b) by (subst b; lia).
  pose proof (Z.mul_div_le a b Hb).
  pose proof (Z.mul_succ_div_gt a b Hb).
  subst b. split; lia.
Qed.

(** Rounding twice a value gives twice the rounded value up to one unit. *)
Lemma fixed_units_double m e m' e' :
  JS.num_of m' e' * JS.den_of e = 2 * JS.num_of m e * JS.den_of e' ->
  Z.abs (JS.fixed_units 2 m' e' - 2 * JS.fixed_units 2 m e) <= 1.
Proof.
  intros Hdouble.
  destruct (fixed_units_half_up m e) as [L U].
  destruct (fixed_units_half_up m' e') as [L' U'].
  pose proof (den_of_pos e) as Hd. pose proof (den_of_pos e') as Hd'.
  set (n := JS.fixed_units 2 m e) in *.
  set (n' := JS.fixed_units 2 m' e') in *.
  set (N := JS.num_of m e) in *. set (D := JS.den_of e) in *.
  set (N' := JS.num_of m' e') in *. set (D' := JS.den_of e') in *.
  (* scale the bounds of [n] by [2 * D'] and those of [n'] by [D] *)
  assert (A1 : 2 * n * D * (2 * D') <= (200 * N + D) * (2 * D')) by nia.
  assert (A2 : (200 * N + D) * (2 * D') < 2 * (n + 1) * D * (2 * D')) by nia.
  assert (B1 : 2 * n' * D' * D <= (200 * N' + D') * D) by nia.
  assert (B2 : (200 * N' + D') * D < 2 * (n' + 1) * D' * D) by nia.
  assert (E : 200 * N' * D = 400 * N * D') by nia.
  assert (P : 0 < D * D') by nia.
  assert (H1 : (2 * n' - 4 * n - 3) * (D * D') < 0) by nia.
  assert (H2 : (4 * n - 2 * n' - 3) * (D * D') < 0) by nia.
  assert (2 * n' - 4 * n - 3 < 0) by nia.
  assert (4 * n - 2 * n' - 3 < 0) by nia.
  lia.
Qed.

(** C9, as the code has it. A zero distance gives "0.00" for every
    positive finite rate, and the request is accepted like any other:
    the schema has no positivity check, so with its description,
    category and date present and its integers within the range of
    their columns the body passes the schema with the amount zero, and
    the handler, given a known user and no file to upload, answers 201
    with the amount stored as "0". The amount is the product of the two numbers,
    rounded to hundredths with halves upwards and printed with two
    fractional digits. Doubling the distance does not double the amount
    in general; when the product doubles exactly, the amount in cents is
    within one cent of twice the amount. *)
Theorem calculateAmount_rounds_half_up :
  (forall m e, calculateAmount JS.zero (S754_finite false m e) = "0.00")
  /\ (forall body distance rate m e,
        ExpenseRequest.mileageDistance body = Some distance ->
        ExpenseRequest.mileageRate body = Some rate ->
        truthy (Some distance) = true ->
        truthy (Some rate) = true ->
        JS.parseFloat distance = JS.zero ->
        JS.parseFloat rate = S754_finite false m e ->
        calculatedAmount body = Some "0.00")
  /\ (forall body user link d c day,
        ExpenseRequest.description body = Some d ->
        ExpenseRequest.category body = Some c ->
        ExpenseRequest.expenseDate body = Some day ->
        integers_fit body user = true ->
        exists data,
          insertExpenseSchema_parse body (Some "0.00") user link = Ok data
          /\ InsertExpense.amount data = AmountNumber JS.zero)
  /\ (forall ext now userId body w user distance rate m e d c day,
        getUser userId (store w) = Some user ->
        ExpenseRequest.mileageDistance body = Some distance ->
        ExpenseRequest.mileageRate body = Some rate ->
        truthy (Some distance) = true ->
        truthy (Some rate) = true ->
        JS.parseFloat distance = JS.zero ->
        JS.parseFloat rate = S754_finite false m e ->
        ExpenseRequest.description body = Some d ->
        ExpenseRequest.category body = Some c ->
        ExpenseRequest.expenseDate body = Some day ->
        integers_fit body user = true ->
        truthy (ExpenseRequest.receiptFileData body) = false ->
        exists expense,
          fst (postExpense ext now userId body w)
          = mkResponse 201 (PExpense expense)
          /\ Expense.amount expense = "0")
  /\ (forall d r s m e,
        JS.mul d r = S754_finite s m e ->
        JS.num_of m e < 10 ^ 21 * JS.den_of e ->
        let n := JS.fixed_units 2 m e in
        calculateAmount d r = (if s then "-" else "") ++ JS.with_point 2 n
        /\ 2 * n * JS.den_of e <= 200 * JS.num_of m e + JS.den_of e
        /\ 200 * JS.num_of m e + JS.den_of e < 2 * (n + 1) * JS.den_of e)
  /\ (forall d r s m e s' m' e',
        JS.mul d r = S754_finite s m e ->
        JS.mul (JS.mul two d) r = S754_finite s' m' e' ->
        JS.num_of m' e' * JS.den_of e = 2 * JS.num_of m e * JS.den_of e' ->
        Z.abs (JS.fixed_units 2 m' e' - 2 * JS.fixed_units 2 m e) <= 1).
Proof.
  assert (Hamount : forall body distance rate m e,
            ExpenseRequest.mileageDistance body = Some distance ->
            ExpenseRequest.mileageRate body = Some rate ->
            truthy (Some distance) = true ->
            truthy (Some rate) = true ->
            JS.parseFloat distance = JS.zero ->
            JS.parseFloat rate = S754_finite false m e ->
            calculatedAmount body = Some "0.00").
  { intros body distance rate m e Hd Hr Htd Htr Hzero Hrate.
    unfold calculatedAmount.
    rewrite Hd, Hr, Htd, Htr. cbn [andb or_empty]. rewrite Hzero, Hrate.
    reflexivity. }
  split; [|split; [|split; [|split; [|split]]]].
  - intros m e. reflexivity.
  - exact Hamount.
  - intros body user link d c day Hd Hc Hday Hfit.
    unfold insertExpenseSchema_parse. rewrite Hd, Hc, Hday, Hfit.
    eexists. split; reflexivity.
  - intros ext now userId body w user distance rate m e d c day
      Hu Hmd Hmr Htd Htr Hzero Hrate Hd Hc Hday Hfit Hfile.
    unfold postExpense, receipt_link. rewrite Hu, Hfile. cbn [andb].
    rewrite (Hamount body distance rate m e Hmd Hmr Htd Htr Hzero Hrate).
    unfold insertExpenseSchema_parse. rewrite Hd, Hc, Hday, Hfit.
    unfold createExpense. cbn [fst]. eexists. split; reflexivity.
  - intros d r s m e Hmul Hsmall n.
    split; [|apply fixed_units_half_up].
    unfold calculateAmount. rewrite Hmul. unfold JS.toFixed.
    destruct (Z.leb_spec (10 ^ 21 * JS.den_of e) (JS.num_of m e)); [lia|].
    reflexivity.
  - intros d r s m e s' m' e' _ _ Hdouble.
    apply fixed_units_double, Hdouble.
Qed.

Lemma calculateAmount_rounds_half_up_witness :
  calculatedAmount zero_mileage_request = Some "0.00"
  /\ (exists expense,
        fst (postExpense all_up 1750700005000 3 zero_mileage_request
               (seeded 1750700000000))
        = mkResponse 201 (PExpense expense)
        /\ Expense.amount expense = "0")
  /\ calculateAmount (JS.parseFloat "12.345") (JS.parseFloat "0.68") = "8.39"
  /\ Z.abs (JS.fixed_units 2 4725739678990546 (-48)
            - 2 * JS.fixed_units 2 4725739678990546 (-49)) <= 1.
Proof.
  destruct calculateAmount_rounds_half_up
    as (_ & Hzero & _ & Haccepted & Hround & Hdouble).
  split; [|split; [|split]].
  - eapply (Hzero zero_mileage_request "0" "0.68"); vm_compute; reflexivity.
  - eapply (Haccepted all_up 1750700005000 3 zero_mileage_request
              (seeded 1750700000000) _ "0" "0.68");
      [reflexivity | reflexivity | reflexivity | reflexivity | reflexivity
      | vm_compute; reflexivity | vm_compute; reflexivity
      | reflexivity | reflexivity | reflexivity | reflexivity | reflexivity].
  - edestruct (Hround (JS.parseFloat "12.345") (JS.parseFloat "0.68"))
      as [Hs _].
    + vm_compute. reflexivity.
    + vm_compute. reflexivity.
    + rewrite Hs. vm_compute. reflexivity.
  - apply (Hdouble (JS.parseFloat "12.345") (JS.parseFloat "0.68")
             false 4725739678990546%positive (-49)
             false 4725739678990546%positive (-48)).
    + vm_compute. reflexivity.
    + vm_compute. reflexivity.
    + vm_compute. reflexivity.
Defined.

(** The claim C9 as the specification words it fails in its last part:
    at the rate 0.68 the distances 0.01 and 0.02 both give "0.01". The
    rounding is that of the binary product: 1.005 at the rate 1 gives
    "1.00", the number nearest to 1.005 being below it. *)
Lemma doubling_distance_keeps_amount :
  calculateAmount (JS.parseFloat "0.01") (JS.parseFloat "0.68") = "0.01"
  /\ calculateAmount (JS.mul two (JS.parseFloat "0.01")) (JS.parseFloat "0.68")
     = "0.01"
  /\ JS.mul two (JS.parseFloat "0.01") = JS.parseFloat "0.02"
  /\ JS.parseFloat "0.01" <> JS.mul two (JS.parseFloat "0.01")
  /\ calculateAmount (JS.parseFloat "1.005") (JS.parseFloat "1") = "1.00".
Proof.
  vm_compute. repeat split. intros H. discriminate H.
Qed.

(* ================================================================== *)
(** * Where the mileage rate comes from                                *)
(* ================================================================== *)

Lemma String_eqb_eq : forall a b : string, String.eqb a b = true <-> a = b.
Proof. exact String.eqb_eq. Qed.

Lemma receipt_link_frame ext body st w :
  receipt_link ext body (with_store st w)
  = (fst (receipt_link ext body w),
     with_store st (snd (receipt_link ext body w))).
Proof.
  unfold receipt_link. cbn [log with_store].
  destruct (truthy _ && truthy _ && truthy _); [|reflexivity].
  destruct (drive_upload ext (log w) _ _ _); reflexivity.
Qed.

(** C8, as the code has it. The rate served by [GET /api/mileage-rate] is
    read from the settings at the time of the call, under the key
    "mileage_rate", and is 0.68 when the key is unset. The amount of a
    mileage submission is derived from the rate found in the request,
    and the answer to a submission does not depend on the settings. *)
Theorem mileage_rate_served_from_settings_used_from_request :
  (forall w,
      getSetting "mileage_rate" (store w) = None ->
      getMileageRate w = mkResponse 200 (PRate (JS.parseFloat "0.68")))
  /\ (forall w s,
        getSetting "mileage_rate" (store w) = Some s ->
        getMileageRate w
        = mkResponse 200 (PRate (JS.parseFloat (SystemSetting.value s))))
  /\ (forall w now v,
        getMileageRate
          (with_store
             (snd (setSetting now (InsertSystemSetting.mk "mileage_rate" v)
                     (store w))) w)
        = mkResponse 200 (PRate (JS.parseFloat v)))
  /\ (forall body d r,
        ExpenseRequest.mileageDistance body = Some d ->
        ExpenseRequest.mileageRate body = Some r ->
        truthy (Some d) = true ->
        truthy (Some r) = true ->
        calculatedAmount body
        = Some (calculateAmount (JS.parseFloat d) (JS.parseFloat r)))
  /\ (forall ext now userId body w settings counter,
        fst (postExpense ext now userId body
               (with_store (set_settings (store w) settings counter) w))
        = fst (postExpense ext now userId body w)).
Proof.
  split; [|split; [|split; [|split]]].
  - intros w H. unfold getMileageRate, mileage_rate. rewrite H. reflexivity.
  - intros w s H. unfold getMileageRate, mileage_rate. rewrite H. reflexivity.
  - intros w now v. unfold getMileageRate, mileage_rate, getSetting, setSetting.
    cbn [InsertSystemSetting.key InsertSystemSetting.value store with_store].
    destruct (Map_get String.eqb "mileage_rate" (MemStorage.settings (store w)));
      cbn [snd set_settings MemStorage.settings];
      rewrite (Map_get_set_same String.eqb String_eqb_eq); reflexivity.
  - intros body d r Hd Hr Htd Htr. unfold calculatedAmount.
    rewrite Hd, Hr, Htd, Htr. reflexivity.
  - intros ext now userId body w settings counter. unfold postExpense.
    cbn [store with_store]. unfold getUser. cbn [set_settings MemStorage.users].
    destruct (Map_get Z.eqb userId (MemStorage.users (store w))) as [user|];
      [|reflexivity].
    change (mkWorld (set_settings (store w) settings counter) (log w))
      with (with_store (set_settings (store w) settings counter) w).
    rewrite receipt_link_frame.
    destruct (receipt_link_store ext body w) as [Hs _].
    destruct (receipt_link ext body w) as [[link|x] w1]; cbn [fst snd] in *;
      [|reflexivity].
    destruct (insertExpenseSchema_parse body (calculatedAmount body) user link)
      as [data|[]]; try reflexivity.
    cbn [store with_store]. rewrite Hs. reflexivity.
Qed.

Lemma mileage_rate_served_from_settings_used_from_request_witness :
  getSetting "mileage_rate" (store (seeded 1750700000000)) = None
  /\ getMileageRate (seeded 1750700000000)
     = mkResponse 200 (PRate (JS.parseFloat "0.68"))
  /\ calculatedAmount mileage_request
     = Some (calculateAmount (JS.parseFloat "100") (JS.parseFloat "1")).
Proof.
  destruct mileage_rate_served_from_settings_used_from_request
    as (Hunset & _ & _ & Hreq & _).
  split; [reflexivity|]. split.
  - apply Hunset. reflexivity.
  - apply (Hreq mileage_request "100" "1"); reflexivity.
Defined.

(** The claim C8 as the specification words it fails: with no
    "mileage_rate" setting the server's rate is 0.68, yet a submission of
    100 miles stating the rate 1 is stored with the amount 100, not 68. *)
Lemma submitted_rate_decides_amount :
  getSetting "mileage_rate" (store (seeded 1750700000000)) = None
  /\ calculateAmount (JS.parseFloat "100")
       (mileage_rate (store (seeded 1750700000000))) = "68.00"
  /\ calculatedAmount mileage_request = Some "100.00"
  /\ exists e,
       fst (postExpense all_up 1750700007000 3 mileage_request
              (seeded 1750700000000))
       = mkResponse 201 (PExpense e)
       /\ Expense.amount e = "100".
Proof.
  vm_compute. repeat split. eexists. split; reflexivity.
Qed.

(* ****************************************************************** *)
(** * Further properties of the handlers and of the store              *)
(* ****************************************************************** *)

(* ================================================================== *)
(** * How a status update can fail                                     *)
(* ================================================================== *)

(** X1. A status update is answered 200, 400, 403 or 404. It is answered
    200 exactly when the caller is an approver or admin, the verdict is
    "approved" or "rejected" and an expense is stored under the id; the
    role is checked before the verdict and the verdict before the id. In
    every other case the world is left as it was: nothing is written and
    no collaborator is called. *)
Theorem patchExpenseStatus_failure_modes :
  forall (ext : External) (now userId id : Z) (body : StatusRequest.t)
         (w : World),
    let r := patchExpenseStatus ext now userId id body w in
    let allowed := may_decide (getUser userId (store w)) in
    let verdict_ok :=
      match StatusRequest.status body with
      | Some s => String.eqb s "approved" || String.eqb s "rejected"
      | None => false
      end in
    (code (fst r) <> 200 -> snd r = w)
    /\ (allowed = false -> code (fst r) = 403)
    /\ (allowed = true -> verdict_ok = false -> code (fst r) = 400)
    /\ (allowed = true -> verdict_ok = true ->
        getExpense id (store w) = None -> code (fst r) = 404)
    /\ (allowed = true -> verdict_ok = true ->
        getExpense id (store w) <> None -> code (fst r) = 200).
Proof.
  intros ext now userId id body w. cbn zeta. unfold patchExpenseStatus.
  destruct (getUser userId (store w)) as [u|] eqn:Hu; cbn [may_decide].
  2:{ cbn. repeat split; intros; congruence. }
  destruct (String.eqb (User.role u) "approver" || String.eqb (User.role u) "admin")
    eqn:Hrole.
  2:{ cbn. repeat split; intros; congruence. }
  unfold updateExpenseStatusSchema_parse.
  destruct (StatusRequest.status body) as [s|].
  2:{ cbn. repeat split; intros; congruence. }
  assert (Hfound : forall data,
             getExpense id (store w) <> None ->
             exists e st, updateExpenseStatus now id data (store w) = (Some e, st)).
  { intros data Hne. unfold updateExpenseStatus, getExpense in *.
    destruct (Map_get Z.eqb id (MemStorage.expenses (store w)));
      [eexists; eexists; reflexivity | congruence]. }
  assert (Hmissing : forall data,
             getExpense id (store w) = None ->
             updateExpenseStatus now id data (store w) = (None, store w)).
  { intros data Hnone. unfold updateExpenseStatus, getExpense in *.
    rewrite Hnone. reflexivity. }
  destruct (String.eqb s "approved") eqn:Ha;
    [|destruct (String.eqb s "rejected") eqn:Hr].
  3:{ cbn. repeat split; intros; congruence. }
  all: cbn [orb];
    destruct (getExpense id (store w)) as [e0|] eqn:He;
    [ destruct (Hfound (UpdateExpenseStatus.mk
                          (if String.eqb s "approved" then approved else rejected)
                          (StatusRequest.approvalNote body) (User.id u)
                          (User.name u)) ltac:(congruence)) as (e & st & Hupd);
      rewrite ?Ha in Hupd; rewrite Hupd; cbn;
      repeat split; intros; congruence
    | rewrite (Hmissing _ eq_refl); cbn; repeat split; intros; congruence ].
Qed.

(** The manager decides on an id under which nothing is stored. *)
Lemma patchExpenseStatus_failure_modes_witness :
  code (fst (patchExpenseStatus all_up 1750700008000 2 99 approve_request
               sample_decided)) = 404
  /\ snd (patchExpenseStatus all_up 1750700008000 2 99 approve_request
            sample_decided) = sample_decided.
Proof.
  destruct (patchExpenseStatus_failure_modes all_up 1750700008000 2 99
              approve_request sample_decided) as (Hw & _ & _ & H404 & _).
  assert (H : code (fst (patchExpenseStatus all_up 1750700008000 2 99
                           approve_request sample_decided)) = 404)
    by (apply H404; reflexivity).
  split; [exact H|]. apply Hw. rewrite H. discriminate.
Defined.

(* ================================================================== *)
(** * What a submission does to the store                              *)
(* ================================================================== *)

Lemma createExpense_snapshot now data st :
  let e := fst (createExpense now data st) in
  Expense.employeeId e = InsertExpense.employeeId data
  /\ Expense.employeeName e = InsertExpense.employeeName data
  /\ Expense.employeeEmail e = InsertExpense.employeeEmail data
  /\ Expense.department e = or_null (InsertExpense.department data).
Proof. repeat split. Qed.

Lemma insertExpenseSchema_parse_user body amount user link data :
  insertExpenseSchema_parse body amount user link = Ok data ->
  InsertExpense.employeeId data = User.id user
  /\ InsertExpense.employeeName data = User.name user
  /\ InsertExpense.employeeEmail data = User.email user
  /\ InsertExpense.department data = User.department user.
Proof.
  unfold insertExpenseSchema_parse.
  destruct amount, (ExpenseRequest.description body),
    (ExpenseRequest.category body), (ExpenseRequest.expenseDate body);
    try discriminate.
  destruct (integers_fit body user); [|discriminate].
  intros [= <-]. repeat split.
Qed.

(** X2. A submission is answered 201, 400, 404 or 500, and the store
    changes only with 201: then exactly one expense is added, under the
    next id, and its submitter fields are those of the user of the
    session (id, name, e-mail, department), whatever the request says;
    users, settings and the other expenses stay, up to the sheet row and
    the flag, and what is stored under the new id is the answered
    expense, up to the sheet row and the flag. *)
Theorem postExpense_outcomes :
  forall (ext : External) (now userId : Z) (body : ExpenseRequest.t)
         (w : World),
    store_ok (store w) ->
    let r := postExpense ext now userId body w in
    (code (fst r) = 201 \/ code (fst r) = 400
     \/ code (fst r) = 404 \/ code (fst r) = 500)
    /\ (code (fst r) <> 201 -> store (snd r) = store w)
    /\ (code (fst r) = 201 ->
        exists user e,
          getUser userId (store w) = Some user
          /\ payload (fst r) = PExpense e
          /\ Expense.id e = MemStorage.currentExpenseId (store w)
          /\ Expense.employeeId e = User.id user
          /\ Expense.employeeName e = User.name user
          /\ Expense.employeeEmail e = User.email user
          /\ Expense.department e = or_null (User.department user)
          /\ (exists e1, getExpense (Expense.id e) (store (snd r)) = Some e1
                         /\ core e1 = core e)
          /\ Map_keys (MemStorage.expenses (store (snd r)))
             = (Map_keys (MemStorage.expenses (store w)) ++ [Expense.id e])%list
          /\ MemStorage.users (store (snd r)) = MemStorage.users (store w)
          /\ MemStorage.settings (store (snd r)) = MemStorage.settings (store w)
          /\ forall k e0, k <> Expense.id e ->
               getExpense k (store w) = Some e0 ->
               exists e1, getExpense k (store (snd r)) = Some e1
                          /\ core e1 = core e0).
Proof.
  intros ext now userId body w Hok. cbn zeta. unfold postExpense.
  destruct (getUser userId (store w)) as [user|] eqn:Hu.
  2:{ cbn. split; [tauto|]. split; [reflexivity | discriminate]. }
  destruct (receipt_link_store ext body w) as [Hs _].
  destruct (receipt_link ext body w) as [[link|x] w1]; cbn [snd] in Hs.
  2:{ cbn. split; [tauto|]. split; [intros _; exact Hs | discriminate]. }
  destruct (insertExpenseSchema_parse body (calculatedAmount body) user link)
    as [data|x] eqn:Hparse.
  2:{ destruct x; cbn; (split; [tauto|]);
        (split; [intros _; exact Hs | discriminate]). }
  pose proof (createExpense_expenses now data (store w1)) as Hexp.
  pose proof (createExpense_snapshot now data (store w1)) as Hsnap.
  pose proof (createExpense_id now data (store w1)) as Hid.
  assert (Husers : MemStorage.users (snd (createExpense now data (store w1)))
                   = MemStorage.users (store w1)) by reflexivity.
  assert (Hsettings : MemStorage.settings (snd (createExpense now data (store w1)))
                      = MemStorage.settings (store w1)) by reflexivity.
  assert (Hstored : getExpense
                      (Expense.id (fst (createExpense now data (store w1))))
                      (snd (createExpense now data (store w1)))
                    = Some (fst (createExpense now data (store w1)))).
  { unfold createExpense, getExpense.
    cbn [fst snd Expense.id set_expenses MemStorage.expenses].
    apply (Map_get_set_same Z.eqb Zeqb_eq). }
  destruct (createExpense now data (store w1)) as [e st]. cbn [fst snd] in *.
  split; [left; reflexivity|]. split; [intros H; exfalso; apply H; reflexivity|].
  intros _. rewrite Hs in *. specialize (Hexp Hok).
  destruct (insertExpenseSchema_parse_user _ _ _ _ _ Hparse) as (P1 & P2 & P3 & P4).
  destruct Hsnap as (S1 & S2 & S3 & S4).
  destruct (created_fanout_gentle ext e (with_store st w1)) as [Hsync _].
  pose proof Hsync as (Q1 & Q2 & _ & _ & _ & Qcore).
  exists user, e. split; [reflexivity|]. split; [reflexivity|].
  split; [exact Hid|]. split; [congruence|]. split; [congruence|].
  split; [congruence|]. split; [congruence|].
  split; [|split; [|split; [|split]]].
  - apply (same_but_sync_getExpense _ _ (Expense.id e) e Hsync).
    cbn [store with_store]. exact Hstored.
  - rewrite <- keys_store_core, Qcore, keys_store_core. cbn [store with_store].
    rewrite Hexp. unfold Map_keys. rewrite map_app. cbn. rewrite Hid. reflexivity.
  - rewrite Q1. cbn [store with_store]. exact Husers.
  - rewrite Q2. cbn [store with_store]. exact Hsettings.
  - intros k e0 Hne Hget.
    apply (same_but_sync_getExpense _ _ k e0 Hsync).
    cbn [store with_store]. unfold getExpense in *. rewrite Hexp.
    clear - Hget Hne Hid. rewrite <- Hid.
    induction (MemStorage.expenses (store w)) as [|[k' v] m IH]; cbn in *;
      [discriminate|].
    destruct (Z.eqb k k'); [exact Hget | apply IH, Hget].
Qed.

Lemma postExpense_outcomes_witness :
  store_ok (store synced)
  /\ code (fst (postExpense all_up 1750700006000 3 taxi_request synced)) = 201
  /\ exists e,
       payload (fst (postExpense all_up 1750700006000 3 taxi_request synced))
       = PExpense e
       /\ Expense.employeeName e = "Sarah Miller".
Proof.
  assert (Hok : store_ok (store synced)).
  { apply (reachable_ok all_up). eapply reach_step;
      [apply seeded_reachable | apply step_postSyncSheets]. }
  split; [exact Hok|]. split; [vm_compute; reflexivity|].
  destruct (postExpense_outcomes all_up 1750700006000 3 taxi_request synced Hok)
    as (_ & _ & H).
  destruct (H ltac:(vm_compute; reflexivity))
    as (user & e & Hu & Hp & _ & _ & Hname & _).
  exists e. split; [exact Hp|]. rewrite Hname.
  vm_compute in Hu. injection Hu as <-. reflexivity.
Defined.

(** X3. The receipt is uploaded before the request is validated: a
    submission that carries a file and lacks its description has the
    file sent to the file store, and is then refused without an expense
    being created: with 500 exactly when the upload itself failed, with
    400 otherwise. *)
Theorem postExpense_uploads_before_validating :
  forall (ext : External) (now userId : Z) (body : ExpenseRequest.t)
         (w : World) (user : User.t) (data type name : string),
    getUser userId (store w) = Some user ->
    ExpenseRequest.receiptFileData body = Some data ->
    ExpenseRequest.receiptFileType body = Some type ->
    ExpenseRequest.receiptFileName body = Some name ->
    data <> "" -> type <> "" -> name <> "" ->
    ExpenseRequest.description body = None ->
    let r := postExpense ext now userId body w in
    In (DriveUpload name type data (drive_upload ext (log w) name type data))
       (log (snd r))
    /\ (code (fst r) = 400 \/ code (fst r) = 500)
    /\ (code (fst r) = 500 <-> drive_upload ext (log w) name type data = None)
    /\ store (snd r) = store w.
Proof.
  intros ext now userId body w user data type name Hu Hd Ht Hn Hde Hte Hne Hdesc.
  cbn zeta. unfold postExpense, receipt_link. rewrite Hu, Hd, Ht, Hn.
  assert (T : forall s, s <> "" -> truthy (Some s) = true)
    by (intros [|c s] H; [congruence | reflexivity]).
  rewrite (T data Hde), (T type Hte), (T name Hne). cbn [andb or_empty].
  destruct (drive_upload ext (log w) name type data) as [link|].
  - unfold insertExpenseSchema_parse. rewrite Hdesc.
    destruct (calculatedAmount body), (ExpenseRequest.category body),
      (ExpenseRequest.expenseDate body); cbn;
      (split; [apply in_or_app; right; left; reflexivity|]);
      (split; [left; reflexivity|]);
      (split; [split; discriminate | reflexivity]).
  - cbn. split; [|split; [right; reflexivity|]].
    + apply in_or_app. left. apply in_or_app. right. left. reflexivity.
    + split; [split; reflexivity | reflexivity].
Qed.

Lemma postExpense_uploads_before_validating_witness :
  code (fst (postExpense all_up 1750700009000 3 orphan_receipt_request synced))
  = 400
  /\ In (DriveUpload "lunch.pdf" "application/pdf" "JVBERi0xLjQ="
           (Some "https://drive.google.com/file/lunch.pdf"))
        (log (snd (postExpense all_up 1750700009000 3 orphan_receipt_request
                     synced))).
Proof.
  split; [vm_compute; reflexivity|].
  edestruct (postExpense_uploads_before_validating all_up 1750700009000 3
               orphan_receipt_request synced) as (H & _);
    [vm_compute; reflexivity | reflexivity | reflexivity | reflexivity
     | discriminate | discriminate | discriminate | reflexivity |].
  exact H.
Defined.

(* ================================================================== *)
(** * Settings, users and partial updates of the store                 *)
(* ================================================================== *)

(** X4. [setSetting] is an upsert: afterwards the key reads back the
    returned setting, which carries the new value; every other key reads
    as before; a key that was present keeps its id and its place and
    the counter stays, a new key takes the counter, which then advances
    by one, and goes last. Settings stay filed under their own key. *)
Theorem setSetting_upsert :
  forall (now : Z) (setting : InsertSystemSetting.t) (st : MemStorage.t),
    settings_ok st ->
    let r := setSetting now setting st in
    let key := InsertSystemSetting.key setting in
    getSetting key (snd r) = Some (fst r)
    /\ SystemSetting.key (fst r) = key
    /\ SystemSetting.value (fst r) = InsertSystemSetting.value setting
    /\ (forall k, k <> key -> getSetting k (snd r) = getSetting k st)
    /\ (forall old, getSetting key st = Some old ->
          SystemSetting.id (fst r) = SystemSetting.id old
          /\ MemStorage.currentSettingId (snd r) = MemStorage.currentSettingId st
          /\ Map_keys (MemStorage.settings (snd r))
             = Map_keys (MemStorage.settings st))
    /\ (getSetting key st = None ->
          SystemSetting.id (fst r) = MemStorage.currentSettingId st
          /\ MemStorage.currentSettingId (snd r)
             = MemStorage.currentSettingId st + 1
          /\ Map_keys (MemStorage.settings (snd r))
             = (Map_keys (MemStorage.settings st) ++ [key])%list)
    /\ settings_ok (snd r).
Proof.
  intros now setting st Hok. cbn zeta. unfold setSetting, getSetting.
  destruct (Map_get String.eqb (InsertSystemSetting.key setting)
              (MemStorage.settings st)) as [existing|] eqn:G;
    cbn [fst snd MemStorage.settings MemStorage.currentSettingId set_settings
         SystemSetting.key SystemSetting.value SystemSetting.id].
  - assert (Hkey : SystemSetting.key existing = InsertSystemSetting.key setting).
    { apply (Map_get_In String.eqb String_eqb_eq) in G.
      unfold settings_ok in Hok. rewrite Forall_forall in Hok.
      apply (Hok _ G). }
    split; [apply (Map_get_set_same String.eqb String_eqb_eq)|].
    split; [exact Hkey|]. split; [reflexivity|].
    split; [intros k Hk; apply (Map_get_set_other String.eqb String_eqb_eq), Hk|].
    split.
    + intros old [= <-]. split; [reflexivity|]. split; [reflexivity|].
      apply (Map_keys_set_present String.eqb String_eqb_eq _ _ _ _ G).
    + split; [discriminate|].
      unfold settings_ok. cbn [MemStorage.settings].
      apply Forall_Map_set; [exact Hkey | exact Hok].
  - split; [apply (Map_get_set_same String.eqb String_eqb_eq)|].
    split; [reflexivity|]. split; [reflexivity|].
    split; [intros k Hk; apply (Map_get_set_other String.eqb String_eqb_eq), Hk|].
    split; [discriminate|]. split.
    + intros _. split; [reflexivity|]. split; [reflexivity|].
      rewrite (Map_set_absent String.eqb _ _ _ G).
      unfold Map_keys. rewrite map_app. reflexivity.
    + unfold settings_ok. cbn [MemStorage.settings].
      apply Forall_Map_set; [reflexivity | exact Hok].
Qed.

Lemma setSetting_upsert_witness :
  settings_ok (store (seeded 1750000000000))
  /\ getSetting "mileage_rate"
       (snd (setSetting 1750800000000
               (InsertSystemSetting.mk "mileage_rate" "0.72")
               (store (seeded 1750000000000))))
     = Some (fst (setSetting 1750800000000
                    (InsertSystemSetting.mk "mileage_rate" "0.72")
                    (store (seeded 1750000000000)))).
Proof.
  assert (H : settings_ok (store (seeded 1750000000000)))
    by (unfold settings_ok; vm_compute; repeat constructor).
  split; [exact H|].
  exact (proj1 (setSetting_upsert 1750800000000
                  (InsertSystemSetting.mk "mileage_rate" "0.72")
                  (store (seeded 1750000000000)) H)).
Defined.

Lemma users_fresh_key st :
  users_ok st ->
  Map_get Z.eqb (MemStorage.currentUserId st) (MemStorage.users st) = None.
Proof.
  unfold users_ok. intros H.
  induction (MemStorage.users st) as [|[k u] m IH]; [reflexivity|].
  inversion H as [|? ? [Hlt _] Hm]; subst. cbn [Map_get fst] in *.
  destruct (Z.eqb_spec (MemStorage.currentUserId st) k); [lia | apply IH, Hm].
Qed.

Lemma find_app_first {A} (p : A -> bool) l l' x :
  find p l = Some x -> find p (l ++ l') = Some x.
Proof.
  induction l as [|a l IH]; simpl; [discriminate|].
  destruct (p a); [tauto | exact IH].
Qed.

Lemma find_app_none {A} (p : A -> bool) l l' :
  find p l = None -> find p (l ++ l') = find p l'.
Proof.
  induction l as [|a l IH]; simpl; [reflexivity|].
  destruct (p a); [discriminate | exact IH].
Qed.

Lemma createUser_users now ins st :
  users_ok st ->
  MemStorage.users (snd (createUser now ins st))
  = (MemStorage.users st
       ++ [(MemStorage.currentUserId st, fst (createUser now ins st))])%list.
Proof.
  intros H. cbn [createUser snd fst set_users MemStorage.users].
  apply (Map_set_absent Z.eqb), users_fresh_key, H.
Qed.

Lemma createUser_users_ok now ins st :
  users_ok st -> users_ok (snd (createUser now ins st)).
Proof.
  intros H. unfold users_ok in *.
  cbn [createUser snd set_users MemStorage.users MemStorage.currentUserId].
  apply Forall_Map_set.
  - cbn. split; [lia | reflexivity].
  - eapply Forall_impl; [|exact H]. intros kv [H1 H2]. split; [lia | exact H2].
Qed.

(** X5. [createUser] files the new user under the next id, which no
    user had; looking that id up returns the new user and every other
    id reads as before. The address is not checked: when it is free,
    [getUserByEmail] finds the new user, and when a user already has it,
    the look-up keeps returning that earlier user, so the new one cannot
    be found by address. A missing role becomes "employee". *)
Theorem createUser_lookup :
  forall (now : Z) (ins : InsertUser.t) (st : MemStorage.t),
    users_ok st ->
    let r := createUser now ins st in
    User.id (fst r) = MemStorage.currentUserId st
    /\ getUser (User.id (fst r)) st = None
    /\ getUser (User.id (fst r)) (snd r) = Some (fst r)
    /\ (forall k, k <> User.id (fst r) -> getUser k (snd r) = getUser k st)
    /\ (getUserByEmail (InsertUser.email ins) st = None ->
        getUserByEmail (InsertUser.email ins) (snd r) = Some (fst r))
    /\ (forall u, getUserByEmail (InsertUser.email ins) st = Some u ->
        getUserByEmail (InsertUser.email ins) (snd r) = Some u
        /\ u <> fst r)
    /\ (or_null (InsertUser.role ins) = None -> User.role (fst r) = "employee")
    /\ users_ok (snd r).
Proof.
  intros now ins st Hok. cbn zeta.
  pose proof (createUser_users now ins st Hok) as Hus.
  pose proof (createUser_users_ok now ins st Hok) as Hok'.
  pose proof (users_fresh_key st Hok) as Hfresh.
  split; [reflexivity|]. split; [exact Hfresh|]. split.
  { cbn [createUser fst snd User.id]. unfold getUser.
    cbn [set_users MemStorage.users].
    apply (Map_get_set_same Z.eqb Zeqb_eq). }
  split.
  { intros k Hk. cbn [createUser fst snd User.id] in *. unfold getUser.
    cbn [set_users MemStorage.users].
    apply (Map_get_set_other Z.eqb Zeqb_eq), Hk. }
  split.
  { intros Hnone. unfold getUserByEmail in *. rewrite Hus.
    unfold Map_values in *. rewrite map_app.
    rewrite (find_app_none _ _ _ Hnone). cbn [map snd find].
    replace (User.email (fst (createUser now ins st))) with (InsertUser.email ins)
      by reflexivity.
    rewrite String.eqb_refl. reflexivity. }
  split.
  { intros u Hu. split.
    - unfold getUserByEmail in *. rewrite Hus.
      unfold Map_values in *. rewrite map_app.
      apply find_app_first, Hu.
    - intros ->. unfold getUserByEmail in Hu. apply find_some in Hu.
      destruct Hu as [Hin _]. unfold Map_values in Hin.
      apply in_map_iff in Hin. destruct Hin as [[k u] [Heq Hin]].
      cbn [snd] in Heq. subst u.
      unfold users_ok in Hok. rewrite Forall_forall in Hok.
      destruct (Hok _ Hin) as [Hlt Hid]. cbn [fst snd] in Hlt, Hid.
      cbn [createUser fst User.id] in Hid. lia. }
  split; [|exact Hok'].
  intros Hrole. cbn [createUser fst User.role]. rewrite Hrole. reflexivity.
Qed.

Lemma createUser_lookup_witness :
  users_ok (store (seeded 1750000000000))
  /\ getUserByEmail "admin@agency.com"
       (snd (createUser 1750800000000
               (InsertUser.mk "admin@agency.com" "Second Admin" None
                  (Some "admin") None)
               (store (seeded 1750000000000))))
     = getUserByEmail "admin@agency.com" (store (seeded 1750000000000)).
Proof.
  assert (H : users_ok (store (seeded 1750000000000))).
  { unfold users_ok. vm_compute. repeat constructor. }
  split; [exact H|].
  destruct (createUser_lookup 1750800000000
              (InsertUser.mk "admin@agency.com" "Second Admin" None
                 (Some "admin") None)
              (store (seeded 1750000000000)) H) as (_ & _ & _ & _ & _ & Hdup & _).
  cbn [InsertUser.email] in Hdup.
  destruct (getUserByEmail "admin@agency.com" (store (seeded 1750000000000)))
    as [u|] eqn:E; [|vm_compute in E; discriminate].
  exact (proj1 (Hdup u eq_refl)).
Defined.

(** X6. [updateExpense] does nothing and returns nothing for an id that
    is not stored. For a stored id it files the merged record under that
    id, leaving every other id, the order of the keys and the counter as
    they were. The key is not protected: an update that carries another
    id is filed under the old key, so the record and its key disagree
    from then on; an update that leaves id and status alone keeps the
    store well formed. *)
Theorem updateExpense_effect :
  forall (id : Z) (updates : PartialExpense.t) (st : MemStorage.t),
    let r := updateExpense id updates st in
    (getExpense id st = None -> r = (None, st))
    /\ (forall e, getExpense id st = Some e ->
          fst r = Some (merge e updates)
          /\ getExpense id (snd r) = Some (merge e updates)
          /\ (forall k, k <> id -> getExpense k (snd r) = getExpense k st)
          /\ Map_keys (MemStorage.expenses (snd r))
             = Map_keys (MemStorage.expenses st)
          /\ MemStorage.currentExpenseId (snd r)
             = MemStorage.currentExpenseId st
          /\ (store_ok st ->
              PartialExpense.id updates = None ->
              PartialExpense.status updates = None ->
              store_ok (snd r))
          /\ (forall j, PartialExpense.id updates = Some j -> j <> id ->
              ~ store_ok (snd r))).
Proof.
  intros id updates st. cbn zeta. unfold updateExpense, getExpense.
  destruct (Map_get Z.eqb id (MemStorage.expenses st)) as [e0|] eqn:G.
  2:{ split; [reflexivity | discriminate]. }
  split; [discriminate|]. intros e [= <-].
  cbn [fst snd set_expenses MemStorage.expenses MemStorage.currentExpenseId].
  split; [reflexivity|].
  split; [apply (Map_get_set_same Z.eqb Zeqb_eq)|].
  split; [intros k Hk; apply (Map_get_set_other Z.eqb Zeqb_eq), Hk|].
  split; [apply (Map_keys_set_present Z.eqb Zeqb_eq _ _ _ _ G)|].
  split; [reflexivity|]. split.
  - intros [Hnd Hrows] Hid Hstatus. split;
      cbn [set_expenses MemStorage.expenses MemStorage.currentExpenseId].
    + rewrite (Map_keys_set_present Z.eqb Zeqb_eq _ _ _ _ G). exact Hnd.
    + apply Forall_Map_set; [|exact Hrows].
      apply (Map_get_In Z.eqb Zeqb_eq) in G.
      rewrite Forall_forall in Hrows. destruct (Hrows _ G) as (H1 & H2 & H3).
      unfold row_ok. cbn [fst snd merge Expense.id Expense.status] in *.
      rewrite Hid, Hstatus. cbn [over]. tauto.
  - intros j Hj Hne [_ Hrows].
    cbn [set_expenses MemStorage.expenses MemStorage.currentExpenseId] in Hrows.
    rewrite Forall_forall in Hrows.
    assert (Hin : In (id, merge e0 updates)
                     (Map_set Z.eqb id (merge e0 updates) (MemStorage.expenses st))).
    { apply (Map_get_In Z.eqb Zeqb_eq), (Map_get_set_same Z.eqb Zeqb_eq). }
    destruct (Hrows _ Hin) as (_ & H & _).
    cbn [fst snd merge Expense.id] in H. rewrite Hj in H. cbn [over] in H.
    contradiction.
Qed.

Lemma updateExpense_effect_witness :
  fst (updateExpense 2 (just_sheetsRowNumber 7)
         (store (seeded 1750700000000))) <> None
  /\ getExpense 1 (snd (updateExpense 2 (just_sheetsRowNumber 7)
                          (store (seeded 1750700000000))))
     = getExpense 1 (store (seeded 1750700000000)).
Proof.
  destruct (getExpense 2 (store (seeded 1750700000000))) as [e|] eqn:E;
    [|vm_compute in E; discriminate].
  destruct (proj2 (updateExpense_effect 2 (just_sheetsRowNumber 7)
                     (store (seeded 1750700000000))) e E)
    as (H1 & _ & H3 & _).
  split; [rewrite H1; discriminate | apply H3; discriminate].
Defined.

(** X7. [updateUser] does nothing and returns nothing for an id that is
    not stored; for a stored id the merged user is returned and is what
    the id reads back, every other id reads as before, no user is added
    and the counter stays; an empty update returns the user as stored. *)
Theorem updateUser_effect :
  forall (id : Z) (updates : PartialUser.t) (st : MemStorage.t),
    let r := updateUser id updates st in
    (getUser id st = None -> r = (None, st))
    /\ (forall u, getUser id st = Some u ->
          fst r = Some (merge_user u updates)
          /\ getUser id (snd r) = Some (merge_user u updates)
          /\ (forall k, k <> id -> getUser k (snd r) = getUser k st)
          /\ Map_keys (MemStorage.users (snd r))
             = Map_keys (MemStorage.users st)
          /\ MemStorage.currentUserId (snd r) = MemStorage.currentUserId st
          /\ MemStorage.expenses (snd r) = MemStorage.expenses st
          /\ (updates = PartialUser.mk None None None None None None None ->
              fst r = Some u)
          /\ (users_ok st -> PartialUser.id updates = None ->
              users_ok (snd r))).
Proof.
  intros id updates st. cbn zeta. unfold updateUser, getUser.
  destruct (Map_get Z.eqb id (MemStorage.users st)) as [u0|] eqn:G.
  2:{ split; [reflexivity | discriminate]. }
  split; [discriminate|]. intros u [= <-].
  cbn [fst snd set_users MemStorage.users MemStorage.currentUserId
       MemStorage.expenses].
  split; [reflexivity|].
  split; [apply (Map_get_set_same Z.eqb Zeqb_eq)|].
  split; [intros k Hk; apply (Map_get_set_other Z.eqb Zeqb_eq), Hk|].
  split; [apply (Map_keys_set_present Z.eqb Zeqb_eq _ _ _ _ G)|].
  split; [reflexivity|]. split; [reflexivity|]. split.
  - intros ->. destruct u0; reflexivity.
  - intros Hok Hid. unfold users_ok in *.
    cbn [set_users MemStorage.users MemStorage.currentUserId].
    apply Forall_Map_set; [|exact Hok].
    apply (Map_get_In Z.eqb Zeqb_eq) in G.
    rewrite Forall_forall in Hok. destruct (Hok _ G) as (H1 & H2).
    cbn [fst snd merge_user User.id] in *. rewrite Hid. cbn [over]. tauto.
Qed.

Lemma updateUser_effect_witness :
  option_map User.role
    (getUser 3 (snd (updateUser 3
                       (PartialUser.mk None None None None (Some "approver")
                          None None)
                       (store (seeded 1750700000000)))))
  = Some "approver".
Proof.
  destruct (getUser 3 (store (seeded 1750700000000))) as [u|] eqn:E;
    [|vm_compute in E; discriminate].
  destruct (proj2 (updateUser_effect 3
                     (PartialUser.mk None None None None (Some "approver")
                        None None)
                     (store (seeded 1750700000000))) u E)
    as (_ & H2 & _).
  rewrite H2. reflexivity.
Defined.

(** X8. The expenses of an employee are the expenses of the whole
    listing whose [employeeId] is the one asked for, in the same order,
    most recent first: each stored expense of that employee appears,
    and no expense of anyone else. *)
Theorem getExpensesByEmployee_filters_getAllExpenses :
  forall (st : MemStorage.t) (employeeId : Z),
    getExpensesByEmployee employeeId st
    = filter (fun e => Z.eqb (Expense.employeeId e) employeeId)
             (getAllExpenses st)
    /\ newest_first (getExpensesByEmployee employeeId st)
    /\ (forall e, In e (getExpensesByEmployee employeeId st)
                  <-> In e (Map_values (MemStorage.expenses st))
                      /\ Expense.employeeId e = employeeId).
Proof.
  intros st employeeId.
  unfold getExpensesByEmployee, getAllExpenses, newest_first.
  split; [|split].
  - symmetry. apply (filter_Array_sort Expense.submissionDate).
  - apply (Array_sort_sorted Expense.submissionDate).
  - intros e. rewrite In_Array_sort, filter_In, Z.eqb_eq. reflexivity.
Qed.

(* ================================================================== *)
(** * Reading the row number of an appended row                     *)
(* ================================================================== *)

Lemma digit_char_ok d :
  0 <= d < 10 ->
  JS.is_digit (JS.digit_char d) = true /\ JS.digit_val (JS.digit_char d) = d.
Proof.
  intros H.
  assert (E : d = 0 \/ d = 1 \/ d = 2 \/ d = 3 \/ d = 4 \/ d = 5 \/ d = 6
              \/ d = 7 \/ d = 8 \/ d = 9) by lia.
  repeat (destruct E as [->|E]; [split; reflexivity|]). subst. split; reflexivity.
Qed.

Lemma digits_value_snoc ds c :
  JS.digits_value (ds ++ [c]) = 10 * JS.digits_value ds + JS.digit_val c.
Proof. unfold JS.digits_value. rewrite fold_left_app. reflexivity. Qed.

Lemma Z_digits_fuel_spec fuel :
  forall n acc,
    0 <= n < 2 ^ Z.of_nat fuel ->
    exists ds,
      Forall (fun c => JS.is_digit c = true) ds
      /\ JS.digits_value ds = n
      /\ (fuel <> O -> ds <> [])
      /\ JS.Z_digits_fuel fuel n acc = string_of_list_ascii ds ++ acc.
Proof.
  induction fuel as [|fuel IH]; intros n acc Hn.
  - exists []. cbn in *. repeat split; [constructor | lia | congruence].
  - cbn [JS.Z_digits_fuel].
    assert (Hmod : 0 <= n mod 10 < 10) by (apply Z.mod_pos_bound; lia).
    destruct (digit_char_ok _ Hmod) as [Hd Hv].
    destruct (Z.eqb_spec (n / 10) 0) as [E|E].
    + exists [JS.digit_char (n mod 10)]. split; [repeat constructor; exact Hd|].
      split; [|split; [discriminate | reflexivity]].
      unfold JS.digits_value. cbn [fold_left]. rewrite Hv.
      pose proof (Z.div_mod n 10 ltac:(lia)). lia.
    + assert (Hq : 0 <= n / 10 < 2 ^ Z.of_nat fuel).
      { split; [apply Z.div_pos; lia|].
        apply Z.div_lt_upper_bound; [lia|].
        rewrite Nat2Z.inj_succ, Z.pow_succ_r in Hn by lia. lia. }
      destruct (IH (n / 10) (String (JS.digit_char (n mod 10)) acc) Hq)
        as (ds & Hds & Hval & _ & Heq).
      exists (ds ++ [JS.digit_char (n mod 10)])%list.
      split; [apply Forall_app; split; [exact Hds | repeat constructor; exact Hd]|].
      split; [|split].
      * rewrite digits_value_snoc, Hval, Hv.
        pose proof (Z.div_mod n 10 ltac:(lia)). lia.
      * intros _ H. apply app_eq_nil in H. destruct H; discriminate.
      * rewrite Heq. clear. induction ds as [|c ds IH]; cbn; [reflexivity|].
        rewrite IH. reflexivity.
Qed.

(** The digits of a natural number read back as that number. *)
Lemma Z_digits_spec n :
  0 <= n ->
  exists ds,
    Forall (fun c => JS.is_digit c = true) ds
    /\ JS.digits_value ds = n
    /\ ds <> []
    /\ JS.Z_digits n = string_of_list_ascii ds.
Proof.
  intros Hn. unfold JS.Z_digits.
  destruct (Z_digits_fuel_spec (S (Z.to_nat (Z.log2 n))) n "") as
    (ds & H1 & H2 & H3 & H4).
  - split; [exact Hn|]. rewrite Nat2Z.inj_succ, Z2Nat.id by apply Z.log2_nonneg.
    destruct (Z.eq_dec n 0) as [->|Hne]; [reflexivity|].
    apply Z.log2_spec. lia.
  - exists ds. split; [exact H1|]. split; [exact H2|].
    split; [apply H3; discriminate|]. rewrite H4.
    clear. induction (string_of_list_ascii ds) as [|c s IH]; cbn;
      [reflexivity | rewrite IH; reflexivity].
Qed.

Lemma trailing_digits_app s1 s2 run :
  trailing_digits (s1 ++ s2) run = trailing_digits s2 (trailing_digits s1 run).
Proof.
  revert run. induction s1 as [|c s1 IH]; intros run; cbn; [reflexivity|].
  destruct (JS.is_digit c); apply IH.
Qed.

Lemma trailing_digits_all ds run :
  Forall (fun c => JS.is_digit c = true) ds ->
  trailing_digits (string_of_list_ascii ds) run = (run ++ ds)%list.
Proof.
  intros H. revert run. induction H as [|c ds Hc _ IH]; intros run; cbn.
  - rewrite app_nil_r. reflexivity.
  - rewrite Hc, IH, <- app_assoc. reflexivity.
Qed.

(** Integers up to 2^53 are numbers. *)
Lemma nearest_number_small n : 0 <= n <= 2 ^ 53 -> JS.nearest_number n = n.
Proof.
  intros Hn. destruct (Z.eq_dec n (2 ^ 53)) as [->|Hne]; [reflexivity|].
  unfold JS.nearest_number.
  assert (Hlog : Z.log2 n - 52 <= 0).
  { destruct (Z.eq_dec n 0) as [->|Hpos]; [cbn; lia|].
    assert (Z.log2 n < 53) by (apply Z.log2_lt_pow2; lia). lia. }
  destruct (Z.leb_spec (Z.log2 n - 52) 0); [reflexivity | lia].
Qed.

Lemma nearest_number_pos n : 0 < n -> 0 < JS.nearest_number n.
Proof.
  intros Hn. unfold JS.nearest_number.
  destruct (Z.leb_spec (Z.log2 n - 52) 0) as [_|Hk]; [exact Hn|].
  set (k := Z.log2 n - 52) in *.
  assert (Hpow : 0 < 2 ^ k) by (apply Z.pow_pos_nonneg; lia).
  assert (Hq : 1 <= n / 2 ^ k).
  { apply Z.div_le_lower_bound; [exact Hpow|].
    rewrite Z.mul_1_r.
    apply Z.le_trans with (2 ^ Z.log2 n);
      [apply Z.pow_le_mono_r; lia | apply Z.log2_spec, Hn]. }
  cbv zeta. apply Z.min_glb_lt; [|reflexivity].
  destruct (n mod 2 ^ k <? 2 ^ (k - 1)); [nia|].
  destruct (2 ^ (k - 1) <? n mod 2 ^ k); [nia|].
  destruct (Z.even (n / 2 ^ k)); nia.
Qed.

(** The row number read from a range that ends in the digits of [n]
    after a character that is no digit. *)
Lemma rowNumber_of_digits prefix c n :
  JS.is_digit c = false -> 0 <= n ->
  rowNumber_of (Some (prefix ++ String c (JS.Z_digits n)))
  = JS.nearest_number n.
Proof.
  intros Hc Hn. unfold rowNumber_of. rewrite trailing_digits_app.
  cbn [trailing_digits]. rewrite Hc.
  destruct (Z_digits_spec n Hn) as (ds & Hds & Hval & Hne & ->).
  rewrite (trailing_digits_all _ _ Hds). cbn [app].
  destruct ds; [congruence | rewrite Hval; reflexivity].
Qed.

Lemma string_app_assoc (a b c : string) : (a ++ b) ++ c = a ++ b ++ c.
Proof. induction a as [|x a IH]; cbn; [reflexivity | rewrite IH; reflexivity]. Qed.

Lemma all_up_gives_rows : ledger_gives_rows all_up.
Proof.
  intros evs values. eexists. split; [reflexivity|].
  set (n := Z.of_nat (appended_rows evs) + 2).
  replace ("Expenses!A" ++ JS.Z_digits n ++ ":O" ++ JS.Z_digits n)
    with (("Expenses!A" ++ JS.Z_digits n ++ ":") ++ String "O" (JS.Z_digits n)).
  - rewrite rowNumber_of_digits; [|reflexivity | lia].
    apply nearest_number_pos. lia.
  - rewrite !string_app_assoc. reflexivity.
Qed.

(** X9. The row number of an appended row is the decimal number that
    ends the range the ledger reports, such as the 7 of
    [Expenses!A7:O7]; a range that ends in no digit, or no range at
    all, gives 0, which the service takes for "no row". *)
Theorem rowNumber_of_reads_last_number :
  forall (prefix : string) (c : ascii) (n : Z),
    JS.is_digit c = false ->
    0 <= n <= 2 ^ 53 ->
    rowNumber_of (Some (prefix ++ String c (JS.Z_digits n))) = n
    /\ rowNumber_of (Some (JS.Z_digits n)) = n
    /\ rowNumber_of (Some (prefix ++ String c "")) = 0
    /\ rowNumber_of None = 0.
Proof.
  intros prefix c n Hc Hn.
  split; [rewrite rowNumber_of_digits; [apply nearest_number_small, Hn
                                       | exact Hc | lia]|].
  split; [|split; [|reflexivity]].
  - unfold rowNumber_of.
    destruct (Z_digits_spec n ltac:(lia)) as (ds & Hds & Hval & Hne & ->).
    rewrite (trailing_digits_all _ _ Hds). cbn [app].
    destruct ds; [congruence|]. rewrite Hval. apply nearest_number_small, Hn.
  - unfold rowNumber_of. rewrite trailing_digits_app. cbn [trailing_digits].
    rewrite Hc. reflexivity.
Qed.

Lemma rowNumber_of_reads_last_number_witness :
  rowNumber_of (Some ("Expenses!A" ++ String ":" (JS.Z_digits 7))) = 7.
Proof.
  refine (proj1 (rowNumber_of_reads_last_number "Expenses!A" ":" 7 _ _));
    [reflexivity | vm_compute; split; discriminate].
Defined.

(* ================================================================== *)
(** * A synchronisation run that completes                          *)
(* ================================================================== *)

Lemma sync_loop_all_rows ext l w :
  (forall e, In e l -> num_truthy (Expense.sheetsRowNumber e) = true) ->
  sync_loop ext l w = (Ok tt, w).
Proof.
  induction l as [|e l IH]; intros H; cbn [sync_loop]; [reflexivity|].
  rewrite (H e (or_introl eq_refl)). apply IH. intros e0 Hin. apply H.
  right; exact Hin.
Qed.

(** With a ledger that reports rows, adding an expense with a valid
    date succeeds and leaves the expense with a row reference. *)
Lemma addExpense_succeeds ext e w :
  ledger_gives_rows ext ->
  (exists ms, Expense.expenseDate e = DateOf ms) ->
  exists n, fst (addExpense ext e w) = Ok n
    /\ (forall cur, getExpense (Expense.id e) (store w) = Some cur ->
          has_row (Expense.id e) (store (snd (addExpense ext e w)))).
Proof.
  intros Hext [ms Hms]. unfold addExpense. rewrite Hms. cbn [toISOString].
  destruct (Hext (log w) (sheet_row e ms)) as (range & -> & Hpos).
  apply Z.ltb_lt in Hpos. rewrite Hpos. eexists. split; [reflexivity|].
  intros cur Hcur. cbn [snd store with_store emit].
  unfold updateExpense. unfold getExpense in Hcur. rewrite Hcur. cbn [snd].
  exists (merge cur (just_sheetsRowNumber (rowNumber_of range))). split.
  - unfold getExpense, set_expenses. cbn [MemStorage.expenses].
    apply (Map_get_set_same Z.eqb Zeqb_eq).
  - apply Z.ltb_lt in Hpos. destruct cur; cbn.
    destruct (rowNumber_of range); [lia | reflexivity | lia].
Qed.

Lemma sync_loop_complete ext l :
  ledger_gives_rows ext ->
  forall w,
    NoDup (map Expense.id l) ->
    (forall e, In e l -> getExpense (Expense.id e) (store w) = Some e) ->
    (forall e, In e l -> exists ms, Expense.expenseDate e = DateOf ms) ->
    fst (sync_loop ext l w) = Ok tt
    /\ forall e, In e l -> has_row (Expense.id e) (store (snd (sync_loop ext l w))).
Proof.
  intros Hext. induction l as [|e l IH]; intros w Hnd Hst Hd; cbn [sync_loop].
  - split; [reflexivity | intros e []].
  - inversion Hnd as [|? ? Hnotin Hnd']; subst.
    assert (Hd' : forall e0, In e0 l -> exists ms, Expense.expenseDate e0 = DateOf ms)
      by (intros e0 Hin; apply Hd; right; exact Hin).
    destruct (num_truthy (Expense.sheetsRowNumber e)) eqn:Ht.
    + destruct (IH w Hnd' (fun e0 Hin => Hst e0 (or_intror Hin)) Hd') as [A B].
      split; [exact A|]. intros e0 [<-|Hin]; [|apply B, Hin].
      apply sync_loop_keeps_row. exists e. split; [|exact Ht].
      apply Hst. left; reflexivity.
    + destruct (addExpense_succeeds ext e w Hext (Hd e (or_introl eq_refl)))
        as (n & Hn & Hrow).
      specialize (Hrow e (Hst e (or_introl eq_refl))).
      destruct (addExpense_effect ext e w) as (more & _ & Hother & _).
      destruct (addExpense ext e w) as [r w1]. cbn [fst snd] in *. subst r.
      assert (Hst1 : forall e0, In e0 l ->
                       getExpense (Expense.id e0) (store w1) = Some e0).
      { intros e0 Hin.
        assert (Hne : Expense.id e0 <> Expense.id e).
        { intros E. apply Hnotin. rewrite <- E. apply in_map, Hin. }
        destruct (Hother _ Hne) as (_ & _ & ->). apply Hst. right; exact Hin. }
      destruct (IH w1 Hnd' Hst1 Hd') as [A B].
      split; [exact A|]. intros e0 [<-|Hin]; [|apply B, Hin].
      apply sync_loop_keeps_row, Hrow.
Qed.

Lemma dates_valid_listed st e :
  dates_valid st -> In e (getAllExpenses st) ->
  exists ms, Expense.expenseDate e = DateOf ms.
Proof.
  intros H Hin. apply H. unfold getAllExpenses in Hin.
  apply In_Array_sort in Hin. exact Hin.
Qed.

(** X10. When every stored expense has a valid expense date and the
    ledger answers each append with the row it filled, a synchronisation
    run succeeds, every stored expense carries a row reference
    afterwards, a second run changes nothing at all, and the route of an
    admin answers 200. *)
Theorem syncExpensesToSheet_completes :
  forall (ext : External) (w : World),
    store_ok (store w) ->
    dates_valid (store w) ->
    ledger_gives_rows ext ->
    let r := syncExpensesToSheet ext w in
    fst r = Ok tt
    /\ (forall id e, getExpense id (store w) = Some e ->
                     has_row id (store (snd r)))
    /\ syncExpensesToSheet ext (snd r) = (Ok tt, snd r)
    /\ (forall userId, is_admin (getUser userId (store w)) = true ->
          code (fst (postSyncSheets ext userId w)) = 200).
Proof.
  intros ext w Hok Hdates Hext. cbn zeta.
  destruct (sync_loop_complete ext (getAllExpenses (store w)) Hext w
              (getAllExpenses_ids _ Hok)
              (fun e Hin => getAllExpenses_stored _ e Hok Hin)
              (fun e Hin => dates_valid_listed _ e Hdates Hin)) as [A B].
  pose proof (sync_loop_gentle ext (getAllExpenses (store w)) w) as Hg.
  assert (Hrun : syncExpensesToSheet ext w
                 = (Ok tt, snd (sync_loop ext (getAllExpenses (store w)) w))).
  { unfold syncExpensesToSheet.
    destruct (sync_loop ext (getAllExpenses (store w)) w) as [[[]|x] w1];
      cbn in *; [reflexivity | discriminate]. }
  rewrite Hrun. cbn [fst snd].
  set (w1 := snd (sync_loop ext (getAllExpenses (store w)) w)) in *.
  assert (Hrows : forall id e, getExpense id (store w) = Some e ->
                               has_row id (store w1)).
  { intros id e Hget. unfold getExpense in Hget.
    apply (Map_get_In Z.eqb Zeqb_eq) in Hget.
    assert (Hin : In e (getAllExpenses (store w))).
    { unfold getAllExpenses. apply In_Array_sort. unfold Map_values.
      apply in_map_iff. exists (id, e). split; [reflexivity | exact Hget]. }
    destruct Hok as [_ Hr]. rewrite Forall_forall in Hr.
    destruct (Hr _ Hget) as (_ & Hid & _). cbn [fst snd] in Hid.
    rewrite <- Hid. apply B, Hin. }
  assert (Hok1 : store_ok (store w1)) by (apply (gentle_ok w w1 Hg Hok)).
  assert (Hsecond : syncExpensesToSheet ext w1 = (Ok tt, w1)).
  { unfold syncExpensesToSheet. rewrite sync_loop_all_rows; [reflexivity|].
    intros e1 Hin1.
    pose proof (getAllExpenses_stored _ e1 Hok1 Hin1) as Hget1.
    assert (Hkey : In (Expense.id e1) (Map_keys (MemStorage.expenses (store w)))).
    { destruct Hg as [(_ & _ & _ & _ & _ & Hcore) _].
      rewrite <- keys_store_core, <- Hcore, keys_store_core.
      unfold getExpense in Hget1. apply (Map_get_In Z.eqb Zeqb_eq) in Hget1.
      unfold Map_keys. apply in_map_iff. exists (Expense.id e1, e1).
      split; [reflexivity | exact Hget1]. }
    unfold Map_keys in Hkey. apply in_map_iff in Hkey.
    destruct Hkey as ([k e0] & Hk & Hin0). cbn [fst] in Hk. subst k.
    destruct Hok as [Hnd _].
    pose proof (In_Map_get Z.eqb Zeqb_eq _ _ _ Hnd Hin0) as Hget0.
    destruct (Hrows _ _ Hget0) as (e2 & Hget2 & Ht).
    rewrite Hget1 in Hget2. injection Hget2 as <-. exact Ht. }
  split; [reflexivity|]. split; [exact Hrows|]. split; [exact Hsecond|].
  intros userId Hadmin. unfold postSyncSheets. rewrite Hadmin, Hrun.
  reflexivity.
Qed.

Lemma seeded_dates_valid t0 : dates_valid (store (seeded t0)).
Proof.
  intros e Hin. cbn in Hin.
  destruct Hin as [<-|[<-|[<-|[]]]]; eexists; reflexivity.
Qed.

Lemma syncExpensesToSheet_completes_witness :
  store_ok (store (seeded 1750700000000))
  /\ dates_valid (store (seeded 1750700000000))
  /\ ledger_gives_rows all_up
  /\ fst (syncExpensesToSheet all_up (seeded 1750700000000)) = Ok tt
  /\ has_row 2 (store (snd (syncExpensesToSheet all_up (seeded 1750700000000)))).
Proof.
  assert (Hok : store_ok (store (seeded 1750700000000)))
    by apply (reachable_ok all_up), seeded_reachable.
  pose proof (seeded_dates_valid 1750700000000) as Hd.
  pose proof all_up_gives_rows as Hl.
  split; [exact Hok|]. split; [exact Hd|]. split; [exact Hl|].
  destruct (syncExpensesToSheet_completes all_up (seeded 1750700000000)
              Hok Hd Hl) as (H1 & H2 & _).
  split; [exact H1|].
  destruct (getExpense 2 (store (seeded 1750700000000))) as [e|] eqn:E;
    [|vm_compute in E; discriminate].
  exact (H2 2 e E).
Defined.

(* ================================================================== *)
(** * A synchronisation run that cannot complete                    *)
(* ================================================================== *)

Lemma sync_loop_blocked ext e l :
  In e l ->
  Expense.expenseDate e = InvalidDate ->
  num_truthy (Expense.sheetsRowNumber e) = false ->
  forall w, exists x, fst (sync_loop ext l w) = Throw x.
Proof.
  intros Hin Hdate Hrow. induction l as [|e0 l IH]; [destruct Hin|].
  intros w. cbn [sync_loop]. destruct Hin as [->|Hin].
  - rewrite Hrow. unfold addExpense. rewrite Hdate. cbn. eexists; reflexivity.
  - destruct (num_truthy (Expense.sheetsRowNumber e0)); [apply IH, Hin|].
    destruct (addExpense ext e0 w) as [[n|x] w1]; [apply IH, Hin|].
    cbn. eexists; reflexivity.
Qed.

(** A run of the loop leaves alone every id whose listed expenses carry
    a row reference or an invalid date. *)
Lemma sync_loop_untouched ext l w id :
  (forall e, In e l -> Expense.id e = id ->
             num_truthy (Expense.sheetsRowNumber e) = true
             \/ Expense.expenseDate e = InvalidDate) ->
  getExpense id (store (snd (sync_loop ext l w))) = getExpense id (store w).
Proof.
  revert w. induction l as [|e l IH]; intros w Hl; cbn [sync_loop];
    [reflexivity|].
  assert (Hl' : forall e0, In e0 l -> Expense.id e0 = id ->
                  num_truthy (Expense.sheetsRowNumber e0) = true
                  \/ Expense.expenseDate e0 = InvalidDate)
    by (intros e0 Hin; apply Hl; right; exact Hin).
  destruct (num_truthy (Expense.sheetsRowNumber e)) eqn:Ht; [apply IH, Hl'|].
  destruct (Z.eq_dec id (Expense.id e)) as [E|Hne].
  - destruct (Hl e (or_introl eq_refl) (eq_sym E)) as [H|H]; [congruence|].
    unfold addExpense. rewrite H. reflexivity.
  - destruct (addExpense_effect ext e w) as (more & _ & Hother & _).
    destruct (Hother id Hne) as (_ & _ & Hg).
    destruct (addExpense ext e w) as [[n|x] w1]; cbn [snd] in *.
    + rewrite (IH w1 Hl'). exact Hg.
    + exact Hg.
Qed.

(** X11. One stored expense with an invalid expense date and no row
    reference makes every synchronisation run fail, whatever the ledger
    answers: the run ends with an error, the route of an admin answers
    500, and the expense is left as it was, so the next run fails
    again. *)
Theorem syncExpensesToSheet_blocked_by_invalid_date :
  forall (ext : External) (w : World) (id : Z) (e : Expense.t),
    getExpense id (store w) = Some e ->
    Expense.expenseDate e = InvalidDate ->
    num_truthy (Expense.sheetsRowNumber e) = false ->
    (exists x, fst (syncExpensesToSheet ext w) = Throw x)
    /\ (forall userId, is_admin (getUser userId (store w)) = true ->
          code (fst (postSyncSheets ext userId w)) = 500)
    /\ (store_ok (store w) ->
        getExpense id (store (snd (syncExpensesToSheet ext w))) = Some e).
Proof.
  intros ext w id e Hget Hdate Hrow.
  assert (Hin : In e (getAllExpenses (store w))).
  { unfold getAllExpenses. apply In_Array_sort. unfold Map_values.
    apply in_map_iff. exists (id, e). split; [reflexivity|].
    apply (Map_get_In Z.eqb Zeqb_eq), Hget. }
  destruct (sync_loop_blocked ext e _ Hin Hdate Hrow w) as [x Hx].
  assert (Hrun : exists x, fst (syncExpensesToSheet ext w) = Throw x).
  { unfold syncExpensesToSheet.
    destruct (sync_loop ext (getAllExpenses (store w)) w) as [[u|y] w1];
      cbn in *; [discriminate | eexists; reflexivity]. }
  split; [exact Hrun|]. split.
  - intros userId Hadmin. unfold postSyncSheets. rewrite Hadmin.
    destruct Hrun as [y Hy].
    destruct (syncExpensesToSheet ext w) as [[u|z] w1]; cbn in *;
      [discriminate | reflexivity].
  - intros Hok. rewrite store_syncExpensesToSheet, <- Hget.
    apply sync_loop_untouched. intros e0 Hin0 Hid0. right.
    pose proof (getAllExpenses_stored _ e0 Hok Hin0) as H0.
    rewrite Hid0, Hget in H0. injection H0 as <-. exact Hdate.
Qed.

Lemma syncExpensesToSheet_blocked_by_invalid_date_witness :
  code (fst (postSyncSheets all_up 1 undated_posted)) = 500.
Proof.
  destruct (getExpense 4 (store undated_posted)) as [e|] eqn:E;
    [|vm_compute in E; discriminate].
  refine (proj1 (proj2 (syncExpensesToSheet_blocked_by_invalid_date all_up
                          undated_posted 4 e E _ _)) 1 _).
  - vm_compute in E. injection E as <-. reflexivity.
  - vm_compute in E. injection E as <-. reflexivity.
  - vm_compute. reflexivity.
Defined.

(* ================================================================== *)
(** * The notification queue                                        *)
(* ================================================================== *)

Lemma NoDup_map_filter {A B} (f : A -> B) (p : A -> bool) l :
  NoDup (map f l) -> NoDup (map f (filter p l)).
Proof.
  induction l as [|a l IH]; cbn; intros H; [constructor|].
  inversion H as [|? ? Hnotin Hnd]; subst.
  destruct (p a); cbn; [|apply IH, Hnd].
  constructor; [|apply IH, Hnd].
  intros Hin. apply Hnotin. apply in_map_iff in Hin.
  destruct Hin as (x & Hx & Hin). apply filter_In in Hin.
  rewrite <- Hx. apply in_map, Hin.
Qed.

Lemma filter_none {A} (p : A -> bool) l :
  (forall a, In a l -> p a = false) -> filter p l = [].
Proof.
  induction l as [|a l IH]; cbn; intros H; [reflexivity|].
  rewrite (H a (or_introl eq_refl)). apply IH. intros b Hb. apply H.
  right; exact Hb.
Qed.

(** What one approval notification does to the store when mail goes
    through. *)
Lemma sendApprovalNotification_effect ext e w :
  mail_accepted ext ->
  (forall id, id <> Expense.id e ->
     getExpense id (store (sendApprovalNotification ext e w))
     = getExpense id (store w))
  /\ (Expense.expenseDate e = InvalidDate ->
      store (sendApprovalNotification ext e w) = store w)
  /\ ((exists ms, Expense.expenseDate e = DateOf ms) ->
      forall cur, getExpense (Expense.id e) (store w) = Some cur ->
        getExpense (Expense.id e) (store (sendApprovalNotification ext e w))
        = Some (merge cur (just_notificationSent true))).
Proof.
  intros Hmail. unfold sendApprovalNotification, generateApprovalEmailBody.
  destruct (Expense.expenseDate e) as [ms|]; cbn [toISOString].
  - unfold sendNotificationEmail. rewrite Hmail.
    cbn [store emit with_store snd]. split; [|split].
    + intros id Hne. unfold updateExpense, getExpense.
      destruct (Map_get Z.eqb (Expense.id e) (MemStorage.expenses (store w)));
        [|reflexivity].
      cbn [snd set_expenses MemStorage.expenses].
      apply (Map_get_set_other Z.eqb Zeqb_eq), Hne.
    + discriminate.
    + intros _ cur Hcur. unfold updateExpense. unfold getExpense in *.
      rewrite Hcur. cbn [snd set_expenses MemStorage.expenses].
      apply (Map_get_set_same Z.eqb Zeqb_eq).
  - cbn [store emit]. split; [reflexivity|]. split; [reflexivity|].
    intros [ms Hms]. discriminate.
Qed.

Lemma notify_each ext l :
  mail_accepted ext ->
  forall w,
    NoDup (map Expense.id l) ->
    (forall e, In e l -> getExpense (Expense.id e) (store w) = Some e) ->
    let w' := fold_left (fun w' e => sendApprovalNotification ext e w') l w in
    (forall id, ~ In id (map Expense.id l) ->
       getExpense id (store w') = getExpense id (store w))
    /\ (forall e, In e l -> Expense.expenseDate e = InvalidDate ->
          getExpense (Expense.id e) (store w') = Some e)
    /\ (forall e, In e l -> (exists ms, Expense.expenseDate e = DateOf ms) ->
          getExpense (Expense.id e) (store w')
          = Some (merge e (just_notificationSent true))).
Proof.
  intros Hmail. induction l as [|e l IH]; intros w Hnd Hst; cbn zeta.
  - cbn. split; [reflexivity|]. split; intros e [].
  - inversion Hnd as [|? ? Hnotin Hnd']; subst. cbn [fold_left].
    destruct (sendApprovalNotification_effect ext e w Hmail) as (Hother & Hbad & Hgood).
    set (w1 := sendApprovalNotification ext e w) in *.
    assert (Hst1 : forall e0, In e0 l ->
                     getExpense (Expense.id e0) (store w1) = Some e0).
    { intros e0 Hin. rewrite Hother; [apply Hst; right; exact Hin|].
      intros E. apply Hnotin. rewrite <- E. apply in_map, Hin. }
    destruct (IH w1 Hnd' Hst1) as (A & B & C). cbn zeta in A, B, C.
    split; [|split].
    + intros id Hid. rewrite A; [apply Hother|];
        intros H; apply Hid; cbn [map]; [left; symmetry; exact H | right; exact H].
    + intros e0 [<-|Hin] Hd; [|apply B; assumption].
      rewrite (A _ Hnotin). rewrite (Hbad Hd). apply Hst. left; reflexivity.
    + intros e0 [<-|Hin] Hd; [|apply C; assumption].
      rewrite (A _ Hnotin). apply (Hgood Hd). apply Hst. left; reflexivity.
Qed.

(** X12. With mail going through, one pass over the notification
    queue flags every decided, unflagged expense that has a valid
    expense date, and changes nothing else in it; a decided expense with
    an invalid expense date stays unflagged without holding up the
    others; pending and flagged expenses are left alone. When nothing
    awaits a mail the pass does nothing, and after a pass over valid
    dates a second pass does nothing. *)
Theorem processNotificationQueue_drains :
  forall (ext : External) (w : World),
    store_ok (store w) ->
    mail_accepted ext ->
    let w' := processNotificationQueue ext w in
    (forall id e, getExpense id (store w) = Some e ->
       awaits_mail e = true ->
       (exists ms, Expense.expenseDate e = DateOf ms) ->
       getExpense id (store w') = Some (merge e (just_notificationSent true)))
    /\ (forall id e, getExpense id (store w) = Some e ->
          awaits_mail e = true ->
          Expense.expenseDate e = InvalidDate ->
          getExpense id (store w') = Some e)
    /\ (forall id e, getExpense id (store w) = Some e ->
          awaits_mail e = false ->
          getExpense id (store w') = Some e)
    /\ ((forall e, In e (Map_values (MemStorage.expenses (store w))) ->
                   awaits_mail e = false) ->
        w' = w)
    /\ (dates_valid (store w) -> processNotificationQueue ext w' = w').
Proof.
  intros ext w Hok Hmail. cbn zeta. unfold processNotificationQueue.
  change (fun expense : Expense.t =>
            negb (Expense.notificationSent expense)
            && negb (String.eqb (Expense.status expense) "pending"))
    with awaits_mail.
  set (l := filter awaits_mail (getAllExpenses (store w))).
  assert (Hnd : NoDup (map Expense.id l))
    by (apply NoDup_map_filter, getAllExpenses_ids, Hok).
  assert (Hst : forall e, In e l -> getExpense (Expense.id e) (store w) = Some e).
  { intros e Hin. apply filter_In in Hin. destruct Hin as [Hin _].
    apply getAllExpenses_stored; assumption. }
  destruct (notify_each ext l Hmail w Hnd Hst) as (A & B & C). cbn zeta in A, B, C.
  assert (Hlisted : forall id e, getExpense id (store w) = Some e ->
                      awaits_mail e = true -> In e l /\ Expense.id e = id).
  { intros id e Hget Haw. unfold getExpense in Hget.
    apply (Map_get_In Z.eqb Zeqb_eq) in Hget. split.
    - apply filter_In. split; [|exact Haw]. unfold getAllExpenses.
      apply In_Array_sort. unfold Map_values. apply in_map_iff.
      exists (id, e). split; [reflexivity | exact Hget].
    - destruct Hok as [_ Hr]. rewrite Forall_forall in Hr.
      apply (Hr _ Hget). }
  assert (Hgood : forall id e, getExpense id (store w) = Some e ->
                    awaits_mail e = true ->
                    (exists ms, Expense.expenseDate e = DateOf ms) ->
                    getExpense id
                      (store (fold_left
                                (fun w' e => sendApprovalNotification ext e w') l w))
                    = Some (merge e (just_notificationSent true))).
  { intros id e Hget Haw Hd. destruct (Hlisted id e Hget Haw) as [Hin <-].
    apply C; assumption. }
  assert (Hrest : forall id e, getExpense id (store w) = Some e ->
                    awaits_mail e = false ->
                    getExpense id
                      (store (fold_left
                                (fun w' e => sendApprovalNotification ext e w') l w))
                    = Some e).
  { intros id e Hget Haw. rewrite A; [exact Hget|].
    intros Hin. apply in_map_iff in Hin. destruct Hin as (e0 & Hid & Hin).
    pose proof (Hst e0 Hin) as H0. rewrite Hid, Hget in H0.
    injection H0 as <-. apply filter_In in Hin. destruct Hin as [_ H1].
    congruence. }
  split; [exact Hgood|]. split; [|split; [exact Hrest|split]].
  - intros id e Hget Haw Hd. destruct (Hlisted id e Hget Haw) as [Hin <-].
    apply B; assumption.
  - intros Hnone. subst l. rewrite filter_none; [reflexivity|].
    intros e Hin. apply Hnone. unfold getAllExpenses in Hin.
    apply In_Array_sort in Hin. exact Hin.
  - intros Hdates.
    pose proof (processNotificationQueue_gentle ext w) as Hg.
    unfold processNotificationQueue in Hg.
    change (fun expense : Expense.t =>
              negb (Expense.notificationSent expense)
              && negb (String.eqb (Expense.status expense) "pending"))
      with awaits_mail in Hg.
    fold l in Hg.
    set (w1 := fold_left (fun w' e => sendApprovalNotification ext e w') l w) in *.
    rewrite filter_none; [reflexivity|].
    intros e1 Hin1. unfold getAllExpenses in Hin1. apply In_Array_sort in Hin1.
    unfold Map_values in Hin1. apply in_map_iff in Hin1.
    destruct Hin1 as ([k e1'] & Heq & Hin1). cbn [snd] in Heq. subst e1'.
    assert (Hok1 : store_ok (store w1)) by apply (gentle_ok w w1 Hg Hok).
    pose proof (In_Map_get Z.eqb Zeqb_eq _ _ _ (proj1 Hok1) Hin1) as Hget1.
    assert (Hkey : In k (Map_keys (MemStorage.expenses (store w)))).
    { destruct Hg as [(_ & _ & _ & _ & _ & Hcore) _].
      rewrite <- keys_store_core, <- Hcore, keys_store_core.
      unfold Map_keys. apply in_map_iff. exists (k, e1).
      split; [reflexivity | exact Hin1]. }
    unfold Map_keys in Hkey. apply in_map_iff in Hkey.
    destruct Hkey as ([k0 e0] & Hk & Hin0). cbn [fst] in Hk. subst k0.
    pose proof (In_Map_get Z.eqb Zeqb_eq _ _ _ (proj1 Hok) Hin0) as Hget0.
    destruct (awaits_mail e0) eqn:Haw.
    + assert (Hd : exists ms, Expense.expenseDate e0 = DateOf ms).
      { apply Hdates. unfold Map_values. apply in_map_iff.
        exists (k, e0). split; [reflexivity | exact Hin0]. }
      pose proof (Hgood k e0 Hget0 Haw Hd) as H. unfold getExpense in H.
      rewrite Hget1 in H. injection H as ->. reflexivity.
    + pose proof (Hrest k e0 Hget0 Haw) as H. unfold getExpense in H.
      rewrite Hget1 in H. injection H as ->. exact Haw.
Qed.

Lemma all_up_mail_accepted : mail_accepted all_up.
Proof. intros evs to subject body. reflexivity. Qed.

Lemma processNotificationQueue_drains_witness :
  store_ok (store decided_unmailed)
  /\ mail_accepted all_up
  /\ option_map Expense.notificationSent
       (getExpense 1 (store decided_unmailed)) = Some false
  /\ option_map Expense.notificationSent
       (getExpense 1 (store (processNotificationQueue all_up decided_unmailed)))
     = Some true.
Proof.
  assert (Hok : store_ok (store decided_unmailed)).
  { apply (reachable_ok mail_down). eapply reach_step;
      [apply seeded_reachable | apply step_patchExpenseStatus]. }
  split; [exact Hok|]. split; [exact all_up_mail_accepted|].
  split; [vm_compute; reflexivity|].
  destruct (processNotificationQueue_drains all_up decided_unmailed Hok
              all_up_mail_accepted) as (H & _).
  destruct (getExpense 1 (store decided_unmailed)) as [e|] eqn:E;
    [|vm_compute in E; discriminate].
  rewrite (H 1 e E).
  - reflexivity.
  - vm_compute in E. injection E as <-. reflexivity.
  - vm_compute in E. injection E as <-. eexists; reflexivity.
Defined.

(* ================================================================== *)
(** * Sessions, login and registration                              *)
(* ================================================================== *)

Lemma substring_all s : substring 0 (String.length s) s = s.
Proof. induction s as [|c s IH]; cbn; [reflexivity | rewrite IH; reflexivity]. Qed.

Lemma remove_first_prefix t : remove_first "Bearer " ("Bearer " ++ t) = t.
Proof.
  assert (Hp : prefix "" t = true) by (destruct t; reflexivity).
  assert (Hi : String.index 0 "Bearer " ("Bearer " ++ t) = Some 0%nat)
    by (cbn; rewrite Hp; reflexivity).
  unfold remove_first. rewrite Hi. cbn. rewrite Nat.sub_0_r. apply substring_all.
Qed.

Lemma truthy_nonempty s : truthy (Some s) = negb (String.eqb s "").
Proof. destruct s; reflexivity. Qed.

Lemma requireAuth_sessionId t sessions :
  requireAuth (Some ("Bearer " ++ t)) sessions
  = if String.eqb t "" then None else Map_get String.eqb t sessions.
Proof.
  unfold requireAuth. cbn [option_map]. rewrite remove_first_prefix.
  rewrite truthy_nonempty. destruct (String.eqb t ""); reflexivity.
Qed.

(** X13. The session of a request is looked up under the text of the
    [Authorization] header with its first ["Bearer "] removed: the token
    after the scheme, and just as well a bare token sent without the
    scheme. No header, and an empty token, are refused even when a
    session is filed under the empty token. *)
Theorem requireAuth_token :
  forall (t : string) (sessions : list (string * Session.t)),
    requireAuth None sessions = None
    /\ requireAuth (Some "Bearer ") sessions = None
    /\ requireAuth (Some "") sessions = None
    /\ (t <> "" ->
        requireAuth (Some ("Bearer " ++ t)) sessions
        = Map_get String.eqb t sessions)
    /\ (t <> "" -> String.index 0 "Bearer " t = None ->
        requireAuth (Some t) sessions = Map_get String.eqb t sessions).
Proof.
  intros t sessions. split; [reflexivity|]. split; [reflexivity|].
  split; [reflexivity|]. split.
  - intros Ht. rewrite requireAuth_sessionId.
    destruct (String.eqb_spec t ""); [contradiction | reflexivity].
  - intros Ht Hidx. unfold requireAuth, remove_first. cbn [option_map].
    rewrite Hidx, truthy_nonempty.
    destruct (String.eqb_spec t ""); [contradiction | reflexivity].
Qed.

Lemma requireAuth_token_witness :
  requireAuth (Some "k3j9x2")
    [("k3j9x2", Session.mk 3 "sarah@agency.com" 1750700000000)]
  = Some (Session.mk 3 "sarah@agency.com" 1750700000000).
Proof.
  rewrite (proj2 (proj2 (proj2 (proj2 (requireAuth_token "k3j9x2"
             [("k3j9x2", Session.mk 3 "sarah@agency.com" 1750700000000)])))));
    [reflexivity | discriminate | reflexivity].
Defined.

Lemma users_lookup st u :
  users_ok st -> NoDup (Map_keys (MemStorage.users st)) ->
  In u (Map_values (MemStorage.users st)) ->
  getUser (User.id u) st = Some u.
Proof.
  intros Hok Hnd Hin. unfold Map_values in Hin. apply in_map_iff in Hin.
  destruct Hin as ([k u0] & Heq & Hin). cbn [snd] in Heq. subst u0.
  unfold users_ok in Hok. rewrite Forall_forall in Hok.
  destruct (Hok _ Hin) as [_ Hid]. cbn [fst snd] in Hid. rewrite Hid.
  apply (In_Map_get Z.eqb Zeqb_eq); assumption.
Qed.

(** X14. Logging in never touches the store. An address no user has is
    answered 401 and nothing changes. For the address of a user the
    answer is 200 with the token and that user, the other sessions stay,
    and from then on the token (if not empty) authenticates as that
    user: [GET /api/auth/me] answers 200 with the same user. *)
Theorem handleLogin_opens_session :
  forall (sessionId : string) (now : Z) (email : option string) (sv : Server),
    let r := handleLogin sessionId now email sv in
    memory (snd r) = memory sv
    /\ (auth_code (fst r) = 200 \/ auth_code (fst r) = 401)
    /\ (auth_code (fst r) = 401 ->
        snd r = sv
        /\ forall e, email = Some e -> getUserByEmail e (memory sv) = None)
    /\ (auth_code (fst r) = 200 ->
        exists u,
          In u (Map_values (MemStorage.users (memory sv)))
          /\ email = Some (User.email u)
          /\ auth_payload (fst r) = ASession sessionId (view u)
          /\ (forall t, t <> sessionId ->
                Map_get String.eqb t (sessions (snd r))
                = Map_get String.eqb t (sessions sv))
          /\ (sessionId <> "" ->
              requireAuth (Some ("Bearer " ++ sessionId)) (sessions (snd r))
              = Some (Session.mk (User.id u) (User.email u) now))
          /\ (sessionId <> "" ->
              users_ok (memory sv) ->
              NoDup (Map_keys (MemStorage.users (memory sv))) ->
              getMe (Some ("Bearer " ++ sessionId)) (snd r)
              = mkAuthResponse 200 (AUser (view u)))).
Proof.
  intros sessionId now email sv. cbn zeta. unfold handleLogin.
  destruct (match email with
            | Some e => getUserByEmail e (memory sv)
            | None => None
            end) as [u|] eqn:Hu; cbn [fst snd memory sessions auth_code auth_payload].
  - split; [reflexivity|]. split; [left; reflexivity|].
    split; [discriminate|]. intros _.
    destruct email as [e|]; [|discriminate].
    unfold getUserByEmail in Hu. apply find_some in Hu.
    destruct Hu as [Hin He]. apply String.eqb_eq in He.
    assert (Hreq : sessionId <> "" ->
              requireAuth (Some ("Bearer " ++ sessionId))
                (Map_set String.eqb sessionId
                   (Session.mk (User.id u) (User.email u) now) (sessions sv))
              = Some (Session.mk (User.id u) (User.email u) now)).
    { intros Hne. rewrite requireAuth_sessionId.
      destruct (String.eqb_spec sessionId ""); [contradiction|].
      apply (Map_get_set_same String.eqb String_eqb_eq). }
    exists u. split; [exact Hin|]. split; [congruence|].
    split; [reflexivity|]. split.
    { intros t Ht. apply (Map_get_set_other String.eqb String_eqb_eq), Ht. }
    split; [exact Hreq|].
    intros Hne Hok Hnd. unfold getMe. cbn [sessions memory].
    rewrite (Hreq Hne). cbn [Session.userId].
    rewrite (users_lookup _ _ Hok Hnd Hin). reflexivity.
  - split; [reflexivity|]. split; [right; reflexivity|].
    split; [|discriminate]. intros _. split; [reflexivity|].
    intros e ->. exact Hu.
Qed.

Lemma handleLogin_opens_session_witness :
  getMe (Some "Bearer k3j9x2")
    (snd (handleLogin "k3j9x2" 1750700020000 (Some "sarah@agency.com")
            seeded_server))
  = mkAuthResponse 200
      (AUser (UserView.mk 3 "sarah@agency.com" "Sarah Miller" "employee"
                (Some "Marketing"))).
Proof.
  destruct (handleLogin_opens_session "k3j9x2" 1750700020000
              (Some "sarah@agency.com") seeded_server) as (_ & _ & _ & H).
  destruct (H ltac:(reflexivity)) as (u & _ & _ & Hp & _ & _ & Hme).
  assert (Hv : view u
               = UserView.mk 3 "sarah@agency.com" "Sarah Miller" "employee"
                   (Some "Marketing")).
  { apply (f_equal (fun p => match p with
                             | ASession _ v => v
                             | _ => view u
                             end)) in Hp.
    symmetry. exact Hp. }
  change (Some "Bearer k3j9x2") with (Some ("Bearer " ++ "k3j9x2")).
  rewrite Hme.
  - rewrite Hv. reflexivity.
  - discriminate.
  - unfold users_ok. vm_compute. repeat constructor.
  - vm_compute. repeat constructor; cbn; intuition discriminate.
Defined.

Lemma NoDup_snoc {A} (l : list A) a :
  NoDup l -> ~ In a l -> NoDup (l ++ [a]).
Proof.
  induction l as [|x l IH]; cbn; intros Hnd Hin.
  - constructor; [tauto | constructor].
  - inversion Hnd as [|? ? Hx Hl]; subst. constructor.
    + intros H. apply in_app_or in H. destruct H as [H|[H|[]]]; [tauto|].
      apply Hin. left; symmetry; exact H.
    + apply IH; [exact Hl | tauto].
Qed.

(** X15. Registration answers 400 exactly when the address or the name
    is missing or empty, 409 exactly when both are given and a user
    already has the address, and 200 exactly when both are given and the
    address is free; 400 and 409 change nothing. With 200 the new user
    is added after the earlier users, who all stay as they were; it
    takes the next id, has the role "employee" whatever was sent, and so
    may not decide; the address finds the new user; a session is opened
    for it under the token; no expense changes. Unlike [createUser]
    alone, registration keeps the addresses of the users distinct. *)
Theorem handleRegister_creates_employee :
  forall (sessionId : string) (now later : Z)
         (email name department : option string) (sv : Server),
    users_ok (memory sv) ->
    emails_unique (memory sv) ->
    let r := handleRegister sessionId now later email name department sv in
    (auth_code (fst r) = 200 \/ auth_code (fst r) = 400
     \/ auth_code (fst r) = 409)
    /\ (auth_code (fst r) <> 200 -> snd r = sv)
    /\ (auth_code (fst r) = 400 <-> truthy email && truthy name = false)
    /\ (auth_code (fst r) = 409 <->
        truthy email && truthy name = true
        /\ exists u, getUserByEmail (or_empty email) (memory sv) = Some u)
    /\ (auth_code (fst r) = 200 <->
        truthy email && truthy name = true
        /\ getUserByEmail (or_empty email) (memory sv) = None)
    /\ (auth_code (fst r) = 200 ->
        exists u,
          auth_payload (fst r) = ASession sessionId (view u)
          /\ User.id u = MemStorage.currentUserId (memory sv)
          /\ getUser (User.id u) (memory (snd r)) = Some u
          /\ email = Some (User.email u)
          /\ name = Some (User.name u)
          /\ User.role u = "employee"
          /\ may_decide (Some u) = false
          /\ getUserByEmail (User.email u) (memory (snd r)) = Some u
          /\ MemStorage.expenses (memory (snd r))
             = MemStorage.expenses (memory sv)
          /\ MemStorage.users (memory (snd r))
             = (MemStorage.users (memory sv) ++ [(User.id u, u)])%list
          /\ (forall k u0, getUser k (memory sv) = Some u0 ->
                getUser k (memory (snd r)) = Some u0)
          /\ sessions (snd r)
             = Map_set String.eqb sessionId
                 (Session.mk (User.id u) (User.email u) later) (sessions sv))
    /\ users_ok (memory (snd r))
    /\ emails_unique (memory (snd r)).
Proof.
  intros sessionId now later email name department sv Hok Huniq. cbn zeta.
  unfold handleRegister.
  destruct (truthy email) eqn:Te; cbn [negb orb andb].
  2:{ cbn. split; [tauto|]. split; [reflexivity|].
      split; [tauto|].
      split; [split; [discriminate | intros [H _]; discriminate H]|].
      split; [split; [discriminate | intros [H _]; discriminate H]|].
      split; [discriminate|]. split; assumption. }
  destruct (truthy name) eqn:Tn; cbn [negb orb andb].
  2:{ cbn. split; [tauto|]. split; [reflexivity|].
      split; [tauto|].
      split; [split; [discriminate | intros [H _]; discriminate H]|].
      split; [split; [discriminate | intros [H _]; discriminate H]|].
      split; [discriminate|]. split; assumption. }
  destruct (getUserByEmail (or_empty email) (memory sv)) as [u0|] eqn:Hfind.
  { cbn. split; [tauto|]. split; [reflexivity|].
    split; [split; discriminate|].
    split; [split; [intros _; split; [reflexivity|]; exists u0; reflexivity
                   | reflexivity]|].
    split; [split; [discriminate | intros [_ H]; discriminate H]|].
    split; [discriminate|]. split; assumption. }
  set (ins := InsertUser.mk (or_empty email) (or_empty name)
                (or_null department) (Some "employee") None).
  pose proof (createUser_users now ins (memory sv) Hok) as Hus.
  pose proof (createUser_users_ok now ins (memory sv) Hok) as Hok'.
  assert (Hexp : MemStorage.expenses (snd (createUser now ins (memory sv)))
                 = MemStorage.expenses (memory sv)) by reflexivity.
  assert (Hshape : fst (createUser now ins (memory sv))
                   = User.mk (MemStorage.currentUserId (memory sv))
                       (or_empty email) (or_empty name)
                       (or_null (or_null department)) "employee" true now)
    by reflexivity.
  assert (Hget : getUser (MemStorage.currentUserId (memory sv))
                   (snd (createUser now ins (memory sv)))
                 = Some (fst (createUser now ins (memory sv)))).
  { unfold getUser. cbn [createUser snd fst set_users MemStorage.users].
    apply (Map_get_set_same Z.eqb Zeqb_eq). }
  assert (Hkeep : forall k u0, getUser k (memory sv) = Some u0 ->
                    getUser k (snd (createUser now ins (memory sv))) = Some u0).
  { intros k u0 Hk. unfold getUser in *.
    cbn [createUser snd set_users MemStorage.users].
    rewrite (Map_get_set_other Z.eqb Zeqb_eq); [exact Hk|].
    intros ->. rewrite (users_fresh_key _ Hok) in Hk. discriminate. }
  destruct (createUser now ins (memory sv)) as [u st]. cbn [fst snd] in *.
  cbn [fst snd memory sessions auth_code auth_payload].
  assert (Hemail : email = Some (User.email u)).
  { rewrite Hshape. cbn. destruct email as [[|c s]|]; try discriminate.
    reflexivity. }
  assert (Hname : name = Some (User.name u)).
  { rewrite Hshape. cbn. destruct name as [[|c s]|]; try discriminate.
    reflexivity. }
  assert (Hmail : User.email u = or_empty email) by (rewrite Hshape; reflexivity).
  assert (Hfind' : getUserByEmail (User.email u) st = Some u).
  { unfold getUserByEmail in *. rewrite Hus. unfold Map_values in *.
    rewrite map_app, Hmail, (find_app_none _ _ _ Hfind). cbn [map snd find].
    rewrite <- Hmail, String.eqb_refl. reflexivity. }
  split; [tauto|]. split; [intros H; exfalso; apply H; reflexivity|].
  split; [split; discriminate|].
  split; [split; [discriminate | intros [_ [x H]]; discriminate H]|].
  split; [split; [intros _; split; reflexivity | reflexivity]|].
  split; [|split; [exact Hok'|]].
  - intros _. exists u. split; [reflexivity|].
    split; [rewrite Hshape; reflexivity|].
    split; [rewrite Hshape at 1; exact Hget|].
    split; [exact Hemail|]. split; [exact Hname|].
    split; [rewrite Hshape; reflexivity|].
    split; [rewrite Hshape; reflexivity|].
    split; [exact Hfind'|]. split; [exact Hexp|].
    split; [rewrite Hus; rewrite Hshape at 2; reflexivity|].
    split; [exact Hkeep | reflexivity].
  - unfold emails_unique in *. rewrite Hus. unfold Map_values in *.
    rewrite !map_app. cbn [map snd]. apply NoDup_snoc; [exact Huniq|].
    intros Hin. apply in_map_iff in Hin. destruct Hin as (x & Hx & Hin).
    unfold getUserByEmail, Map_values in Hfind.
    pose proof (find_none _ _ Hfind x Hin) as H. cbn beta in H.
    rewrite Hx, Hmail, String.eqb_refl in H. discriminate.
Qed.

Lemma seeded_server_ok :
  users_ok (memory seeded_server) /\ emails_unique (memory seeded_server).
Proof.
  split.
  - unfold users_ok. vm_compute. repeat constructor.
  - unfold emails_unique. vm_compute.
    repeat constructor; cbn; intuition discriminate.
Qed.

Lemma handleRegister_creates_employee_witness :
  users_ok (memory seeded_server)
  /\ emails_unique (memory seeded_server)
  /\ emails_unique
       (memory (snd (handleRegister "p0q8r7" 1750700030000 1750700030001
                       (Some "lee@agency.com") (Some "Lee Wong") None
                       seeded_server)))
  /\ auth_code
       (fst (handleRegister "q1r2s3" 1750700031000 1750700031001
               (Some "sarah@agency.com") (Some "Sarah M.") None
               seeded_server)) = 409.
Proof.
  destruct seeded_server_ok as [H1 H2].
  split; [exact H1|]. split; [exact H2|]. split.
  - exact (proj2 (proj2 (proj2 (proj2 (proj2 (proj2 (proj2
      (handleRegister_creates_employee "p0q8r7" 1750700030000 1750700030001
         (Some "lee@agency.com") (Some "Lee Wong") None seeded_server
         H1 H2)))))))).
  - apply (proj1 (proj2 (proj2 (proj2
      (handleRegister_creates_employee "q1r2s3" 1750700031000 1750700031001
         (Some "sarah@agency.com") (Some "Sarah M.") None seeded_server
         H1 H2))))).
    split; [reflexivity|]. eexists. vm_compute. reflexivity.
Defined.

(* ================================================================== *)
(** * The listing routes                                            *)
(* ================================================================== *)

Lemma span_digits_all ds :
  Forall (fun c => JS.is_digit c = true) ds ->
  JS.span_digits (string_of_list_ascii ds) = (ds, "").
Proof.
  induction 1 as [|c ds Hc _ IH]; cbn; [reflexivity|].
  rewrite Hc, IH. reflexivity.
Qed.

Lemma digit_cases c :
  JS.is_digit c = true ->
  c = "0"%char \/ c = "1"%char \/ c = "2"%char \/ c = "3"%char
  \/ c = "4"%char \/ c = "5"%char \/ c = "6"%char \/ c = "7"%char
  \/ c = "8"%char \/ c = "9"%char.
Proof.
  destruct c as [[] [] [] [] [] [] [] []]; intros H;
    try discriminate H; tauto.
Qed.

(** A text that starts with an ASCII character other than white space
    has no white space to skip. *)
Lemma skip_spaces_head c r :
  JS.is_space c = false -> (nat_of_ascii c <? 128)%nat = true ->
  JS.skip_spaces (String c r) = String c r.
Proof.
  intros H Hascii. apply Nat.ltb_lt in Hascii.
  assert (H2 : forall d, JS.is_space2 c d = false).
  { intros d. unfold JS.is_space2.
    destruct (Nat.eqb_spec (nat_of_ascii c) 194); [lia | reflexivity]. }
  assert (H3 : forall d e, JS.is_space3 c d e = false).
  { intros d e. unfold JS.is_space3.
    destruct (Nat.eqb_spec (nat_of_ascii c) 225); [lia|].
    destruct (Nat.eqb_spec (nat_of_ascii c) 226); [lia|].
    destruct (Nat.eqb_spec (nat_of_ascii c) 227); [lia|].
    destruct (Nat.eqb_spec (nat_of_ascii c) 239); [lia | reflexivity]. }
  cbn [JS.skip_spaces]. rewrite H.
  destruct r as [|d r2]; [reflexivity|]. rewrite H2.
  destruct r2 as [|e r3]; [reflexivity|]. rewrite H3. reflexivity.
Qed.

(** [parseInt] reads a text made of decimal digits as the number they
    write. *)
Lemma parseInt_digits c ds :
  Forall (fun c => JS.is_digit c = true) (c :: ds) ->
  parseInt (string_of_list_ascii (c :: ds)) = Some (JS.digits_value (c :: ds))
  /\ parseInt (String "-" (string_of_list_ascii (c :: ds)))
     = Some (- JS.digits_value (c :: ds)).
Proof.
  intros H. inversion H as [|? ? Hc Hds]; subst.
  pose proof (span_digits_all _ H) as Hall.
  cbn [string_of_list_ascii] in *.
  assert (Hminus : forall r, JS.skip_spaces (String "-" r) = String "-" r)
    by (intros r; apply skip_spaces_head; reflexivity).
  destruct (digit_cases c Hc) as [->|Hrest].
  - destruct ds as [|x ds].
    + split; reflexivity.
    + inversion Hds as [|? ? Hx _]; subst.
      cbn [string_of_list_ascii] in *.
      assert (Hnox : (Ascii.eqb x "x" || Ascii.eqb x "X")%bool = false).
      { destruct (digit_cases x Hx) as [->|[->|[->|[->|[->|[->|[->|[->|[->| ->]]]]]]]]];
          reflexivity. }
      unfold parseInt. rewrite Hminus.
      rewrite (skip_spaces_head "0" _ eq_refl eq_refl).
      cbv iota beta zeta. rewrite Hnox, Hall. split; reflexivity.
  - unfold parseInt. rewrite Hminus.
    assert (Hc' : JS.is_space c = false /\ (nat_of_ascii c <? 128)%nat = true)
      by (destruct Hrest as [->|[->|[->|[->|[->|[->|[->|[->| ->]]]]]]]];
          split; reflexivity).
    rewrite (skip_spaces_head c _ (proj1 Hc') (proj2 Hc')).
    destruct Hrest as [->|[->|[->|[->|[->|[->|[->|[->| ->]]]]]]]];
      cbv iota beta zeta; rewrite Hall; split; reflexivity.
Qed.

Lemma parseInt_Z_toString n : parseInt (Z_toString n) = Some n.
Proof.
  unfold Z_toString. destruct (Z.ltb_spec n 0) as [Hneg|Hpos].
  - destruct (Z_digits_spec (- n) ltac:(lia)) as (ds & Hds & Hval & Hne & ->).
    destruct ds as [|c ds]; [congruence|].
    change ("-" ++ ?s) with (String "-" s).
    rewrite (proj2 (parseInt_digits c ds Hds)), Hval. f_equal. lia.
  - destruct (Z_digits_spec n Hpos) as (ds & Hds & Hval & Hne & ->).
    destruct ds as [|c ds]; [congruence|].
    rewrite (proj1 (parseInt_digits c ds Hds)), Hval. reflexivity.
Qed.

Lemma Z_toString_nonempty n : truthy (Some (Z_toString n)) = true.
Proof.
  unfold Z_toString. destruct (Z.ltb_spec n 0) as [Hneg|Hpos]; [reflexivity|].
  destruct (Z_digits_spec n Hpos) as (ds & _ & _ & Hne & ->).
  destruct ds; [congruence | reflexivity].
Qed.

(** X16. Which expenses [GET /api/expenses] lists. A status in the
    query wins: the expenses with that status, whoever asks. Without
    one, a user who names their own id gets their own expenses; and
    any other request, such as one naming the id of somebody else,
    gets the expenses of everybody. *)
Theorem selectExpenses_cases :
  forall (status employee : option string) (userId : Z) (st : MemStorage.t),
    (truthy status = true ->
       selectExpenses status employee userId st
       = getExpensesByStatus (or_empty status) st)
    /\ (truthy status = false -> employee = Some (Z_toString userId) ->
        selectExpenses status employee userId st
        = getExpensesByEmployee userId st)
    /\ (truthy status = false -> employee <> Some (Z_toString userId) ->
        selectExpenses status employee userId st = getAllExpenses st).
Proof.
  intros status employee userId st. unfold selectExpenses.
  split; [intros ->; reflexivity|]. split.
  - intros -> ->. rewrite Z_toString_nonempty. cbn [or_empty andb].
    rewrite String.eqb_refl, parseInt_Z_toString. reflexivity.
  - intros -> Hne. destruct employee as [s|]; [|reflexivity].
    cbn [or_empty]. destruct (String.eqb_spec (Z_toString userId) s) as [E|E].
    + exfalso. apply Hne. rewrite E. reflexivity.
    + rewrite andb_false_r. reflexivity.
Qed.

Lemma selectExpenses_cases_witness :
  selectExpenses None (Some "4") 3 (store (seeded 1750700000000))
  = getAllExpenses (store (seeded 1750700000000)).
Proof.
  apply (proj2 (proj2 (selectExpenses_cases None (Some "4") 3
                         (store (seeded 1750700000000)))));
    [reflexivity | discriminate].
Defined.

Lemma formatExpenses_spec l :
  match formatExpenses l with
  | Ok fs =>
      map formatted_expense fs = l
      /\ Forall (fun f =>
                   formattedAmount f
                   = "$" ++ JS.toFixed 2
                              (JS.parseFloat (Expense.amount (formatted_expense f)))
                   /\ Expense.expenseDate (formatted_expense f)
                      = DateOf (formattedDate f)) fs
  | Throw x =>
      x = RangeError
      /\ exists e, In e l /\ Expense.expenseDate e = InvalidDate
  end.
Proof.
  induction l as [|e l IH]; cbn [formatExpenses].
  - split; [reflexivity | constructor].
  - unfold formatExpense. destruct (Expense.expenseDate e) as [ms|] eqn:Hd;
      cbn [toISOString].
    + destruct (formatExpenses l) as [fs|x].
      * destruct IH as [Hm Hf]. split; [cbn; rewrite Hm; reflexivity|].
        constructor; [|exact Hf]. cbn. split; [reflexivity | exact Hd].
      * destruct IH as [Hx (e0 & Hin & He0)]. split; [exact Hx|].
        exists e0. split; [right; exact Hin | exact He0].
    + split; [reflexivity|]. exists e. split; [left; reflexivity | exact Hd].
Qed.

(** X17. The listing never changes the store. It answers 200 with one
    entry per selected expense, in the order of the selection, each
    with the amount printed with two decimals after a dollar sign and
    with the day of its expense date; or it answers 500, which happens
    exactly when one of the selected expenses has an invalid expense
    date: a single such expense hides the whole listing. *)
Theorem getExpenses_answer :
  forall (status employee : option string) (userId : Z) (w : World),
    let selected := selectExpenses status employee userId (store w) in
    let r := getExpenses status employee userId w in
    store (snd r) = store w
    /\ (list_code (fst r) = 200 \/ list_code (fst r) = 500)
    /\ (list_code (fst r) = 500 <->
        exists e, In e selected /\ Expense.expenseDate e = InvalidDate)
    /\ (list_code (fst r) = 200 ->
        snd r = w
        /\ exists fs,
             list_payload (fst r) = LExpenses fs
             /\ map formatted_expense fs = selected
             /\ forall f, In f fs ->
                  formattedAmount f
                  = "$" ++ JS.toFixed 2
                             (JS.parseFloat
                                (Expense.amount (formatted_expense f)))
                  /\ Expense.expenseDate (formatted_expense f)
                     = DateOf (formattedDate f)).
Proof.
  intros status employee userId w. cbn zeta. unfold getExpenses.
  pose proof (formatExpenses_spec
                (selectExpenses status employee userId (store w))) as S.
  destruct (formatExpenses (selectExpenses status employee userId (store w)))
    as [fs|x]; cbn [fst snd list_code list_payload store emit].
  - destruct S as [Hm Hf]. split; [reflexivity|]. split; [left; reflexivity|].
    split.
    + split; [discriminate|]. intros (e & Hin & He). exfalso.
      rewrite <- Hm in Hin. apply in_map_iff in Hin.
      destruct Hin as (f & <- & Hin). rewrite Forall_forall in Hf.
      destruct (Hf f Hin) as [_ Hd]. congruence.
    + intros _. split; [reflexivity|]. exists fs. split; [reflexivity|].
      split; [exact Hm|]. rewrite Forall_forall in Hf. exact Hf.
  - destruct S as [_ Hbad]. split; [reflexivity|]. split; [right; reflexivity|].
    split; [split; [intros _; exact Hbad | reflexivity] | discriminate].
Qed.

Lemma getExpenses_answer_witness :
  list_code (fst (getExpenses None None 3 undated_posted)) = 500.
Proof.
  apply (proj1 (proj2 (proj2 (getExpenses_answer None None 3 undated_posted)))).
  destruct (getExpense 4 (store undated_posted)) as [e|] eqn:E;
    [|vm_compute in E; discriminate].
  exists e. split.
  - cbn [selectExpenses truthy or_null]. unfold getAllExpenses.
    apply In_Array_sort. unfold Map_values. apply in_map_iff. exists (4, e).
    split; [reflexivity|]. apply (Map_get_In Z.eqb Zeqb_eq), E.
  - vm_compute in E. injection E as <-. reflexivity.
Defined.

(** X18. Reading one expense never changes the store. An id under
    which nothing is stored is answered 404; a stored expense with an
    invalid expense date is answered 500; any other stored expense is
    answered 200 with that expense, its amount printed with two
    decimals and the day of its expense date. *)
Theorem getExpenseById_answer :
  forall (id : Z) (w : World),
    let r := getExpenseById id w in
    store (snd r) = store w
    /\ (getExpense id (store w) = None -> list_code (fst r) = 404 /\ snd r = w)
    /\ (forall e, getExpense id (store w) = Some e ->
          Expense.expenseDate e = InvalidDate -> list_code (fst r) = 500)
    /\ (forall e ms, getExpense id (store w) = Some e ->
          Expense.expenseDate e = DateOf ms ->
          r = (mkListResponse 200
                 (LExpense
                    (mkFormatted e
                       ("$" ++ JS.toFixed 2 (JS.parseFloat (Expense.amount e)))
                       ms)), w)).
Proof.
  intros id w. cbn zeta. unfold getExpenseById, formatExpense.
  destruct (getExpense id (store w)) as [e|].
  - destruct (Expense.expenseDate e) as [ms|] eqn:Hd; cbn.
    + split; [reflexivity|]. split; [discriminate|].
      split; [intros e0 [= <-]; congruence|].
      intros e0 ms0 [= <-] Hd0. congruence.
    + split; [reflexivity|]. split; [discriminate|].
      split; [reflexivity|]. intros e0 ms0 [= <-] Hd0. congruence.
  - cbn. split; [reflexivity|]. split; [split; reflexivity|].
    split; discriminate.
Qed.

Lemma getExpenseById_answer_witness :
  list_code (fst (getExpenseById 9 (seeded 1750700000000))) = 404.
Proof.
  apply (proj1 (proj2 (getExpenseById_answer 9 (seeded 1750700000000)))).
  reflexivity.
Defined.

(* ================================================================== *)
(** * Mails, sheet updates and amounts                              *)
(* ================================================================== *)

(** X19. The notification of a submission never changes the store and
    goes to the two fixed approver addresses, whoever the users of the
    store are: first the manager, then the admin, with the amount in the
    subject. When the mail to the manager is refused the admin is not
    tried; when the expense date is invalid nobody is mailed. *)
Theorem sendExpenseSubmissionNotification_mails :
  forall (ext : External) (e : Expense.t) (w : World),
    let w' := sendExpenseSubmissionNotification ext e w in
    let subject := "New Expense Report Submitted - $" ++ Expense.amount e in
    let mail to := GmailSend to subject (SubmissionBody e) in
    let first :=
      gmail_send ext (log w) "manager@agency.com" subject (SubmissionBody e) in
    store w' = store w
    /\ exists more,
         log w' = (log w ++ more)%list
         /\ (Expense.expenseDate e = InvalidDate -> filter is_mail more = [])
         /\ (Expense.expenseDate e <> InvalidDate -> first = false ->
             filter is_mail more = [mail "manager@agency.com" false])
         /\ (Expense.expenseDate e <> InvalidDate -> first = true ->
             exists second,
               filter is_mail more
               = [mail "manager@agency.com" true;
                  mail "admin@agency.com" second]).
Proof.
  intros ext e w. cbn zeta.
  split; [apply sendExpenseSubmissionNotification_store|].
  unfold sendExpenseSubmissionNotification, generateSubmissionEmailBody,
    getApprovers.
  destruct (Expense.expenseDate e) as [ms|]; cbn [toISOString].
  2:{ eexists. split; [reflexivity|]. split; [reflexivity|].
      split; intros H; exfalso; apply H; reflexivity. }
  cbn [send_to_each fst]. unfold sendNotificationEmail.
  destruct (gmail_send ext (log w) "manager@agency.com"
              ("New Expense Report Submitted - $" ++ Expense.amount e)
              (SubmissionBody e)) eqn:H1.
  - cbn [log emit].
    match goal with
    | |- context [gmail_send ext ?l "admin@agency.com" ?s ?b] =>
        destruct (gmail_send ext l "admin@agency.com" s b) eqn:H2
    end;
      cbn [log emit]; rewrite <- !app_assoc; cbn [app];
      (eexists; split; [reflexivity|]);
      (split; [discriminate|]); (split; [discriminate|]);
      intros _ _; eexists; reflexivity.
  - cbn [log emit]. rewrite <- !app_assoc. cbn [app].
    eexists. split; [reflexivity|]. split; [discriminate|].
    split; [reflexivity | discriminate].
Qed.

Lemma sendExpenseSubmissionNotification_mails_witness :
  exists more,
    log (sendExpenseSubmissionNotification mail_down
           {| Expense.id := 4; Expense.employeeId := 3;
              Expense.employeeName := "Sarah Miller";
              Expense.employeeEmail := "sarah@agency.com";
              Expense.department := Some "Marketing";
              Expense.amount := "42.1";
              Expense.description := "Taxi to the airport";
              Expense.category := "Transportation";
              Expense.expenseDate := DateOf 1750723200000;
              Expense.submissionDate := 1750700006000;
              Expense.status := "pending";
              Expense.approvedBy := None; Expense.approvedByName := None;
              Expense.approvalDate := None; Expense.approvalNote := None;
              Expense.receiptUrl := None; Expense.receiptFileName := None;
              Expense.emailId := None; Expense.formSubmissionId := None;
              Expense.sheetsRowNumber := None;
              Expense.notificationSent := false |}
           (seeded 1750700000000))
    = (log (seeded 1750700000000) ++ more)%list
    /\ List.length (filter is_mail more) = 1%nat.
Proof.
  edestruct (sendExpenseSubmissionNotification_mails mail_down)
    as (_ & more & Hlog & _ & Hone & _).
  exists more. split; [exact Hlog|]. rewrite Hone; [reflexivity | | reflexivity].
  discriminate.
Defined.

Lemma updateExpenseStatus_row now id updates st e :
  getExpense id st = Some e ->
  exists e',
    updateExpenseStatus now id updates st
    = (Some e',
       set_expenses st (Map_set Z.eqb id e' (MemStorage.expenses st))
         (MemStorage.currentExpenseId st))
    /\ Expense.sheetsRowNumber e' = Expense.sheetsRowNumber e
    /\ Expense.status e' = Verdict_text (UpdateExpenseStatus.status updates).
Proof.
  intros H. unfold updateExpenseStatus. unfold getExpense in H. rewrite H.
  eexists. split; [reflexivity|]. split; reflexivity.
Qed.

(** X20. What a decision tells the sheet. A successful decision on an
    expense that carries a row number sends exactly one status update,
    to that row, and its first cell is the verdict; on an expense
    without a row number the sheet is not addressed at all, so the
    decision reaches the sheet only with a later synchronisation. *)
Theorem patchExpenseStatus_sheet_update :
  forall (ext : External) (now userId id : Z) (body : StatusRequest.t)
         (w : World) (e : Expense.t),
    getExpense id (store w) = Some e ->
    let r := patchExpenseStatus ext now userId id body w in
    code (fst r) = 200 ->
    exists more e',
      log (snd r) = (log w ++ more)%list
      /\ payload (fst r) = PExpense e'
      /\ StatusRequest.status body = Some (Expense.status e')
      /\ (num_truthy (Expense.sheetsRowNumber e) = false ->
          filter is_sheet_update more = [])
      /\ (forall n, Expense.sheetsRowNumber e = Some n -> n <> 0 ->
          exists ok,
            filter is_sheet_update more
            = [SheetsUpdate n (status_cells e') ok]
            /\ hd CNull (status_cells e') = CStr (Expense.status e')).
Proof.
  intros ext now userId id body w e Hget. cbn zeta. unfold patchExpenseStatus.
  destruct (getUser userId (store w)) as [u|]; [|discriminate].
  destruct (may_decide (Some u)); [|discriminate].
  assert (Hparse : forall upd, updateExpenseStatusSchema_parse body u = Ok upd ->
            StatusRequest.status body
            = Some (Verdict_text (UpdateExpenseStatus.status upd))).
  { unfold updateExpenseStatusSchema_parse.
    destruct (StatusRequest.status body) as [s|]; [|discriminate].
    destruct (String.eqb_spec s "approved") as [->|_];
      [intros upd [= <-]; reflexivity|].
    destruct (String.eqb_spec s "rejected") as [->|_];
      [intros upd [= <-]; reflexivity | discriminate]. }
  destruct (updateExpenseStatusSchema_parse body u) as [upd|[| |]];
    try discriminate.
  specialize (Hparse upd eq_refl).
  destruct (updateExpenseStatus_row now id upd (store w) e Hget)
    as (e' & -> & Hrow & Hstatus).
  intros _. cbn [fst snd code payload].
  unfold decided_fanout, sheets_updateExpenseStatus. rewrite Hrow.
  assert (Hmail : forall w0, exists tail,
            log (sendApprovalNotification ext e' w0) = (log w0 ++ tail)%list
            /\ filter is_sheet_update tail = []).
  { intros w0. unfold sendApprovalNotification, generateApprovalEmailBody.
    destruct (Expense.expenseDate e'); cbn [toISOString].
    - unfold sendNotificationEmail.
      destruct (gmail_send ext (log w0) (Expense.employeeEmail e')
                  (approval_subject e') (ApprovalBody e'));
        cbn [log emit with_store]; rewrite <- !app_assoc; cbn [app];
        eexists; split; reflexivity.
    - cbn [log emit]. eexists; split; reflexivity. }
  destruct (Expense.sheetsRowNumber e) as [[|p|p]|] eqn:Hn; cbn [num_or_null].
  - destruct (Hmail (emit (Console "warn" "No sheet row number for expense")
                       (with_store
                          (set_expenses (store w)
                             (Map_set Z.eqb id e' (MemStorage.expenses (store w)))
                             (MemStorage.currentExpenseId (store w))) w)))
      as (tail & -> & Ht).
    cbn [log emit with_store]. rewrite <- !app_assoc. cbn [app].
    eexists. exists e'. split; [reflexivity|]. split; [reflexivity|].
    split; [rewrite Hstatus; exact Hparse|]. split.
    + intros _. cbn [filter is_sheet_update]. exact Ht.
    + intros n [= <-] Hne. congruence.
  - destruct (sheets_update ext (log (with_store _ w)) (Z.pos p) (status_cells e'))
      eqn:Hup;
      match goal with
      | |- context [sendApprovalNotification ext e' ?w0] =>
          destruct (Hmail w0) as (tail & -> & Ht)
      end;
      cbn [log emit with_store] in *; rewrite <- !app_assoc; cbn [app];
      (eexists; exists e'; split; [reflexivity|]); (split; [reflexivity|]);
      (split; [rewrite Hstatus; exact Hparse|]);
      (split; [discriminate|]); intros n [= <-] _;
      cbn [filter is_sheet_update]; rewrite Ht;
      eexists; split; reflexivity.
  - destruct (sheets_update ext (log (with_store _ w)) (Z.neg p) (status_cells e'))
      eqn:Hup;
      match goal with
      | |- context [sendApprovalNotification ext e' ?w0] =>
          destruct (Hmail w0) as (tail & -> & Ht)
      end;
      cbn [log emit with_store] in *; rewrite <- !app_assoc; cbn [app];
      (eexists; exists e'; split; [reflexivity|]); (split; [reflexivity|]);
      (split; [rewrite Hstatus; exact Hparse|]);
      (split; [discriminate|]); intros n [= <-] _;
      cbn [filter is_sheet_update]; rewrite Ht;
      eexists; split; reflexivity.
  - destruct (Hmail (emit (Console "warn" "No sheet row number for expense")
                       (with_store
                          (set_expenses (store w)
                             (Map_set Z.eqb id e' (MemStorage.expenses (store w)))
                             (MemStorage.currentExpenseId (store w))) w)))
      as (tail & -> & Ht).
    cbn [log emit with_store]. rewrite <- !app_assoc. cbn [app].
    eexists. exists e'. split; [reflexivity|]. split; [reflexivity|].
    split; [rewrite Hstatus; exact Hparse|]. split.
    + intros _. cbn [filter is_sheet_update]. exact Ht.
    + intros n [= <-].
Qed.

Lemma patchExpenseStatus_sheet_update_witness :
  exists more,
    log (snd (patchExpenseStatus all_up 1750700013000 2 1 approve_request synced))
    = (log synced ++ more)%list
    /\ List.length (filter is_sheet_update more) = 1%nat.
Proof.
  destruct (getExpense 1 (store synced)) as [e|] eqn:E;
    [|vm_compute in E; discriminate].
  destruct (patchExpenseStatus_sheet_update all_up 1750700013000 2 1
              approve_request synced e E ltac:(vm_compute; reflexivity))
    as (more & e' & Hlog & _ & _ & _ & Hrow).
  exists more. split; [exact Hlog|].
  vm_compute in E. injection E as <-.
  destruct (Hrow _ eq_refl ltac:(discriminate)) as (ok & -> & _). reflexivity.
Defined.

(** X21. What it takes for a submission to be accepted, and what is
    stored as its amount. With a known user and no file to upload, a
    request that carries an amount, a description, a category and an
    expense date is answered 201 whatever these texts are, provided the
    id of the user and the sheet row of the request, if it has one,
    fit the integer columns of the schema; when one of them does not,
    the answer is 400 and nothing changes. The stored amount is the
    text of the number read from the submitted amount, so [42.10] is
    stored as [42.1] and a text that is no number as [NaN]; the status
    of the request is ignored. *)
Theorem postExpense_accepts_any_amount_text :
  forall (ext : External) (now userId : Z) (body : ExpenseRequest.t)
         (w : World) (user : User.t) (a d c : string) (day : Date),
    getUser userId (store w) = Some user ->
    truthy (ExpenseRequest.receiptFileData body) = false ->
    calculatedAmount body = Some a ->
    ExpenseRequest.description body = Some d ->
    ExpenseRequest.category body = Some c ->
    ExpenseRequest.expenseDate body = Some day ->
    (integers_fit body user = true ->
     exists e,
       fst (postExpense ext now userId body w) = mkResponse 201 (PExpense e)
       /\ Expense.amount e = JS.Number_toString (JS.parseFloat a)
       /\ (JS.parseFloat a = JS.NaN -> Expense.amount e = "NaN")
       /\ Expense.description e = d
       /\ Expense.category e = c
       /\ Expense.expenseDate e = day
       /\ Expense.status e = "pending")
    /\ (integers_fit body user = false ->
        code (fst (postExpense ext now userId body w)) = 400
        /\ snd (postExpense ext now userId body w) = w).
Proof.
  intros ext now userId body w user a d c day Hu Hfile Ha Hd Hc Hday.
  unfold postExpense, receipt_link. rewrite Hu, Hfile. cbn [andb].
  unfold insertExpenseSchema_parse. rewrite Ha, Hd, Hc, Hday.
  split; intros Hfit; rewrite Hfit.
  - unfold createExpense. cbn [fst InsertExpense.amount Amount_toString].
    eexists. split; [reflexivity|].
    cbn [Expense.amount Expense.description Expense.category
         Expense.expenseDate Expense.status InsertExpense.amount
         InsertExpense.description InsertExpense.category
         InsertExpense.expenseDate Amount_toString].
    split; [reflexivity|]. split; [intros ->; reflexivity|].
    repeat split.
  - split; reflexivity.
Qed.

Lemma postExpense_accepts_any_amount_text_witness :
  exists e,
    fst (postExpense all_up 1750700011000 3 unpriced_request
           (seeded 1750700000000)) = mkResponse 201 (PExpense e)
    /\ Expense.amount e = "NaN".
Proof.
  edestruct (postExpense_accepts_any_amount_text all_up 1750700011000 3
               unpriced_request (seeded 1750700000000))
    as (Hfit & _);
    [reflexivity | reflexivity | reflexivity | reflexivity | reflexivity
     | reflexivity |].
  destruct (Hfit eq_refl) as (e & H1 & _ & H3 & _).
  exists e. split; [exact H1 | apply H3; reflexivity].
Defined.

Lemma add_NaN_l y : JS.add JS.NaN y = JS.NaN.
Proof. destruct y; reflexivity. Qed.

Lemma add_NaN_r x : JS.add x JS.NaN = JS.NaN.
Proof. destruct x; reflexivity. Qed.

Lemma sum_from_NaN l :
  fold_left (fun sum e => JS.add sum (JS.parseFloat (Expense.amount e)))
            l JS.NaN = JS.NaN.
Proof.
  induction l as [|e l IH]; cbn [fold_left]; [reflexivity|].
  rewrite add_NaN_l. exact IH.
Qed.

Lemma sum_with_NaN l e :
  In e l -> JS.parseFloat (Expense.amount e) = JS.NaN ->
  forall acc,
    fold_left (fun sum e => JS.add sum (JS.parseFloat (Expense.amount e)))
              l acc = JS.NaN.
Proof.
  intros Hin Hnan. induction l as [|e0 l IH]; [destruct Hin|].
  intros acc. cbn [fold_left]. destruct Hin as [->|Hin].
  - rewrite Hnan, add_NaN_r. apply sum_from_NaN.
  - apply IH, Hin.
Qed.

(** X22. One approved expense whose amount reads as no number turns
    the total of the statistics into [NaN], whatever the other amounts
    are, and the statistics route then shows [$NaN]. *)
Theorem getExpenseStats_total_NaN :
  forall (w : World) (id : Z) (e : Expense.t),
    getExpense id (store w) = Some e ->
    Expense.status e = "approved" ->
    JS.parseFloat (Expense.amount e) = JS.NaN ->
    totalAmount (getExpenseStats (store w)) = JS.NaN
    /\ exists p a r,
         payload (getStats w) = PStats p a r "$NaN" /\ (0 < a)%nat.
Proof.
  intros w id e Hget Hst Hnan.
  assert (Hin : In e (filter (has_status "approved")
                        (Map_values (MemStorage.expenses (store w))))).
  { apply filter_In. split.
    - unfold Map_values. apply in_map_iff. exists (id, e).
      split; [reflexivity|]. apply (Map_get_In Z.eqb Zeqb_eq), Hget.
    - unfold has_status. rewrite Hst. reflexivity. }
  assert (Htotal : totalAmount (getExpenseStats (store w)) = JS.NaN).
  { unfold getExpenseStats. cbn [totalAmount]. unfold sum_amounts.
    apply (sum_with_NaN _ e Hin Hnan). }
  split; [exact Htotal|]. unfold getStats. rewrite Htotal.
  cbn [payload]. do 3 eexists. split; [reflexivity|].
  unfold getExpenseStats. cbn [approvedCount].
  destruct (filter (has_status "approved")
              (Map_values (MemStorage.expenses (store w))));
    [destruct Hin | cbn; lia].
Qed.

Lemma getExpenseStats_total_NaN_witness :
  exists p a r, payload (getStats unpriced_approved) = PStats p a r "$NaN".
Proof.
  destruct (getExpense 4 (store unpriced_approved)) as [e|] eqn:E;
    [|vm_compute in E; discriminate].
  assert (He : Expense.status e = "approved"
               /\ JS.parseFloat (Expense.amount e) = JS.NaN).
  { vm_compute in E. injection E as <-. split; reflexivity. }
  destruct (getExpenseStats_total_NaN unpriced_approved 4 e E (proj1 He)
              (proj2 He)) as (_ & p & a & r & H & _).
  exists p, a, r. exact H.
Defined.

(* ================================================================== *)
(** * Users and settings in reachable states                        *)
(* ================================================================== *)

Lemma same_registry_refl st : same_registry st st.
Proof. repeat split. Qed.

Lemma same_registry_trans a b c :
  same_registry a b -> same_registry b c -> same_registry a c.
Proof.
  intros (A1 & A2 & A3 & A4) (B1 & B2 & B3 & B4).
  repeat split; congruence.
Qed.

Lemma gentle_registry w w' : gentle w w' -> same_registry (store w) (store w').
Proof. intros [(H1 & H2 & H3 & _ & H5 & _) _]. repeat split; assumption. Qed.

Lemma same_registry_ok st st' :
  same_registry st st' -> registry_ok st -> registry_ok st'.
Proof.
  intros (H1 & H2 & H3 & H4) (A & B & C & D).
  unfold registry_ok, users_ok, settings_ok in *.
  rewrite H1, H2, H3. repeat split; assumption.
Qed.

Lemma postExpense_registry ext now userId body w :
  same_registry (store w) (store (snd (postExpense ext now userId body w))).
Proof.
  unfold postExpense.
  destruct (getUser userId (store w)) as [user|]; [|apply same_registry_refl].
  destruct (receipt_link_store ext body w) as [Hs _].
  destruct (receipt_link ext body w) as [[link|x] w1]; cbn [snd] in Hs.
  - destruct (insertExpenseSchema_parse body (calculatedAmount body) user link)
      as [data|[]]; cbn [snd store emit];
      try (rewrite Hs; apply same_registry_refl).
    assert (Hc : same_registry (store w1)
                   (snd (createExpense now data (store w1))))
      by (repeat split).
    destruct (createExpense now data (store w1)) as [e st]. cbn [fst snd] in *.
    eapply same_registry_trans;
      [|apply gentle_registry, created_fanout_gentle].
    cbn [store with_store]. rewrite <- Hs. exact Hc.
  - cbn [snd store emit]. rewrite Hs. apply same_registry_refl.
Qed.

Lemma patchExpenseStatus_registry ext now userId id body w :
  same_registry (store w)
    (store (snd (patchExpenseStatus ext now userId id body w))).
Proof.
  unfold patchExpenseStatus.
  destruct (getUser userId (store w)) as [u|]; [|apply same_registry_refl].
  destruct (may_decide (Some u)); [|apply same_registry_refl].
  destruct (updateExpenseStatusSchema_parse body u) as [data|[]];
    try apply same_registry_refl.
  assert (H : same_registry (store w)
                (snd (updateExpenseStatus now id data (store w)))).
  { unfold updateExpenseStatus.
    destruct (Map_get Z.eqb id (MemStorage.expenses (store w)));
      repeat split. }
  destruct (updateExpenseStatus now id data (store w)) as [[e|] st];
    cbn [fst snd] in *; [|apply same_registry_refl].
  eapply same_registry_trans; [|apply gentle_registry, decided_fanout_gentle].
  exact H.
Qed.

Lemma createUser_registry_ok now u st :
  registry_ok st -> registry_ok (snd (createUser now u st)).
Proof.
  intros (A & B & C & D). split; [apply createUser_users_ok, A|].
  split; [|split; assumption].
  cbn [createUser snd set_users MemStorage.users].
  apply (NoDup_Map_set Z.eqb Zeqb_eq), B.
Qed.

Lemma setSetting_registry_ok now s st :
  registry_ok st -> registry_ok (snd (setSetting now s st)).
Proof.
  intros (A & B & C & D). unfold setSetting.
  destruct (Map_get String.eqb (InsertSystemSetting.key s)
              (MemStorage.settings st)) as [existing|] eqn:G;
    (split; [exact A|]); (split; [exact B|]);
    unfold settings_ok in *; cbn [snd set_settings MemStorage.settings];
    (split; [|apply (NoDup_Map_set String.eqb String_eqb_eq), D]);
    (apply Forall_Map_set; [|exact C]).
  - apply (Map_get_In String.eqb String_eqb_eq) in G.
    rewrite Forall_forall in C. apply (C _ G).
  - reflexivity.
Qed.

(** X23. In every state the server can reach, each user is filed under
    its own id, below the next id to give out, each setting under its
    own key, and no id and no key is filed twice: so the user an id
    reads back carries that id, and a setting read by key carries that
    key. *)
Theorem reachable_registry_ok :
  forall (ext : External) (w : World),
    reachable ext w ->
    registry_ok (store w)
    /\ (forall id u, getUser id (store w) = Some u ->
          User.id u = id /\ id < MemStorage.currentUserId (store w))
    /\ (forall key s, getSetting key (store w) = Some s ->
          SystemSetting.key s = key).
Proof.
  intros ext w Hreach.
  assert (Hok : registry_ok (store w)).
  { induction Hreach as [|w w' _ IH Hstep].
    - repeat split; constructor.
    - destruct Hstep; cbn [store with_store].
      + apply createUser_registry_ok, IH.
      + apply setSetting_registry_ok, IH.
      + revert IH. apply same_registry_ok. repeat split.
      + revert IH. apply same_registry_ok, postExpense_registry.
      + revert IH. apply same_registry_ok, patchExpenseStatus_registry.
      + revert IH. apply same_registry_ok, gentle_registry,
          postSyncSheets_gentle.
      + revert IH. apply same_registry_ok, gentle_registry,
          processNotificationQueue_gentle. }
  split; [exact Hok|]. destruct Hok as (A & _ & C & _). split.
  - intros id u Hget. apply (Map_get_In Z.eqb Zeqb_eq) in Hget.
    unfold users_ok in A. rewrite Forall_forall in A.
    destruct (A _ Hget) as [H1 H2]. split; [exact H2 | exact H1].
  - intros key s Hget. apply (Map_get_In String.eqb String_eqb_eq) in Hget.
    unfold settings_ok in C. rewrite Forall_forall in C. apply (C _ Hget).
Qed.

Lemma reachable_registry_ok_witness :
  reachable all_up sample_decided /\ registry_ok (store sample_decided).
Proof.
  assert (H : reachable all_up sample_decided).
  { eapply reach_step; [apply seeded_reachable | apply step_patchExpenseStatus]. }
  split; [exact H|]. exact (proj1 (reachable_registry_ok all_up sample_decided H)).
Defined.

(* ================================================================== *)
(** * The synchronisation route                                     *)
(* ================================================================== *)

(** X25. Only an admin starts a synchronisation: for any other caller,
    an approver included, the answer is 403 and nothing happens, neither
    in the store nor towards the outside. For an admin the answer is
    200 or 500, the store changes at most in the row numbers and flags
    of its expenses, and no expense is appended that already has a
    row. *)
Theorem postSyncSheets_admin_only :
  forall (ext : External) (userId : Z) (w : World),
    let r := postSyncSheets ext userId w in
    (is_admin (getUser userId (store w)) = false ->
       r = (mkResponse 403 (PMessage "Admin access required"), w))
    /\ (is_admin (getUser userId (store w)) = true ->
        (code (fst r) = 200 \/ code (fst r) = 500)
        /\ same_but_sync (store w) (store (snd r))
        /\ forall id, has_row id (store w) -> store_ok (store w) ->
             appends_for id (log (snd r)) = appends_for id (log w)).
Proof.
  intros ext userId w. cbn zeta. unfold postSyncSheets.
  destruct (is_admin (getUser userId (store w))).
  2:{ split; [reflexivity | discriminate]. }
  split; [discriminate|]. intros _.
  pose proof (syncExpensesToSheet_gentle ext w) as [Hs _].
  assert (Happ : forall id, has_row id (store w) -> store_ok (store w) ->
            appends_for id (log (snd (syncExpensesToSheet ext w)))
            = appends_for id (log w)).
  { intros id (e & Hget & Ht) Hok. unfold appends_for.
    rewrite (log_syncExpensesToSheet ext w (is_append id)) by reflexivity.
    apply (sync_loop_skips ext (getAllExpenses (store w)) w id).
    intros e0 Hin Hid.
    pose proof (getAllExpenses_stored _ e0 Hok Hin) as H0.
    rewrite Hid, Hget in H0. injection H0 as <-. exact Ht. }
  destruct (syncExpensesToSheet ext w) as [[u|x] w1]; cbn [fst snd code] in *.
  - split; [left; reflexivity|]. split; [exact Hs | exact Happ].
  - split; [right; reflexivity|]. split; [exact Hs|].
    intros id Hrow Hok. rewrite <- (Happ id Hrow Hok).
    unfold appends_for, count. cbn [log emit]. rewrite filter_app.
    cbn [filter is_append]. rewrite app_nil_r. reflexivity.
Qed.

Lemma postSyncSheets_admin_only_witness :
  postSyncSheets all_up 2 (seeded 1750700000000)
  = (mkResponse 403 (PMessage "Admin access required"), seeded 1750700000000).
Proof.
  apply (proj1 (postSyncSheets_admin_only all_up 2 (seeded 1750700000000))).
  reflexivity.
Defined.
